(** * The Upbit ETH trading bot: signed exchange client and buy engine

    A shallow embedding of [src/server.js]: the class [UpbitAPI] (request
    signing, balance and order-history lookup, order placement) and the
    class [TradingEngine] ([executeBuy], [checkDuplicateBuy]), and the two
    routes as functions of the request body.

    How the JavaScript is rendered:
    - numbers are IEEE 754 binary64 values ([spec_float] at precision 53),
      so [krwBalance * 0.1] is the rounded product the program computes;
    - time values (milliseconds since the epoch) are integers, an invalid
      date is [None];
    - JSON data received from the exchange is a [value]; reading a property
      of [null] or calling an array method on a non-array raises, and so
      does converting to a string ([parseFloat], [new Date], a template
      literal) an object that has a key [toString] of its own;
    - an [async] method is a computation [M A] over the list of HTTP
      requests sent so far: it returns a value or a thrown error, together
      with the extended list of requests;
    - library functions the program calls but does not define (axios, the
      clock, random identifiers, SHA-512, jsonwebtoken, float parsing and
      printing, date parsing) are the fields of a [Host]; console output is
      not modelled.

    Left out: the Express middleware that parses the body, and
    [app.listen]. *)

From Stdlib Require Import ZArith String List Bool Ascii Lia.
From Stdlib Require Import Floats.SpecFloat.
From Stdlib Require Import DecimalString.
Import ListNotations.

Local Open Scope string_scope.
Local Open Scope Z_scope.
Local Set Warnings "-register-all".

(* ===================================================================== *)
(** * JavaScript numbers *)
(* ===================================================================== *)

Module Number.

Definition prec : Z := 53.
Definition emax : Z := 1024.

Definition number : Type := spec_float.

Definition NaN : number := S754_nan.

(** The double of an integer literal (exact up to 2^53). *)
Definition of_Z (z : Z) : number := binary_normalize prec emax z 0 false.

Definition mul (x y : number) : number := SFmul prec emax x y.
Definition div (x y : number) : number := SFdiv prec emax x y.

(** [x < y] of JavaScript: false as soon as one side is NaN. *)
Definition ltb (x y : number) : bool := SFltb x y.

(** The signed integer [±m] scaled by [2^e], rounded toward minus
    infinity. *)
Definition floor_scaled (s : bool) (m : positive) (e : Z) : Z :=
  if 0 <=? e then cond_Zopp s (Zpos m) * 2 ^ e
  else cond_Zopp s (Zpos m) / 2 ^ (- e).

(** [Math.floor]: NaN, the infinities and the zeros are returned as they
    are; a value that is already an integer too. *)
Definition Math_floor (x : number) : number :=
  match x with
  | S754_finite s m e =>
      if 0 <=? e then x
      else binary_normalize prec emax (floor_scaled s m e) 0 s
  | _ => x
  end.

(** The integer a number denotes, when it denotes one. *)
Definition integer_value (x : number) : option Z :=
  match x with
  | S754_zero _ => Some 0
  | S754_finite s m e =>
      if 0 <=? e then Some (cond_Zopp s (Zpos m * 2 ^ e))
      else if Zpos m mod 2 ^ (- e) =? 0
           then Some (cond_Zopp s (Zpos m / 2 ^ (- e)))
           else None
  | _ => None
  end.

(** Truncation toward zero of a finite number. *)
Definition truncate (x : number) : option Z :=
  match x with
  | S754_zero _ => Some 0
  | S754_finite s m e =>
      Some (cond_Zopp s (if 0 <=? e then Zpos m * 2 ^ e
                         else Zpos m / 2 ^ (- e)))
  | _ => None
  end.

Definition decimal (z : Z) : string := NilZero.string_of_int (Z.to_int z).

(** [Number.prototype.toString]: NaN, the infinities and the integers of
    magnitude at most 2^53 print as below; the digits of any other number
    (a fraction, a larger magnitude) are produced by [digits], the
    engine's shortest round-trip printer. *)
Definition toString (digits : number -> string) (x : number) : string :=
  match x with
  | S754_nan => "NaN"
  | S754_infinity false => "Infinity"
  | S754_infinity true => "-Infinity"
  | _ =>
      match integer_value x with
      | Some z => if Z.abs z <=? 2 ^ 53 then decimal z else digits x
      | None => digits x
      end
  end.

(** Truthiness of a number: false for the zeros and NaN. *)
Definition truthy (x : number) : bool :=
  match x with
  | S754_zero _ | S754_nan => false
  | _ => true
  end.

End Number.
Import Number.

(* ===================================================================== *)
(** * JavaScript values and thrown errors *)
(* ===================================================================== *)

Inductive value : Type :=
| Undefined
| Null
| Bool (b : bool)
| Num (n : number)
| Str (s : string)
| Arr (items : list value)
| Obj (props : list (string * value)).

(** A thrown error: the program only ever reads its [message]. *)
Record exn : Type := Throw { name : string; message : string }.

Definition Error (msg : string) : exn := Throw "Error" msg.
Definition TypeError (msg : string) : exn := Throw "TypeError" msg.

(** The result of evaluating an expression that may throw. *)
Definition res (A : Type) : Type := (exn + A)%type.

Fixpoint lookup (k : string) (ps : list (string * value)) : value :=
  match ps with
  | [] => Undefined
  | (k', v) :: rest => if String.eqb k k' then v else lookup k rest
  end.

Definition has_key (k : string) (ps : list (string * value)) : bool :=
  existsb (fun kv => String.eqb k (fst kv)) ps.

(** [v.k] for the property names this program reads ([symbol], [currency],
    [balance], [uuid], [side], [state], [created_at], [trade_price],
    [action]): none of them is
    defined on a number, a boolean, a string or an array, so only an object
    can answer with something else than [undefined]; [null] and
    [undefined] have no properties at all. The wording of the message is
    the engine's. *)
Definition getProp (v : value) (k : string) : res value :=
  match v with
  | Undefined =>
      inl (TypeError ("Cannot read properties of undefined (reading '" ++ k ++ "')"))
  | Null =>
      inl (TypeError ("Cannot read properties of null (reading '" ++ k ++ "')"))
  | Obj ps => inr (lookup k ps)
  | _ => inr Undefined
  end.

(** [v === s] for a string literal [s]. *)
Definition strict_eq_str (v : value) (s : string) : bool :=
  match v with
  | Str t => String.eqb t s
  | _ => false
  end.

Definition truthy (v : value) : bool :=
  match v with
  | Undefined | Null => false
  | Bool b => b
  | Num n => Number.truthy n
  | Str s => negb (String.eqb s "")
  | Arr _ | Obj _ => true
  end.

Fixpoint join (sep : string) (l : list string) : string :=
  match l with
  | [] => ""
  | [x] => x
  | x :: rest => x ++ sep ++ join sep rest
  end.

Section Array_map.

Context {A B : Type}.
Variable f : A -> res B.

(** [Array.prototype.map] with a callback that may throw: the elements
    are visited in order and the first throw ends the visit. *)
Fixpoint Array_map (l : list A) : res (list B) :=
  match l with
  | [] => inr []
  | x :: rest =>
      match f x with
      | inl e => inl e
      | inr y =>
          match Array_map rest with
          | inl e => inl e
          | inr ys => inr (y :: ys)
          end
      end
  end.

End Array_map.

(** The string a value is converted to by a template literal or by a
    builtin that expects a string. Data parsed from JSON holds no
    function: an object that has a key [toString] of its own hides the
    inherited method behind something that cannot be called, and the
    conversion throws; any other object prints as [[object Object]]. An
    array is joined, which converts its elements in turn. *)
Fixpoint ToString (digits : number -> string) (v : value) : res string :=
  match v with
  | Undefined => inr "undefined"
  | Null => inr "null"
  | Bool true => inr "true"
  | Bool false => inr "false"
  | Num n => inr (Number.toString digits n)
  | Str s => inr s
  | Arr items =>
      match Array_map (fun x => match x with
                                | Undefined | Null => inr ""
                                | _ => ToString digits x
                                end) items with
      | inl e => inl e
      | inr texts => inr (join "," texts)
      end
  | Obj ps =>
      if has_key "toString" ps
      then inl (TypeError "Cannot convert object to primitive value")
      else inr "[object Object]"
  end.

(** [Array.prototype.find] with a callback that may throw: the first
    element the callback accepts, [undefined] when there is none. *)
Fixpoint Array_find (p : value -> res bool) (l : list value) : res value :=
  match l with
  | [] => inr Undefined
  | x :: rest =>
      match p x with
      | inl e => inl e
      | inr true => inr x
      | inr false => Array_find p rest
      end
  end.

(** [Array.prototype.filter] with a callback that may throw. *)
Fixpoint Array_filter (p : value -> res bool) (l : list value) : res (list value) :=
  match l with
  | [] => inr []
  | x :: rest =>
      match p x with
      | inl e => inl e
      | inr b =>
          match Array_filter p rest with
          | inl e => inl e
          | inr kept => inr (if b then x :: kept else kept)
          end
      end
  end.

(** Calling an array method on something that is not an array. *)
Definition not_a_function (receiver method : string) (v : value) : exn :=
  match v with
  | Undefined =>
      TypeError ("Cannot read properties of undefined (reading '" ++ method ++ "')")
  | Null =>
      TypeError ("Cannot read properties of null (reading '" ++ method ++ "')")
  | _ => TypeError (receiver ++ "." ++ method ++ " is not a function")
  end.

(** [v[0]]: the first element of an array, the first character of a
    string, the property ["0"] of an object; [undefined] when there is
    none, and on numbers and booleans. *)
Definition first_item (v : value) : res value :=
  match v with
  | Undefined => inl (TypeError "Cannot read properties of undefined (reading '0')")
  | Null => inl (TypeError "Cannot read properties of null (reading '0')")
  | Arr items => inr (nth 0 items Undefined)
  | Str (String c _) => inr (Str (String c EmptyString))
  | Str EmptyString => inr Undefined
  | Obj ps => inr (lookup "0" ps)
  | Bool _ | Num _ => inr Undefined
  end.

Fixpoint drop (n : nat) (s : string) : string :=
  match n, s with
  | O, _ => s
  | S n', String _ rest => drop n' rest
  | S _, EmptyString => EmptyString
  end.

(** [s.replace(pattern, '')] for a string [pattern]: the first occurrence
    of the pattern is taken out, the rest of the string is kept. *)
Fixpoint String_replace_empty (pattern s : string) : string :=
  if String.prefix pattern s then drop (String.length pattern) s
  else match s with
       | EmptyString => EmptyString
       | String c rest => String c (String_replace_empty pattern rest)
       end.

Fixpoint indexed (i : nat) (items : list value) : list (string * value) :=
  match items with
  | [] => []
  | x :: rest => (Number.decimal (Z.of_nat i), x) :: indexed (S i) rest
  end.

(** The properties [{ ...v }] copies: those of an object, the elements of
    an array under their indices, the characters of a string (one per
    byte here) under theirs, none for anything else. *)
Definition own_props (v : value) : list (string * value) :=
  match v with
  | Obj ps => ps
  | Arr items => indexed 0 items
  | Str s => indexed 0 (map (fun c => Str (String c EmptyString)) (list_ascii_of_string s))
  | _ => []
  end.

(** [{ ...ps, k: v }]: an existing key keeps its place and takes the new
    value, a new key goes last. *)
Fixpoint set_prop (k : string) (v : value) (ps : list (string * value))
  : list (string * value) :=
  match ps with
  | [] => [(k, v)]
  | (k', v') :: rest =>
      if String.eqb k k' then (k', v) :: rest else (k', v') :: set_prop k v rest
  end.

(* ===================================================================== *)
(** * encodeURIComponent *)
(* ===================================================================== *)

(** Strings are sequences of UTF-8 bytes: every byte outside the unreserved
    set [A-Z a-z 0-9 - _ . ! ~ * ' ( )] is written [%XX]. Such a sequence
    is well-formed text; a text with a lone surrogate, the one input the
    builtin throws on, has none. *)
Definition unreserved (c : ascii) : bool :=
  let n := N_of_ascii c in
  (((65 <=? n) && (n <=? 90)) || ((97 <=? n) && (n <=? 122))
   || ((48 <=? n) && (n <=? 57))
   || existsb (N.eqb n) [45; 95; 46; 33; 126; 42; 39; 40; 41])%N.

Definition hex_digit (n : N) : ascii :=
  ascii_of_N (if (n <? 10)%N then 48 + n else 55 + n)%N.

Fixpoint encodeURIComponent (s : string) : string :=
  match s with
  | EmptyString => EmptyString
  | String c rest =>
      if unreserved c then String c (encodeURIComponent rest)
      else String "%" (String (hex_digit (N_of_ascii c / 16))
                      (String (hex_digit (N_of_ascii c mod 16))
                         (encodeURIComponent rest)))
  end.

(* ===================================================================== *)
(** * Dates *)
(* ===================================================================== *)

(** A time value is a number of milliseconds; [None] is the invalid date,
    whose time value is NaN. *)
Definition time : Type := option Z.

(** The range check made by the [Date] constructor on a time value. *)
Definition TimeClip (t : Z) : time :=
  if Z.abs t <=? 8640000000000000 then Some t else None.

(** [new Date(v)] for a JSON value [v]: a string is parsed, anything else
    is converted to a number ([undefined] to NaN, [null] to 0). Arrays and
    objects are converted to a string first, which throws when [ToString]
    does. *)
Definition Date_new (digits : number -> string) (parse : string -> time)
    (v : value) : res time :=
  match v with
  | Undefined => inr None
  | Null => inr (Some 0)
  | Bool b => inr (Some (if b then 1 else 0))
  | Num n => inr (match Number.truncate n with
                  | Some t => TimeClip t
                  | None => None
                  end)
  | Str s => inr (parse s)
  | Arr _ | Obj _ =>
      match ToString digits v with
      | inl e => inl e
      | inr text => inr (parse text)
      end
  end.

(** [a >= b] on dates: false when one of them is invalid. *)
Definition Date_ge (a b : time) : bool :=
  match a, b with
  | Some x, Some y => y <=? x
  | _, _ => false
  end.

(* ===================================================================== *)
(** * The host: network, clock, randomness, libraries *)
(* ===================================================================== *)

(** The argument of [axios(...)]. *)
Record Request : Type := mkRequest {
  method : string;
  url : string;
  headers : list (string * string);
  data : value
}.

(** Everything the program calls but does not define. The effectful
    members read the list of requests sent so far, which is all the
    program can do to the outside world. *)
Record Host : Type := mkHost {
  (** [process.env.UPBIT_ACCESS_KEY], [process.env.UPBIT_SECRET_KEY] *)
  UPBIT_ACCESS_KEY : value;
  UPBIT_SECRET_KEY : value;
  (** shortest round-trip digits of a number that is not a small integer *)
  number_digits : number -> string;
  (** [parseFloat] on a string *)
  parseFloat_string : string -> number;
  (** [Date.parse] *)
  Date_parse : string -> time;
  (** [crypto.createHash('sha512').update(s).digest('hex')] *)
  sha512_hex : string -> string;
  (** [jwt.sign(payload, secret, options)] *)
  jwt_sign : list Request -> value -> value -> value -> res string;
  (** [crypto.randomUUID()] *)
  randomUUID : list Request -> string;
  (** [crypto.randomBytes(n).toString('hex')] *)
  randomBytes_hex : list Request -> Z -> string;
  (** [Date.now()] *)
  Date_now : list Request -> Z;
  (** [axios(request)]: the body of the response, or the rejection; every
      call is taken to settle (the program sets no timeout of its own) *)
  axios : list Request -> Request -> res value
}.

(* ===================================================================== *)
(** * Asynchronous computations *)
(* ===================================================================== *)

Definition M (A : Type) : Type := list Request -> res A * list Request.

Definition ret {A} (x : A) : M A := fun sent => (inr x, sent).

Definition throw {A} (e : exn) : M A := fun sent => (inl e, sent).

Definition bind {A B} (m : M A) (k : A -> M B) : M B :=
  fun sent =>
    match m sent with
    | (inr x, sent') => k x sent'
    | (inl e, sent') => (inl e, sent')
    end.

(** [try { body } catch (error) { handler }]: requests sent by the body
    before it threw stay sent. *)
Definition try_catch {A} (body : M A) (handler : exn -> M A) : M A :=
  fun sent =>
    match body sent with
    | (inr x, sent') => (inr x, sent')
    | (inl e, sent') => handler e sent'
    end.

(** An expression that may throw, evaluated inside a computation. *)
Definition eval {A} (r : res A) : M A := fun sent => (r, sent).

(** A host function that reads the outside world. *)
Definition ask {A} (f : list Request -> A) : M A := fun sent => (inr (f sent), sent).

(** [await axios(request)] *)
Definition await_axios (h : Host) (request : Request) : M value :=
  fun sent => (axios h sent request, (sent ++ [request])%list).

(** [console.log], [console.warn], [console.error]: the arguments are
    evaluated by the caller; nothing is recorded. *)
Definition console_log (args : list value) : M unit := ret tt.

Declare Scope js_scope.
Delimit Scope js_scope with js.
Notation "x <- m ;; k" := (bind m (fun x => k))
  (at level 61, m at next level, right associativity) : js_scope.
Notation "m ;;; k" := (bind m (fun _ => k))
  (at level 61, right associativity) : js_scope.
Notation "'try' body 'catch' handler" := (try_catch body handler)
  (at level 61, body at level 61, handler at level 61) : js_scope.
Local Open Scope js_scope.

(* ===================================================================== *)
(** * CONFIG *)
(* ===================================================================== *)

Module CONFIG.
Definition UPBIT_API_URL : string := "https://api.upbit.com".
Definition TRADING_SYMBOL : string := "KRW-ETH".
(** The literal [0.1]: the double nearest to one tenth. *)
Definition BUY_PERCENTAGE : number := Number.div (of_Z 1) (of_Z 10).
Definition MIN_ORDER_AMOUNT : number := of_Z 5000.
Definition DUPLICATE_PREVENTION_HOURS : Z := 1.
Definition RETRY_ATTEMPTS : Z := 3.
Definition RETRY_DELAY : Z := 1000.
End CONFIG.

(* ===================================================================== *)
(** * class UpbitAPI *)
(* ===================================================================== *)

Module UpbitAPI.
Section WithHost.

Variable h : Host.

(** The fields set by the constructor. *)
Definition accessKey : value := UPBIT_ACCESS_KEY h.
Definition secretKey : value := UPBIT_SECRET_KEY h.
Definition baseUrl : string := CONFIG.UPBIT_API_URL.

(** A value written into a template literal or handed to a builtin that
    expects a string. *)
Definition String_of (v : value) : res string := ToString (number_digits h) v.

(** A number written into a template literal, and [price.toString()]. *)
Definition Number_toString (n : number) : string :=
  Number.toString (number_digits h) n.

(** [parseFloat(v)]: the argument is converted to a string first. *)
Definition parseFloat (v : value) : res number :=
  match String_of v with
  | inl e => inl e
  | inr text => inr (parseFloat_string h text)
  end.

(** The object [payload] that [generateJWT] hands to [jwt.sign]. *)
Definition jwt_payload (nonce : string) (queryHash : value) : list (string * value) :=
  let payload := [("access_key", accessKey); ("nonce", Str nonce)] in
  if truthy queryHash
  then (payload ++ [("query_hash", queryHash); ("query_hash_alg", Str "SHA512")])%list
  else payload.

Definition jwt_options : value :=
  Obj [("algorithm", Str "HS512");
       ("header", Obj [("alg", Str "HS512"); ("typ", Str "JWT")])].

Definition generateJWT (queryHash : value) : M string :=
  nonce <- ask (randomUUID h) ;;
  let payload := jwt_payload nonce queryHash in
  token <- (fun sent => (jwt_sign h sent (Obj payload) secretKey jwt_options, sent)) ;;
  ret ("Bearer " ++ token).

(** The keys in the order they were written, which is the order of
    [Object.keys] for keys that are names, as all keys of the program
    are (keys that are array indices would come first). *)
Definition Object_keys (params : list (string * value)) : list string :=
  map fst params.

(** [Object.keys(params).map(key => `${key}=${encodeURIComponent(params[key])}`).join('&')]:
    it throws when one of the values cannot be converted to a string. *)
Definition queryString_of (params : list (string * value)) : res string :=
  match Array_map (fun key =>
                     match String_of (lookup key params) with
                     | inl e => inl e
                     | inr text => inr (key ++ "=" ++ encodeURIComponent text)
                     end)
                  (Object_keys params) with
  | inl e => inl e
  | inr members => inr (join "&" members)
  end.

Definition makeRequest (method endpoint : string)
    (params : list (string * value)) (requiresAuth : bool) : M value :=
  let url := baseUrl ++ endpoint in
  let headers := [("Content-Type", "application/json")] in
  let data := Null in
  prepared <-
    (if requiresAuth then
       let queryString := "" in
       let queryHash := Null in
       built <-
         (if (0 <? length (Object_keys params))%nat then
            queryString <- eval (queryString_of params) ;;
            let '(url, data) :=
              if String.eqb method "GET" then (url ++ "?" ++ queryString, data)
              else (url, Obj params) in
            let queryHash :=
              if truthy (Str queryString) then Str (sha512_hex h queryString)
              else queryHash in
            ret (url, data, queryHash)
          else ret (url, data, queryHash)) ;;
       let '(url, data, queryHash) := built in
       authorization <- generateJWT queryHash ;;
       ret (url, (headers ++ [("Authorization", authorization)])%list, data)
     else if String.eqb method "GET" && (0 <? length (Object_keys params))%nat then
       queryString <- eval (queryString_of params) ;;
       ret (url ++ "?" ++ queryString, headers, data)
     else ret (url, headers, data)) ;;
  let '(url, headers, data) := prepared in
  try (response <- await_axios h (mkRequest method url headers data) ;;
       ret response)
  catch (fun error => throw error).

(** The ticker is asked without a token: [requiresAuth] is left out. *)
Definition getCurrentPrice (market : string) : M number :=
  data <- makeRequest "GET" "/v1/ticker" [("markets", Str market)] false ;;
  first <- eval (first_item data) ;;
  trade_price <- eval (getProp first "trade_price") ;;
  eval (parseFloat trade_price).

Definition getAccounts : M value :=
  makeRequest "GET" "/v1/accounts" [] true.

Definition getKrwBalance : M number :=
  accounts <- getAccounts ;;
  krwAccount <-
    eval (match accounts with
          | Arr items =>
              Array_find (fun account =>
                            match getProp account "currency" with
                            | inl e => inl e
                            | inr currency => inr (strict_eq_str currency "KRW")
                            end) items
          | _ => inl (not_a_function "accounts" "find" accounts)
          end) ;;
  if truthy krwAccount then
    balance <- eval (getProp krwAccount "balance") ;;
    eval (parseFloat balance)
  else ret (of_Z 0).

Definition placeBuyOrder (market : string) (price : number) : M value :=
  if Number.ltb price CONFIG.MIN_ORDER_AMOUNT then
    throw (Error ("최소 주문 금액 " ++ Number_toString CONFIG.MIN_ORDER_AMOUNT
                  ++ "원 이상이어야 합니다."))
  else
    let orderParams :=
      [("market", Str market);
       ("side", Str "bid");
       ("ord_type", Str "price");
       ("price", Str (Number_toString price))] in
    result <- makeRequest "POST" "/v1/orders" orderParams true ;;
    ret result.

(** [cutoffTime]: [new Date(Date.now() - hours * 60 * 60 * 1000)], for a
    whole number of hours. The integer arithmetic is the arithmetic of the
    doubles as long as the magnitudes stay below 2^53, which the range
    check of the constructor leaves room for. *)
Definition cutoffTime (now hours : Z) : time :=
  TimeClip (now - hours * 60 * 60 * 1000).

(** The callback of the filter in [getRecentOrders]: it throws when the
    order cannot be read or its [created_at] cannot be made a date. *)
Definition created_since (cutoff : time) (order : value) : res bool :=
  match getProp order "created_at" with
  | inl e => inl e
  | inr created_at =>
      match Date_new (number_digits h) (Date_parse h) created_at with
      | inl e => inl e
      | inr orderTime => inr (Date_ge orderTime cutoff)
      end
  end.

(** The object [{ market, states, limit: 100 }]. *)
Definition orders_query (market states : string) : list (string * value) :=
  [("market", Str market); ("states", Str states); ("limit", Num (of_Z 100))].

(** [hours] is [None] when the caller leaves it out: it defaults to 24. *)
Definition getRecentOrders (market : string) (hours : option Z) : M value :=
  let hours := match hours with Some n => n | None => 24 end in
  let states := "done,cancel" in
  orders <- makeRequest "GET" "/v1/orders" (orders_query market states) true ;;
  now <- ask (Date_now h) ;;
  let cutoff := cutoffTime now hours in
  kept <- eval (match orders with
                | Arr items => Array_filter (created_since cutoff) items
                | _ => inl (not_a_function "orders" "filter" orders)
                end) ;;
  ret (Arr kept).

End WithHost.
End UpbitAPI.

(* ===================================================================== *)
(** * class TradingEngine *)
(* ===================================================================== *)

Module TradingEngine.
Section WithHost.

Variable h : Host.

Definition generateId : M string :=
  ask (fun sent => randomBytes_hex h sent 8).

(** [order.side === 'bid' && order.state === 'done'] *)
Definition is_done_bid (order : value) : res bool :=
  match getProp order "side" with
  | inl e => inl e
  | inr side =>
      if strict_eq_str side "bid" then
        match getProp order "state" with
        | inl e => inl e
        | inr state => inr (strict_eq_str state "done")
        end
      else inr false
  end.

Definition checkDuplicateBuy : M bool :=
  try (recentOrders <- UpbitAPI.getRecentOrders h CONFIG.TRADING_SYMBOL
                         (Some CONFIG.DUPLICATE_PREVENTION_HOURS) ;;
       buyOrders <- eval (match recentOrders with
                          | Arr items => Array_filter is_done_bid items
                          | _ => inl (not_a_function "recentOrders" "filter" recentOrders)
                          end) ;;
       ret (0 <? length buyOrders)%nat)
  catch (fun error =>
           console_log [Str "중복 검사 실패:"; Str (message error)] ;;;
           ret false).

(** [Math.floor(krwBalance * CONFIG.BUY_PERCENTAGE)] *)
Definition buyAmount_of (krwBalance : number) : number :=
  Math_floor (Number.mul krwBalance CONFIG.BUY_PERCENTAGE).

(** The first two lines run before the [try]: the identifier is drawn and
    [webhookData.symbol] is read for the first line of the log. *)
Definition executeBuy (webhookData : value) : M value :=
  executionId <- generateId ;;
  symbol <- eval (getProp webhookData "symbol") ;;
  console_log [Str "매수 실행 시작:";
               Obj [("executionId", Str executionId); ("symbol", symbol)]] ;;;
  try (krwBalance <- UpbitAPI.getKrwBalance h ;;
       console_log [Str "KRW 잔고:"; Num krwBalance] ;;;
       let buyAmount := buyAmount_of krwBalance in
       (if Number.ltb buyAmount CONFIG.MIN_ORDER_AMOUNT then
          throw (Error ("잔고 부족: " ++ UpbitAPI.Number_toString h buyAmount
                        ++ "원 (최소 "
                        ++ UpbitAPI.Number_toString h CONFIG.MIN_ORDER_AMOUNT
                        ++ "원)"))
        else ret tt) ;;;
       isDuplicate <- checkDuplicateBuy ;;
       if isDuplicate then
         console_log [Str "중복 매수 방지로 주문 취소"] ;;;
         ret (Obj [("success", Bool false); ("reason", Str "중복 매수 방지")])
       else
         result <- UpbitAPI.placeBuyOrder h CONFIG.TRADING_SYMBOL buyAmount ;;
         console_log [Str "매수 완료:"; result] ;;;
         orderId <- eval (getProp result "uuid") ;;
         ret (Obj [("success", Bool true); ("orderId", orderId);
                   ("amount", Num buyAmount)]))
  catch (fun error =>
           console_log [Str "매수 실행 실패:"; Str (message error)] ;;;
           ret (Obj [("success", Bool false); ("error", Str (message error))])).

End WithHost.
End TradingEngine.

(* ===================================================================== *)
(** * The routes *)
(* ===================================================================== *)

(** What a handler answers: the status set by [res.status] (200 when it
    is not set) and the object given to [res.json]. *)
Record Response : Type := mkResponse { statusCode : Z; json : value }.

Module Routes.
Section WithHost.

Variable h : Host.

(** [Date.prototype.toISOString] on the time value of [new Date()]. *)
Variable toISOString : Z -> string.

(** [app.get('/')] *)
Definition get_root : M Response :=
  now <- ask (Date_now h) ;;
  ret (mkResponse 200
         (Obj [("status", Str "healthy");
               ("message", Str "Upbit ETH Trading Bot is ready");
               ("timestamp", Str (toISOString now))])).

(** [webhookData.symbol?.replace('ETH', '').replace('KRW', '')]: nothing
    is called on a missing symbol, and only a string has a [replace]. The
    wording of the message is the engine's. *)
Definition stripped_symbol (symbol : value) : res value :=
  match symbol with
  | Undefined | Null => inr Undefined
  | Str s => inr (Str (String_replace_empty "KRW" (String_replace_empty "ETH" s)))
  | _ => inl (TypeError "webhookData.symbol?.replace is not a function")
  end.

(** The conditional binds last: [(a === 'ETH' || b === 'ETHKRW') ?
    'KRW-ETH' : null]. *)
Definition normalizedSymbol_of (webhookData : value) : res value :=
  match getProp webhookData "symbol" with
  | inl e => inl e
  | inr symbol =>
      match stripped_symbol symbol with
      | inl e => inl e
      | inr stripped =>
          inr (if strict_eq_str stripped "ETH" || strict_eq_str symbol "ETHKRW"
               then Str "KRW-ETH" else Null)
      end
  end.

(** [app.post('/')], as a function of [req.body]. *)
Definition post_root (body : value) : M Response :=
  try (let webhookData := body in
       console_log [Str "웹훅 수신:"; webhookData] ;;;
       invalid <- eval (if negb (truthy webhookData) then inr true
                        else match getProp webhookData "action" with
                             | inl e => inl e
                             | inr action => inr (negb (strict_eq_str action "BUY"))
                             end) ;;
       if (invalid : bool) then
         ret (mkResponse 400 (Obj [("error", Str "유효하지 않은 매수 신호")]))
       else
         normalizedSymbol <- eval (normalizedSymbol_of webhookData) ;;
         if negb (truthy normalizedSymbol) then
           ret (mkResponse 400 (Obj [("error", Str "지원하지 않는 심볼")]))
         else
           result <- TradingEngine.executeBuy h
                       (Obj (set_prop "symbol" normalizedSymbol (own_props webhookData))) ;;
           now <- ask (Date_now h) ;;
           ret (mkResponse 200
                  (Obj [("success", Bool true);
                        ("result", result);
                        ("timestamp", Str (toISOString now))])))
  catch (fun error =>
           console_log [Str "웹훅 처리 실패:"; Str (message error)] ;;;
           ret (mkResponse 500
                  (Obj [("error", Str "서버 오류");
                        ("message", Str (message error))]))).

End WithHost.
End Routes.

(* ===================================================================== *)
(** * A reference host, to run the program on concrete exchanges *)
(* ===================================================================== *)

(** The theorems below hold for every [Host]. To run examples one host is
    spelled out here. Its [parseFloat] and [Date.parse] follow the builtins
    on the inputs the exchange produces (decimal numerals, ISO 8601
    timestamps with an offset). Its SHA-512 and its token are transparent
    stand-ins that show what was hashed and what was signed: the theorems
    never look inside them. *)
Module Reference.

Definition is_digit (c : ascii) : bool :=
  ((48 <=? N_of_ascii c) && (N_of_ascii c <=? 57))%N.

Definition digit_value (c : ascii) : Z := Z.of_N (N_of_ascii c) - 48.

(** Reads decimal digits: their value so far, how many were read, and
    the rest of the string. *)
Fixpoint read_digits (acc : Z) (count : Z) (s : string) : Z * Z * string :=
  match s with
  | String c rest =>
      if is_digit c then read_digits (10 * acc + digit_value c) (count + 1) rest
      else (acc, count, s)
  | EmptyString => (acc, count, s)
  end.

Definition is_space (c : ascii) : bool :=
  existsb (N.eqb (N_of_ascii c)) [9; 10; 11; 12; 13; 32]%N.

Fixpoint skip_spaces (s : string) : string :=
  match s with
  | String c rest => if is_space c then skip_spaces rest else s
  | EmptyString => s
  end.

(** The double nearest to [(-1)^neg * digits * 10^exp10]. *)
Definition decimal_to_number (neg : bool) (digits : Z) (exp10 : Z) : number :=
  if digits =? 0 then S754_zero neg
  else if 0 <=? exp10
  then binary_normalize prec emax (cond_Zopp neg (digits * 10 ^ exp10)) 0 neg
  else
    let '(q, e, loc) :=
      SFdiv_core_binary prec emax digits 0 (10 ^ (- exp10)) 0 in
    binary_round_aux prec emax neg q e loc.

Definition read_sign (s : string) : bool * string :=
  match s with
  | String "-" rest => (true, rest)
  | String "+" rest => (false, rest)
  | _ => (false, s)
  end.

(** The exponent part [e±ddd], when one is there. *)
Definition read_exponent (s : string) : Z :=
  match s with
  | String c rest =>
      if (Ascii.eqb c "e" || Ascii.eqb c "E")%bool then
        let '(neg, rest) := read_sign rest in
        let '(x, n, _) := read_digits 0 0 rest in
        if 0 <? n then cond_Zopp neg x else 0
      else 0
  | EmptyString => 0
  end.

(** [parseFloat] on a string: leading blanks, a sign, then the longest
    prefix that is [Infinity] or a decimal literal; NaN when there is
    none. *)
Definition parseFloat_string (s : string) : number :=
  let '(neg, s) := read_sign (skip_spaces s) in
  if String.prefix "Infinity" s then S754_infinity neg
  else
    let '(int_part, int_count, s) := read_digits 0 0 s in
    let '(mantissa, frac_count, s) :=
      match s with
      | String "." rest => read_digits int_part 0 rest
      | _ => (int_part, 0, s)
      end in
    if (int_count + frac_count =? 0) then NaN
    else decimal_to_number neg mantissa (read_exponent s - frac_count).

(** Days from 1970-01-01 to the given civil date. *)
Definition days_from_civil (y m d : Z) : Z :=
  let y' := if m <=? 2 then y - 1 else y in
  let era := y' / 400 in
  let yoe := y' - era * 400 in
  let doy := (153 * (if 2 <? m then m - 3 else m + 9) + 2) / 5 + d - 1 in
  let doe := yoe * 365 + yoe / 4 - yoe / 100 + doy in
  era * 146097 + doe - 719468.

Definition days_in_month (y m : Z) : Z :=
  if m =? 2 then
    if ((y mod 4 =? 0) && negb (y mod 100 =? 0) || (y mod 400 =? 0))%bool
    then 29 else 28
  else if existsb (Z.eqb m) [4; 6; 9; 11] then 30 else 31.

(** Exactly [n] decimal digits at position [pos]. *)
Definition field (s : string) (pos n : nat) : option Z :=
  let '(v, count, rest) := read_digits 0 0 (substring pos n s) in
  if (count =? Z.of_nat n) && String.eqb rest "" then Some v else None.

Definition char_at (s : string) (pos : nat) : string := substring pos 1 s.

(** [Date.parse] on [YYYY-MM-DDTHH:mm:ss±HH:mm] and on
    [YYYY-MM-DDTHH:mm:ssZ]; every other string is rejected here. *)
Definition Date_parse (s : string) : time :=
  match field s 0 4, field s 5 2, field s 8 2,
        field s 11 2, field s 14 2, field s 17 2 with
  | Some y, Some mo, Some d, Some hh, Some mi, Some ss =>
      let separators :=
        (String.eqb (char_at s 4) "-" && String.eqb (char_at s 7) "-"
         && String.eqb (char_at s 10) "T" && String.eqb (char_at s 13) ":"
         && String.eqb (char_at s 16) ":")%bool in
      let in_range :=
        ((1 <=? mo) && (mo <=? 12) && (1 <=? d) && (d <=? days_in_month y mo)
         && (hh <=? 23) && (mi <=? 59) && (ss <=? 59))%bool in
      let offset : option Z :=
        if String.eqb (substring 19 7 s) "Z" then Some 0
        else
          match field s 20 2, field s 23 2 with
          | Some oh, Some om =>
              if (String.eqb (char_at s 22) ":" && (Nat.eqb (String.length s) 25)
                  && (oh <=? 23) && (om <=? 59))%bool then
                if String.eqb (char_at s 19) "+" then Some (oh * 60 + om)
                else if String.eqb (char_at s 19) "-" then Some (- (oh * 60 + om))
                else None
              else None
          | _, _ => None
          end in
      match offset with
      | Some off =>
          if (separators && in_range)%bool then
            TimeClip ((((days_from_civil y mo d * 24 + hh) * 60 + mi - off) * 60 + ss) * 1000)
          else None
      | None => None
      end
  | _, _, _, _, _, _ => None
  end.

Definition dquote : string := String (ascii_of_N 34) EmptyString.

(** The text of an object whose members are strings, as the payload of a
    token is. Members that are not strings are written with [String]. *)
Definition show_member (kv : string * value) : string :=
  dquote ++ fst kv ++ dquote ++ ":" ++
  match snd kv with
  | Str s => dquote ++ s ++ dquote
  | v => match ToString (fun _ => "?") v with
         | inr text => text
         | inl _ => "?"
         end
  end.

Definition show_object (v : value) : string :=
  match v with
  | Obj ps => "{" ++ join "," (map show_member ps) ++ "}"
  | v => match ToString (fun _ => "?") v with
         | inr text => text
         | inl _ => "?"
         end
  end.

(** A transparent stand-in for the digest. *)
Definition sha512_hex (s : string) : string := "sha512(" ++ s ++ ")".

(** A transparent stand-in for the token: header, payload and the key,
    in the three-part layout of a JWT. Like [jwt.sign] it refuses a
    missing key. *)
Definition jwt_sign (_ : list Request) (payload secret options : value) : res string :=
  match secret with
  | Str key =>
      if String.eqb key "" then inl (Error "secretOrPrivateKey must have a value")
      else inr (show_object (lookup "header" match options with Obj ps => ps | _ => [] end)
                ++ "." ++ show_object payload ++ ".hmac(" ++ key ++ ")")
  | _ => inl (Error "secretOrPrivateKey must have a value")
  end.

(** The exchange as three canned answers. *)
Record Exchange : Type := mkExchange {
  accounts_answer : res value;      (** GET /v1/accounts *)
  orders_answer : res value;        (** GET /v1/orders *)
  placement_answer : res value      (** POST /v1/orders *)
}.

Definition answer (x : Exchange) (_ : list Request) (request : Request) : res value :=
  if String.eqb (method request) "POST" then placement_answer x
  else if String.eqb (url request) (CONFIG.UPBIT_API_URL ++ "/v1/accounts")
  then accounts_answer x
  else orders_answer x.

(** A host with working keys, a clock that reads [now], and the exchange
    [x]. The random identifiers count the requests sent. Numbers that are
    not small integers are never printed in the examples: their digits
    are left out. *)
Definition host (now : Z) (x : Exchange) : Host :=
  mkHost (Str "access") (Str "secret")
         (fun _ => "?")
         parseFloat_string
         Date_parse
         sha512_hex
         jwt_sign
         (fun sent => "uuid-" ++ Number.decimal (Z.of_nat (length sent)))
         (fun sent _ => "id-" ++ Number.decimal (Z.of_nat (length sent)))
         (fun _ => now)
         (answer x).

End Reference.

(* ===================================================================== *)
(** * Vocabulary for the statements *)
(* ===================================================================== *)

(** The three object literals [executeBuy] returns. *)
Definition placed (orderId : value) (amount : number) : value :=
  Obj [("success", Bool true); ("orderId", orderId); ("amount", Num amount)].

Definition skipped (reason : string) : value :=
  Obj [("success", Bool false); ("reason", Str reason)].

Definition failed (error : string) : value :=
  Obj [("success", Bool false); ("error", Str error)].

Inductive ExecutionResult : value -> Prop :=
| Result_placed orderId amount : ExecutionResult (placed orderId amount)
| Result_skipped reason : ExecutionResult (skipped reason)
| Result_failed error : ExecutionResult (failed error).

(** A signal the route hands to the engine: the object
    [{ ...webhookData, symbol: normalizedSymbol }]. *)
Definition is_object (v : value) : bool :=
  match v with
  | Obj _ => true
  | _ => false
  end.

(** An entry of a JSON array whose properties can be read. *)
Definition readable (v : value) : bool :=
  match v with
  | Undefined | Null => false
  | _ => true
  end.

(** [v.k] when [v] is readable. *)
Definition prop (v : value) (k : string) : value :=
  match v with
  | Obj ps => lookup k ps
  | _ => Undefined
  end.

(** The three exchange calls, told apart by method and address. *)
Definition is_balance_fetch (r : Request) : bool :=
  String.eqb (method r) "GET"
  && String.eqb (url r) (CONFIG.UPBIT_API_URL ++ "/v1/accounts").

Definition is_orders_lookup (r : Request) : bool :=
  String.eqb (method r) "GET"
  && String.prefix (CONFIG.UPBIT_API_URL ++ "/v1/orders?") (url r).

Definition is_place_order (r : Request) : bool :=
  String.eqb (method r) "POST"
  && String.eqb (url r) (CONFIG.UPBIT_API_URL ++ "/v1/orders").

Definition placements (requests : list Request) : nat :=
  length (filter is_place_order requests).

Definition not_placement (r : Request) : bool := negb (is_place_order r).

(** Whether an expression returns rather than throws. *)
Definition returns {A} (r : res A) : bool :=
  match r with
  | inr _ => true
  | inl _ => false
  end.

(** An entry of the order list the filter of [getRecentOrders] can date:
    it can be read and [new Date(order.created_at)] does not throw. *)
Definition datable (h : Host) (order : value) : bool :=
  readable order
  && returns (Date_new (number_digits h) (Date_parse h) (prop order "created_at")).

(** When an order was created, as [getRecentOrders] reads it from an entry
    it can date. *)
Definition created_at_time (h : Host) (order : value) : time :=
  match Date_new (number_digits h) (Date_parse h) (prop order "created_at") with
  | inr orderTime => orderTime
  | inl _ => None
  end.

(** A completed buy order created at or after [cutoff]. *)
Definition recent_done_bid (h : Host) (cutoff : time) (order : value) : bool :=
  Date_ge (created_at_time h order) cutoff
  && strict_eq_str (prop order "side") "bid"
  && strict_eq_str (prop order "state") "done".

(** What [executeBuy] returns once it has reached the placement of an
    order of [amount]: the outcome of [placeBuyOrder] turned into a
    result. *)
Definition report (amount : number) (outcome : res value * list Request)
  : res value * list Request :=
  match outcome with
  | (inr result, sent) =>
      match getProp result "uuid" with
      | inr orderId => (inr (placed orderId amount), sent)
      | inl e => (inr (failed (message e)), sent)
      end
  | (inl e, sent) => (inr (failed (message e)), sent)
  end.

(** The message of the error thrown on a balance too small. *)
Definition insufficient_funds (h : Host) (amount : number) : string :=
  "잔고 부족: " ++ UpbitAPI.Number_toString h amount ++ "원 (최소 "
  ++ UpbitAPI.Number_toString h CONFIG.MIN_ORDER_AMOUNT ++ "원)".

(** The query string of parameters whose values all convert to strings,
    as every value the program itself passes does; [makeRequest] throws
    before it has an address when one does not. *)
Definition queryString_text (h : Host) (params : list (string * value)) : string :=
  match UpbitAPI.queryString_of h params with
  | inr queryString => queryString
  | inl _ => ""
  end.

(** The hash [makeRequest] binds into the token of an authenticated
    call. *)
Definition queryHash_of (h : Host) (params : list (string * value)) : value :=
  match params with
  | [] => Null
  | _ => if truthy (Str (queryString_text h params))
         then Str (sha512_hex h (queryString_text h params))
         else Null
  end.

(** The address and the body [makeRequest] sends. *)
Definition url_of (h : Host) (method endpoint : string)
    (params : list (string * value)) : string :=
  match params with
  | [] => UpbitAPI.baseUrl ++ endpoint
  | _ => if String.eqb method "GET"
         then (UpbitAPI.baseUrl ++ endpoint) ++ "?" ++ queryString_text h params
         else UpbitAPI.baseUrl ++ endpoint
  end.

Definition data_of (method : string) (params : list (string * value)) : value :=
  match params with
  | [] => Null
  | _ => if String.eqb method "GET" then Null else Obj params
  end.

(** The request an authenticated call sends once [token] is signed. *)
Definition signed_request (h : Host) (method endpoint : string)
    (params : list (string * value)) (token : string) : Request :=
  mkRequest method (url_of h method endpoint params)
    [("Content-Type", "application/json"); ("Authorization", "Bearer " ++ token)]
    (data_of method params).

(** The object [orderParams] of [placeBuyOrder]. *)
Definition orderParams (h : Host) (market : string) (price : number)
  : list (string * value) :=
  [("market", Str market); ("side", Str "bid"); ("ord_type", Str "price");
   ("price", Str (UpbitAPI.Number_toString h price))].

(** The amount as the specification words it, [floor(balance × 0.1)]
    with nothing rounded before the floor is taken: the whole number
    below the exact tenth of the balance. *)
Definition exact_floor_of_tenth (balance : number) : option Z :=
  match balance with
  | S754_zero _ => Some 0
  | S754_finite s m e =>
      Some (if 0 <=? e then cond_Zopp s (Zpos m * 2 ^ e) / 10
            else cond_Zopp s (Zpos m) / (10 * 2 ^ (- e)))
  | _ => None
  end.

(** The same with the double the program holds for 0.1 in the place of
    one tenth: the whole number below the exact product of two doubles. *)
Definition exact_floor_of_product (x y : number) : option Z :=
  match x, y with
  | S754_finite sx mx ex, S754_finite sy my ey =>
      Some (Number.floor_scaled (xorb sx sy) (mx * my) (ex + ey))
  | _, _ => None
  end.

(** Whether a result carries the field [k]. *)
Definition has_field (result : value) (k : string) : bool :=
  match result with
  | Obj ps => has_key k ps
  | _ => false
  end.

(** The request of a call that needs no token. *)
Definition plain_request (method url : string) : Request :=
  mkRequest method url [("Content-Type", "application/json")] Null.

Definition has_header (name : string) (r : Request) : bool :=
  existsb (fun kv => String.eqb name (fst kv)) (headers r).

(** The request [getCurrentPrice] sends. *)
Definition ticker_request (market : string) : Request :=
  plain_request "GET"
    (CONFIG.UPBIT_API_URL ++ "/v1/ticker?markets=" ++ encodeURIComponent market).

(** An account entry in Korean won. *)
Definition is_krw (account : value) : bool :=
  strict_eq_str (prop account "currency") "KRW".

(** What [executeBuy] does once the amount has passed the minimum: the
    duplicate check, then the placement. *)
Definition after_gate (h : Host) (amount : number) (sent : list Request)
  : res value * list Request :=
  match TradingEngine.checkDuplicateBuy h sent with
  | (inl e, sent') => (inr (failed (message e)), sent')
  | (inr true, sent') => (inr (skipped "중복 매수 방지"), sent')
  | (inr false, sent') =>
      report amount (UpbitAPI.placeBuyOrder h CONFIG.TRADING_SYMBOL amount sent')
  end.

(** The exchange calls of the engine. *)
Inductive call : Type := Balance | Lookup | Placement | Other.

Definition call_of (r : Request) : call :=
  if is_balance_fetch r then Balance
  else if is_orders_lookup r then Lookup
  else if is_place_order r then Placement
  else Other.

(** How often the character [c] occurs in [s]. *)
Fixpoint count_char (c : ascii) (s : string) : nat :=
  match s with
  | EmptyString => O
  | String c' rest => ((if Ascii.eqb c c' then 1 else 0) + count_char c rest)%nat
  end.

(** The value of a hexadecimal digit: what [hex_digit] is undone by. *)
Definition hex_value (c : ascii) : N :=
  let n := N_of_ascii c in
  (if n <? 58 then n - 48 else n - 55)%N.

(** The answers of [app.post('/')]. *)
Definition invalid_signal : Response :=
  mkResponse 400 (Obj [("error", Str "유효하지 않은 매수 신호")]).

Definition unsupported_symbol : Response :=
  mkResponse 400 (Obj [("error", Str "지원하지 않는 심볼")]).

Definition server_error (message : string) : Response :=
  mkResponse 500 (Obj [("error", Str "서버 오류"); ("message", Str message)]).

Definition executed (result : value) (timestamp : string) : Response :=
  mkResponse 200 (Obj [("success", Bool true); ("result", result);
                       ("timestamp", Str timestamp)]).

(** The symbols the route lets through. *)
Definition accepted_symbol (s : string) : bool :=
  String.eqb (String_replace_empty "KRW" (String_replace_empty "ETH" s)) "ETH"
  || String.eqb s "ETHKRW".

(** A symbol that is there but is not text. *)
Definition not_text (symbol : value) : bool :=
  match symbol with
  | Bool _ | Num _ | Arr _ | Obj _ => true
  | Undefined | Null | Str _ => false
  end.

(* ===================================================================== *)
(** * Example exchanges *)
(* ===================================================================== *)

Module Examples.

(** 2023-11-14T22:13:20Z *)
Definition now : Z := 1700000000000.

Definition signal : value :=
  Obj [("action", Str "BUY"); ("symbol", Str "KRW-ETH")].

Definition krw (balance : string) : value :=
  Arr [Obj [("currency", Str "ETH"); ("balance", Str "0.5"); ("locked", Str "0.0")];
       Obj [("currency", Str "KRW"); ("balance", Str balance); ("locked", Str "0.0")]].

Definition order (side state created_at : string) : value :=
  Obj [("uuid", Str "9ca023a5-851b-4fec-9f0a-48cd83c2eaae");
       ("side", Str side); ("ord_type", Str "price"); ("state", Str state);
       ("market", Str "KRW-ETH"); ("created_at", Str created_at)].

(** A completed buy 30 minutes ago, 90 minutes ago, and one stamped 10
    minutes ahead of the local clock (times in Korean standard time). *)
Definition buy_30min_ago : value := order "bid" "done" "2023-11-15T06:43:20+09:00".
Definition buy_90min_ago : value := order "bid" "done" "2023-11-15T05:43:20+09:00".
Definition buy_10min_ahead : value := order "bid" "done" "2023-11-15T07:23:20+09:00".

(** A completed buy whose [created_at] is an object with a key
    [toString] of its own, as the text [{"toString": null}] parses to:
    it cannot be converted to a string, nor to a date. *)
Definition buy_undated : value :=
  Obj [("uuid", Str "9ca023a5-851b-4fec-9f0a-48cd83c2eaae");
       ("side", Str "bid"); ("ord_type", Str "price"); ("state", Str "done");
       ("market", Str "KRW-ETH"); ("created_at", Obj [("toString", Null)])].

Definition created : value := Obj [("uuid", Str "abc-123"); ("side", Str "bid")].

Definition rejected (status : string) : res value :=
  inl (Throw "AxiosError" ("Request failed with status code " ++ status)).

Definition exchange (balance : string) (orders : res value) (placement : res value)
  : Host :=
  Reference.host now (Reference.mkExchange (inr (krw balance)) orders placement).

(** Nothing bought lately, placement accepted. *)
Definition calm (balance : string) : Host :=
  exchange balance (inr (Arr [])) (inr created).

Definition with_orders (orders : list value) : Host :=
  exchange "123456.0" (inr (Arr orders)) (inr created).

Definition lookup_down : Host :=
  exchange "123456.0" (rejected "500") (inr created).

Definition placement_refused : Host :=
  exchange "123456.0" (inr (Arr [])) (rejected "400").

Definition accounts_down : Host :=
  Reference.host now
    (Reference.mkExchange (rejected "503") (inr (Arr [])) (inr created)).

End Examples.

(* ===================================================================== *)
(** * More example exchanges *)
(* ===================================================================== *)

Module Scenes.

(** A host whose exchange gives one answer to every request. *)
Definition answering (answer : res value) : Host :=
  mkHost (Str "access") (Str "secret")
         (fun _ => "?")
         Reference.parseFloat_string
         Reference.Date_parse
         Reference.sha512_hex
         Reference.jwt_sign
         (fun sent => "uuid-" ++ Number.decimal (Z.of_nat (length sent)))
         (fun sent _ => "id-" ++ Number.decimal (Z.of_nat (length sent)))
         (fun _ => Examples.now)
         (fun _ _ => answer).

Definition ticker (trade_price : value) : value :=
  Obj [("market", Str "KRW-ETH"); ("trade_price", trade_price)].

(** An exchange holding the given accounts; nothing bought lately,
    placement accepted. *)
Definition holding (accounts : value) : Host :=
  Reference.host Examples.now
    (Reference.mkExchange (inr accounts) (inr (Arr [])) (inr Examples.created)).

Definition account (currency balance : string) : value :=
  Obj [("currency", Str currency); ("balance", Str balance); ("locked", Str "0.0")].

(** A host started without [UPBIT_SECRET_KEY]. *)
Definition keyless : Host :=
  mkHost (Str "access") Undefined
         (fun _ => "?")
         Reference.parseFloat_string
         Reference.Date_parse
         Reference.sha512_hex
         Reference.jwt_sign
         (fun sent => "uuid-" ++ Number.decimal (Z.of_nat (length sent)))
         (fun sent _ => "id-" ++ Number.decimal (Z.of_nat (length sent)))
         (fun _ => Examples.now)
         (fun _ _ => inr (Arr [])).

(** A stand-in for [toISOString]: the time value in decimal. *)
Definition stamp (t : Z) : string := "t" ++ Number.decimal t.

End Scenes.

(** Unfolds the plumbing of a computation. *)
Ltac run :=
  unfold console_log; unfold bind, try_catch, ret, throw, eval, ask; cbv beta.

(* ===================================================================== *)
(** * Numbers: integers are exact, [Math.floor] is the floor *)
(* ===================================================================== *)

Lemma digits2_pos_shift p k :
  digits2_pos (Pos.iter xO p k) = (digits2_pos p + k)%positive.
Proof.
  induction k as [|k IH] using Pos.peano_ind.
  - cbn. lia.
  - rewrite Pos.iter_succ. cbn [digits2_pos]. rewrite IH. lia.
Qed.

Lemma Zpos_shift p k : Zpos (Pos.iter xO p k) = Zpos p * 2 ^ Zpos k.
Proof.
  induction k as [|k IH] using Pos.peano_ind.
  - cbn. lia.
  - rewrite Pos.iter_succ, Pos2Z.inj_succ, Z.pow_succ_r by lia.
    rewrite Pos2Z.inj_xO, IH. lia.
Qed.

Lemma digits2_pos_lower p : 2 ^ (Zpos (digits2_pos p) - 1) <= Zpos p.
Proof.
  assert (Hstep : forall d, 0 < d -> 2 ^ (Z.succ d - 1) = 2 * 2 ^ (d - 1)).
  { intros d Hd. replace (Z.succ d - 1) with (Z.succ (d - 1)) by lia.
    apply Z.pow_succ_r. lia. }
  induction p as [p IH|p IH|]; cbn [digits2_pos].
  - rewrite Pos2Z.inj_succ, Hstep by lia. lia.
  - rewrite Pos2Z.inj_succ, Hstep by lia. lia.
  - cbn. lia.
Qed.

Lemma digits2_pos_small p : Zpos p < 2 ^ 53 -> Zpos (digits2_pos p) <= 53.
Proof.
  intros H.
  destruct (Z.le_gt_cases (Zpos (digits2_pos p)) 53) as [|Hbig]; [assumption|].
  pose proof (digits2_pos_lower p) as Hlow.
  assert (2 ^ 53 <= 2 ^ (Zpos (digits2_pos p) - 1)) by (apply Z.pow_le_mono_r; lia).
  lia.
Qed.

(** A mantissa of 53 bits with an exponent in range is not rounded. *)
Lemma binary_round_aux_canonical s m e :
  Zpos (digits2_pos m) = 53 -> -1074 <= e <= 971 ->
  binary_round_aux prec emax s (Zpos m) e loc_Exact = S754_finite s m e.
Proof.
  intros Hd He.
  unfold binary_round_aux, shr_fexp, fexp, emin, prec, emax.
  cbn [Zdigits2 shr_record_of_loc]. rewrite Hd.
  replace (Z.max (53 + e - 53) (3 - 1024 - 53) - e) with 0 by lia.
  cbn [shr shr_m loc_of_shr_record round_nearest_even Zdigits2 shr_record_of_loc].
  rewrite Hd.
  replace (Z.max (53 + e - 53) (3 - 1024 - 53) - e) with 0 by lia.
  cbn [shr shr_m].
  destruct (Z.leb_spec e (1024 - 53)); [reflexivity | lia].
Qed.

(** A whole number below 2^53 is shifted to 53 bits, not rounded. *)
Lemma binary_round_form s p :
  Zpos p < 2 ^ 53 ->
  exists m,
    binary_round prec emax s p 0 = S754_finite s m (Zpos (digits2_pos p) - 53)
    /\ Zpos m = Zpos p * 2 ^ (53 - Zpos (digits2_pos p))
    /\ Zpos (digits2_pos m) = 53.
Proof.
  intros Hp. pose proof (digits2_pos_small p Hp) as Hd.
  unfold binary_round, shl_align, fexp, emin, prec, emax.
  replace (Z.max (Zpos (digits2_pos p) + 0 - 53) (3 - 1024 - 53) - 0)
    with (Zpos (digits2_pos p) - 53) by lia.
  replace (Z.max (Zpos (digits2_pos p) + 0 - 53) (3 - 1024 - 53))
    with (Zpos (digits2_pos p) - 53) by lia.
  destruct (Zpos (digits2_pos p) - 53) as [|k|k] eqn:Hk; try lia.
  - exists p. rewrite binary_round_aux_canonical by lia.
    split; [reflexivity|]. split; [|lia].
    replace (53 - Zpos (digits2_pos p)) with 0 by lia. lia.
  - exists (Pos.iter xO p k). rewrite binary_round_aux_canonical.
    + split; [reflexivity|]. split.
      * rewrite Zpos_shift. f_equal. f_equal. lia.
      * rewrite digits2_pos_shift. lia.
    + rewrite digits2_pos_shift. lia.
    + lia.
Qed.

Lemma binary_round_exact s p :
  Zpos p < 2 ^ 53 ->
  integer_value (binary_round prec emax s p 0) = Some (cond_Zopp s (Zpos p)).
Proof.
  intros Hp. pose proof (digits2_pos_small p Hp) as Hd.
  destruct (binary_round_form s p Hp) as (m & -> & Hm & _).
  cbn [integer_value]. rewrite Hm.
  destruct (Z.leb_spec 0 (Zpos (digits2_pos p) - 53)).
  - replace (Zpos (digits2_pos p) - 53) with 0 by lia.
    replace (53 - Zpos (digits2_pos p)) with 0 by lia.
    f_equal. f_equal. lia.
  - replace (- (Zpos (digits2_pos p) - 53)) with (53 - Zpos (digits2_pos p)) by lia.
    rewrite Z.mod_mul, Z.div_mul by (apply Z.pow_nonzero; lia). reflexivity.
Qed.

(** An integer below 2^53 in magnitude is a double. *)
Lemma of_Z_exact z : Z.abs z < 2 ^ 53 -> integer_value (of_Z z) = Some z.
Proof.
  intros Hz. unfold of_Z, binary_normalize. destruct z as [|p|p].
  - reflexivity.
  - apply (binary_round_exact false p). lia.
  - apply (binary_round_exact true p). lia.
Qed.

(** [floor_scaled] is the floor of [±m * 2^e]. *)
Lemma floor_scaled_spec s m e :
  e < 0 ->
  floor_scaled s m e * 2 ^ (- e) <= cond_Zopp s (Zpos m)
  < (floor_scaled s m e + 1) * 2 ^ (- e).
Proof.
  intros He. unfold floor_scaled.
  destruct (Z.leb_spec 0 e); [lia|].
  assert (Hpow : 0 < 2 ^ (- e)) by (apply Z.pow_pos_nonneg; lia).
  pose proof (Z.div_mod (cond_Zopp s (Zpos m)) (2 ^ (- e))) as Hdm.
  pose proof (Z.mod_pos_bound (cond_Zopp s (Zpos m)) (2 ^ (- e)) Hpow) as Hmod.
  nia.
Qed.

(** On a double, [Math.floor] returns the double of that floor. *)
Lemma Math_floor_integer s m e :
  Zpos m < 2 ^ 53 ->
  integer_value (Math_floor (S754_finite s m e)) = Some (floor_scaled s m e).
Proof.
  intros Hm. unfold Math_floor, floor_scaled.
  destruct (Z.leb_spec 0 e) as [He|He].
  - cbn [integer_value]. destruct (Z.leb_spec 0 e); [|lia].
    destruct s; cbn [cond_Zopp]; f_equal; lia.
  - assert (Hpow : 0 < 2 ^ (- e)) by (apply Z.pow_pos_nonneg; lia).
    pose proof (floor_scaled_spec s m e He) as Hfloor. unfold floor_scaled in Hfloor.
    destruct (Z.leb_spec 0 e); [lia|].
    set (q := cond_Zopp s (Zpos m) / 2 ^ (- e)) in *.
    assert (Hq : Z.abs q <= Zpos m) by (destruct s; cbn [cond_Zopp] in Hfloor; nia).
    unfold binary_normalize. destruct q as [|p|p].
    + reflexivity.
    + apply (binary_round_exact false p). lia.
    + apply (binary_round_exact true p). lia.
Qed.

(** ** Rounding: what [binary_round_aux] does to a long mantissa *)

Lemma digits2_pos_upper p : Zpos p < 2 ^ Zpos (digits2_pos p).
Proof.
  induction p as [p IH|p IH|]; cbn [digits2_pos];
    rewrite ?Pos2Z.inj_succ, ?Z.pow_succ_r by lia; lia.
Qed.

Lemma digits2_pos_unique p d :
  2 ^ (d - 1) <= Zpos p < 2 ^ d -> Zpos (digits2_pos p) = d.
Proof.
  intros [Hlow Hup].
  pose proof (digits2_pos_lower p) as Hl. pose proof (digits2_pos_upper p) as Hu.
  assert (0 < d).
  { destruct (Z.lt_trichotomy d 0) as [Hd|[Hd|Hd]]; [|subst; cbn in Hup; lia|lia].
    rewrite Z.pow_neg_r in Hup by lia. lia. }
  destruct (Z.lt_trichotomy (Zpos (digits2_pos p)) d) as [Hlt|[Heq|Hgt]]; [|assumption|].
  - assert (2 ^ Zpos (digits2_pos p) <= 2 ^ (d - 1)) by (apply Z.pow_le_mono_r; lia).
    lia.
  - assert (2 ^ d <= 2 ^ (Zpos (digits2_pos p) - 1)) by (apply Z.pow_le_mono_r; lia).
    lia.
Qed.

(** One step of the shift halves the mantissa and remembers the bit it
    drops. *)
Lemma shr_1_spec m r s :
  0 <= m ->
  shr_m (shr_1 (Build_shr_record m r s)) = m / 2
  /\ shr_r (shr_1 (Build_shr_record m r s)) = Z.odd m.
Proof.
  intros Hm. destruct m as [|p|p]; [split; reflexivity| |lia].
  destruct p as [p|p|]; cbn [shr_1 shr_m shr_r].
  - split; [|reflexivity]. rewrite Pos2Z.inj_xI. apply Z.div_unique with 1; lia.
  - split; [|reflexivity]. rewrite Pos2Z.inj_xO. apply Z.div_unique with 0; lia.
  - split; reflexivity.
Qed.

Lemma iter_pos_nat {A} (f : A -> A) n x :
  iter_pos f n x = Nat.iter (Pos.to_nat n) f x.
Proof.
  revert x. induction n as [n IH|n IH|]; intros x; cbn [iter_pos].
  - rewrite !IH, Pos2Nat.inj_xI.
    replace (S (2 * Pos.to_nat n)) with (Pos.to_nat n + (Pos.to_nat n + 1))%nat by lia.
    rewrite !Nat.iter_add. reflexivity.
  - rewrite !IH, Pos2Nat.inj_xO.
    replace (2 * Pos.to_nat n)%nat with (Pos.to_nat n + Pos.to_nat n)%nat by lia.
    rewrite Nat.iter_add. reflexivity.
  - reflexivity.
Qed.

Lemma shr_iter_spec (k : nat) m r s :
  0 <= m ->
  shr_m (Nat.iter (S k) shr_1 (Build_shr_record m r s)) = m / 2 ^ Z.of_nat (S k)
  /\ shr_r (Nat.iter (S k) shr_1 (Build_shr_record m r s))
     = Z.odd (m / 2 ^ Z.of_nat k).
Proof.
  intros Hm. induction k as [|k IH].
  - change (Nat.iter 1 shr_1 (Build_shr_record m r s))
      with (shr_1 (Build_shr_record m r s)).
    destruct (shr_1_spec m r s Hm) as [H1 H2].
    rewrite H1, H2. change (2 ^ Z.of_nat 1) with 2. change (2 ^ Z.of_nat 0) with 1.
    rewrite Z.div_1_r. auto.
  - destruct IH as [IHm IHr].
    change (Nat.iter (S (S k)) shr_1 (Build_shr_record m r s))
      with (shr_1 (Nat.iter (S k) shr_1 (Build_shr_record m r s))).
    destruct (Nat.iter (S k) shr_1 (Build_shr_record m r s)) as [m' r' s'].
    cbn [shr_m shr_r] in IHm, IHr.
    assert (Hm' : 0 <= m')
      by (rewrite IHm; apply Z.div_pos; [lia | apply Z.pow_pos_nonneg; lia]).
    destruct (shr_1_spec m' r' s' Hm') as [H1 H2]. rewrite H1, H2, IHm.
    split; [|reflexivity].
    rewrite Z.div_div by (try apply Z.pow_pos_nonneg; lia).
    f_equal. rewrite (Nat2Z.inj_succ (S k)), Z.pow_succ_r by lia. lia.
Qed.

Lemma shr_positive mrs e np :
  shr mrs e (Zpos np) = (Nat.iter (Pos.to_nat np) shr_1 mrs, e + Zpos np).
Proof. unfold shr. rewrite iter_pos_nat. reflexivity. Qed.

(** When the last bit dropped is set, at least half a unit was dropped. *)
Lemma odd_half_remainder M n :
  0 <= M -> 0 < n -> Z.odd (M / 2 ^ (n - 1)) = true ->
  2 ^ n <= 2 * (M mod 2 ^ n).
Proof.
  intros HM Hn Hodd.
  assert (Hp : 0 < 2 ^ (n - 1)) by (apply Z.pow_pos_nonneg; lia).
  assert (Hpow : 2 ^ n = 2 * 2 ^ (n - 1)).
  { replace n with (Z.succ (n - 1)) at 1 by lia. apply Z.pow_succ_r. lia. }
  apply Z.odd_spec in Hodd. destruct Hodd as [a Ha].
  pose proof (Z.div_mod M (2 ^ (n - 1)) ltac:(lia)) as Hdm. rewrite Ha in Hdm.
  pose proof (Z.mod_pos_bound M (2 ^ (n - 1)) Hp) as Hb.
  assert (Hmod : M mod 2 ^ n = 2 ^ (n - 1) + M mod 2 ^ (n - 1)).
  { symmetry. apply Z.mod_unique_pos with (q := a); lia. }
  lia.
Qed.

Lemma shr_fexp_exact_spec M E :
  53 < Zpos (digits2_pos M) ->
  -1074 <= E + (Zpos (digits2_pos M) - 53) ->
  exists mrs,
    shr_fexp prec emax (Zpos M) E loc_Exact
    = (mrs, E + (Zpos (digits2_pos M) - 53))
    /\ shr_m mrs = Zpos M / 2 ^ (Zpos (digits2_pos M) - 53)
    /\ (shr_r mrs = true ->
        2 ^ (Zpos (digits2_pos M) - 53)
        <= 2 * (Zpos M mod 2 ^ (Zpos (digits2_pos M) - 53))).
Proof.
  intros HD HE. set (D := Zpos (digits2_pos M)) in *.
  unfold shr_fexp, fexp, emin, prec, emax. cbn [Zdigits2 shr_record_of_loc]. fold D.
  replace (Z.max (D + E - 53) (3 - 1024 - 53) - E) with (D - 53) by lia.
  destruct (D - 53) as [|np|np] eqn:Hn; try lia.
  rewrite shr_positive.
  destruct (Pos.to_nat np) as [|k] eqn:Hk; [lia|].
  destruct (shr_iter_spec k (Zpos M) false false ltac:(lia)) as [Hm Hr].
  eexists. split; [reflexivity|]. split.
  - rewrite Hm. f_equal. f_equal. lia.
  - rewrite Hr. intros Hodd.
    apply odd_half_remainder; [lia | lia |].
    replace (Zpos np - 1) with (Z.of_nat k) by lia. exact Hodd.
Qed.

Lemma round_nearest_even_spec mrs :
  round_nearest_even (shr_m mrs) (loc_of_shr_record mrs) = shr_m mrs
  \/ (round_nearest_even (shr_m mrs) (loc_of_shr_record mrs) = shr_m mrs + 1
      /\ shr_r mrs = true).
Proof.
  destruct mrs as [m [|] [|]];
    cbn [shr_m shr_r loc_of_shr_record round_nearest_even]; auto.
  destruct (Z.even m); auto.
Qed.

Lemma shr_fexp_normal m e :
  Zpos (digits2_pos m) = 53 -> -1074 <= e ->
  shr_fexp prec emax (Zpos m) e loc_Exact
  = (Build_shr_record (Zpos m) false false, e).
Proof.
  intros Hd He. unfold shr_fexp, fexp, emin, prec, emax.
  cbn [Zdigits2 shr_record_of_loc]. rewrite Hd.
  replace (Z.max (53 + e - 53) (3 - 1024 - 53) - e) with 0 by lia. reflexivity.
Qed.

Lemma shr_fexp_carry e :
  -1074 <= e ->
  shr_fexp prec emax (2 ^ 53) e loc_Exact
  = (Build_shr_record (2 ^ 52) false false, e + 1).
Proof.
  intros He. unfold shr_fexp, fexp, emin, prec, emax.
  change (Zdigits2 (2 ^ 53)) with 54.
  replace (Z.max (54 + e - 53) (3 - 1024 - 53) - e) with 1 by lia. reflexivity.
Qed.

(** A mantissa [M] of more than 53 bits, in the range of the normal
    numbers: the result keeps the 53 leading bits, or their successor, and
    the successor only when at least half a unit was dropped. *)
Lemma binary_round_aux_normal s M E :
  53 < Zpos (digits2_pos M) ->
  -1074 <= E + (Zpos (digits2_pos M) - 53) ->
  E + (Zpos (digits2_pos M) - 53) + 1 <= 971 ->
  exists mr er,
    binary_round_aux prec emax s (Zpos M) E loc_Exact = S754_finite s mr er
    /\ E + (Zpos (digits2_pos M) - 53) <= er <= E + (Zpos (digits2_pos M) - 53) + 1
    /\ (Zpos mr * 2 ^ (er - (E + (Zpos (digits2_pos M) - 53)))
        = Zpos M / 2 ^ (Zpos (digits2_pos M) - 53)
        \/ (Zpos mr * 2 ^ (er - (E + (Zpos (digits2_pos M) - 53)))
            = Zpos M / 2 ^ (Zpos (digits2_pos M) - 53) + 1
            /\ 2 ^ (Zpos (digits2_pos M) - 53)
               <= 2 * (Zpos M mod 2 ^ (Zpos (digits2_pos M) - 53)))).
Proof.
  intros HD Hlow Hhigh. set (n := Zpos (digits2_pos M) - 53) in *.
  destruct (shr_fexp_exact_spec M E HD Hlow) as (mrs & Hshr & Hm & Hr).
  fold n in Hshr, Hm, Hr.
  assert (Hn : 0 < n) by lia.
  assert (Hpn : 0 < 2 ^ n) by (apply Z.pow_pos_nonneg; lia).
  assert (Hq : 2 ^ 52 <= Zpos M / 2 ^ n < 2 ^ 53).
  { pose proof (digits2_pos_lower M) as Hl. pose proof (digits2_pos_upper M) as Hu.
    replace (Zpos (digits2_pos M) - 1) with (52 + n) in Hl by lia.
    replace (Zpos (digits2_pos M)) with (53 + n) in Hu by lia.
    rewrite Z.pow_add_r in Hl, Hu by lia. split.
    - apply Z.div_le_lower_bound; lia.
    - apply Z.div_lt_upper_bound; lia. }
  unfold binary_round_aux. rewrite Hshr.
  set (mr0 := round_nearest_even (shr_m mrs) (loc_of_shr_record mrs)).
  assert (Hmr0 : mr0 = Zpos M / 2 ^ n
                 \/ (mr0 = Zpos M / 2 ^ n + 1 /\ 2 ^ n <= 2 * (Zpos M mod 2 ^ n))).
  { unfold mr0. destruct (round_nearest_even_spec mrs) as [->|[-> Hrt]];
      rewrite Hm; auto. }
  clearbody mr0.
  destruct (Z.eq_dec mr0 (2 ^ 53)) as [Hcarry|Hnocarry].
  - subst mr0. rewrite shr_fexp_carry by lia. cbn [shr_m].
    change (2 ^ 52) with (Zpos (Z.to_pos (2 ^ 52))).
    destruct (Z.leb_spec (E + n + 1) (emax - prec)); [|unfold emax, prec in *; lia].
    eexists _, _. split; [reflexivity|]. split; [lia|].
    replace (E + n + 1 - (E + n)) with 1 by lia.
    change (Zpos (Z.to_pos (2 ^ 52)) * 2 ^ 1) with (2 ^ 53). exact Hmr0.
  - assert (Hrange : 2 ^ 52 <= mr0 < 2 ^ 53) by lia.
    destruct mr0 as [|m0|m0]; try lia.
    rewrite shr_fexp_normal; [|apply digits2_pos_unique; lia|lia]. cbn [shr_m].
    destruct (Z.leb_spec (E + n) (emax - prec)); [|unfold emax, prec in *; lia].
    eexists _, _. split; [reflexivity|]. split; [lia|].
    replace (E + n - (E + n)) with 0 by lia. rewrite Z.mul_1_r. exact Hmr0.
Qed.

Lemma mul_le_cancel a b c : 0 < c -> a * c <= b * c -> a <= b.
Proof. intros Hc H. apply (Z.mul_le_mono_pos_r _ _ c); assumption. Qed.

Lemma mul_lt_cancel a b c : 0 < c -> a * c < b * c -> a < b.
Proof. intros Hc H. apply (Z.mul_lt_mono_pos_r c); assumption. Qed.

(** The whole part of a rounded quotient. [M / W] is the exact value,
    [mr / T] the rounded one, on a grid [C * T] times finer than [P]; when
    the exact value keeps more than half a grid step below [q + 1], the
    rounded value has the whole part [q] as well. *)
Lemma floor_from_rounded q T C P v mr q0 M W :
  0 < T -> 0 < C -> 0 < P ->
  v = mr * C ->
  C * T * P = W ->
  q * W <= M ->
  q0 * P <= M < (q0 + 1) * P ->
  (v = q0 \/ (v = q0 + 1 /\ P <= 2 * (M - q0 * P))) ->
  2 * M + P < 2 * (q + 1) * W ->
  q * T <= mr < (q + 1) * T.
Proof.
  intros HT HC HP Hv HW Hlow Hq0 Hround Hup. subst v.
  assert (Hq0v : q0 <= mr * C) by (destruct Hround as [->|[-> _]]; lia).
  split.
  - apply (mul_le_cancel _ _ C HC).
    assert (q * T * C < q0 + 1).
    { apply (mul_lt_cancel _ _ P HP).
      replace (q * T * C * P) with (q * (C * T * P)) by ring. rewrite HW. lia. }
    lia.
  - apply (mul_lt_cancel _ _ C HC). apply (mul_lt_cancel _ _ P HP).
    replace ((q + 1) * T * C * P) with ((q + 1) * (C * T * P)) by ring. rewrite HW.
    destruct Hround as [Hr|[Hr Hhalf]]; rewrite Hr.
    + lia.
    + assert (2 * ((q0 + 1) * P) < 2 * ((q + 1) * W)) by lia. lia.
Qed.

(** The product of a whole number below 2^52 with the double [0.1], then
    [Math.floor]: the tenth, rounded down. *)
Lemma tenth_of_whole p :
  Zpos p < 2 ^ 52 ->
  Math_floor (Number.mul (of_Z (Zpos p)) (S754_finite false 7205759403792794 (-56)))
  = of_Z (Zpos p / 10).
Proof.
  intros Hp.
  destruct (binary_round_form false p ltac:(lia)) as (mb & Hform & Hmb & Hdb).
  unfold of_Z at 1, binary_normalize. rewrite Hform.
  unfold Number.mul, SFmul. cbn [xorb].
  set (d := Zpos (digits2_pos p)) in *.
  assert (Hd : 1 <= d <= 52).
  { split; [unfold d; lia|].
    destruct (Z.le_gt_cases d 52) as [|Hbig]; [assumption|].
    pose proof (digits2_pos_lower p) as Hl. fold d in Hl.
    assert (2 ^ 52 <= 2 ^ (d - 1)) by (apply Z.pow_le_mono_r; lia). lia. }
  set (N := 7205759403792794%positive).
  set (K := 2 ^ (53 - d)) in *.
  assert (HK : 0 < K) by (apply Z.pow_pos_nonneg; lia).
  assert (Hmb52 : 2 ^ 52 <= Zpos mb < 2 ^ 53).
  { pose proof (digits2_pos_lower mb) as Hl. pose proof (digits2_pos_upper mb) as Hu.
    rewrite Hdb in Hl, Hu. exact (conj Hl Hu). }
  set (M := (mb * N)%positive).
  assert (HM : Zpos M = Zpos mb * Zpos N) by reflexivity.
  assert (HMrange : 2 ^ 104 <= Zpos M < 2 ^ 106).
  { rewrite HM. unfold N. lia. }
  set (D := Zpos (digits2_pos M)).
  assert (HD : 105 <= D <= 106).
  { pose proof (digits2_pos_lower M) as Hl. pose proof (digits2_pos_upper M) as Hu.
    fold D in Hl, Hu. split.
    - destruct (Z.le_gt_cases 105 D) as [|Hsmall]; [assumption|].
      assert (2 ^ D <= 2 ^ 104) by (apply Z.pow_le_mono_r; lia). lia.
    - destruct (Z.le_gt_cases D 106) as [|Hbig]; [assumption|].
      assert (2 ^ 106 <= 2 ^ (D - 1)) by (apply Z.pow_le_mono_r; lia). lia. }
  destruct (binary_round_aux_normal false M (d - 53 + -56))
    as (mr & er & Hround & Her & Hv); fold D; try lia.
  rewrite Hround. fold D in Her, Hv.
  set (n := D - 53) in *. set (E' := d - 53 + -56 + n) in *.
  unfold Math_floor. destruct (Z.leb_spec 0 er) as [|Hneg]; [lia|].
  unfold of_Z. f_equal. unfold floor_scaled.
  destruct (Z.leb_spec 0 er); [lia|]. cbn [cond_Zopp].
  set (q := Zpos p / 10).
  pose proof (Z.div_mod (Zpos p) 10 ltac:(lia)) as Hdiv.
  pose proof (Z.mod_pos_bound (Zpos p) 10 ltac:(lia)) as Hrem.
  fold q in Hdiv.
  assert (Hpe : 0 < 2 ^ (- er)) by (apply Z.pow_pos_nonneg; lia).
  assert (Hpc : 0 < 2 ^ (er - E')) by (apply Z.pow_pos_nonneg; lia).
  assert (Hpn : 0 < 2 ^ n) by (apply Z.pow_pos_nonneg; lia).
  assert (HW : 2 ^ (er - E') * 2 ^ (- er) * 2 ^ n = 2 ^ 56 * K).
  { unfold K. rewrite <- !Z.pow_add_r by lia. f_equal. unfold E'. lia. }
  assert (Hq0 : Zpos M / 2 ^ n * 2 ^ n <= Zpos M < (Zpos M / 2 ^ n + 1) * 2 ^ n).
  { pose proof (Z.div_mod (Zpos M) (2 ^ n) ltac:(lia)) as H1.
    pose proof (Z.mod_pos_bound (Zpos M) (2 ^ n) Hpn) as H2. lia. }
  assert (HMK : Zpos M = Zpos p * K * Zpos N) by (rewrite HM, Hmb; reflexivity).
  assert (Hlow : q * (2 ^ 56 * K) <= Zpos M).
  { rewrite HMK.
    assert (H1 : q * 2 ^ 56 <= Zpos p * Zpos N) by (unfold N; lia).
    apply (Z.mul_le_mono_nonneg_r _ _ K) in H1; lia. }
  assert (Hup : 2 * Zpos M + 2 ^ n < 2 * (q + 1) * (2 ^ 56 * K)).
  { assert (H1 : Zpos p * (Zpos N + 1) < (q + 1) * 2 ^ 56) by (unfold N; lia).
    apply (Z.mul_lt_mono_pos_r K) in H1; [|lia].
    assert (H2 : 2 ^ n <= 2 ^ 53) by (apply Z.pow_le_mono_r; lia).
    rewrite HMK. rewrite Hmb in Hmb52. fold K in Hmb52. lia. }
  assert (Hcase : Zpos mr * 2 ^ (er - E') = Zpos M / 2 ^ n
                  \/ (Zpos mr * 2 ^ (er - E') = Zpos M / 2 ^ n + 1
                      /\ 2 ^ n <= 2 * (Zpos M - Zpos M / 2 ^ n * 2 ^ n))).
  { destruct Hv as [Hv|[Hv Hhalf]]; [left; exact Hv|right]. split; [exact Hv|].
    rewrite Z.mod_eq in Hhalf by lia. lia. }
  destruct (floor_from_rounded q (2 ^ (- er)) (2 ^ (er - E')) (2 ^ n)
              (Zpos mr * 2 ^ (er - E')) (Zpos mr) (Zpos M / 2 ^ n) (Zpos M)
              (2 ^ 56 * K) Hpe Hpc Hpn eq_refl HW Hlow Hq0 Hcase Hup) as [Hge Hlt].
  symmetry. apply Z.div_unique_pos with (r := Zpos mr - q * 2 ^ (- er)); lia.
Qed.

(** [<] on whole numbers below 2^53 is [<] on their doubles. *)
Lemma of_Z_ltb a c :
  0 <= a < 2 ^ 53 -> 0 <= c < 2 ^ 53 ->
  Number.ltb (of_Z a) (of_Z c) = (a <? c).
Proof.
  intros Ha Hc. unfold of_Z, binary_normalize.
  destruct a as [|pa|pa]; destruct c as [|pc|pc]; try lia.
  - reflexivity.
  - destruct (binary_round_form false pc ltac:(lia)) as (mc & -> & _). reflexivity.
  - destruct (binary_round_form false pa ltac:(lia)) as (ma & -> & _). reflexivity.
  - destruct (binary_round_form false pa ltac:(lia)) as (ma & -> & Hma & _).
    destruct (binary_round_form false pc ltac:(lia)) as (mc & -> & Hmc & _).
    pose proof (digits2_pos_lower pa) as Hla. pose proof (digits2_pos_upper pa) as Hua.
    pose proof (digits2_pos_lower pc) as Hlc. pose proof (digits2_pos_upper pc) as Huc.
    pose proof (digits2_pos_small pa ltac:(lia)) as Hsa.
    pose proof (digits2_pos_small pc ltac:(lia)) as Hsc.
    set (da := Zpos (digits2_pos pa)) in *. set (dc := Zpos (digits2_pos pc)) in *.
    unfold Number.ltb, SFltb, SFcompare.
    destruct (Z.compare_spec (da - 53) (dc - 53)) as [Heq|Hlt|Hgt].
    + assert (da = dc) by lia.
      change (Pos.compare_cont Eq ma mc) with (Pos.compare ma mc).
      rewrite Pos2Z.inj_compare, Hma, Hmc.
      replace dc with da by assumption.
      assert (0 < 2 ^ (53 - da)) by (apply Z.pow_pos_nonneg; unfold da; lia).
      destruct (Z.compare_spec (Zpos pa * 2 ^ (53 - da)) (Zpos pc * 2 ^ (53 - da)));
        destruct (Z.ltb_spec (Zpos pa) (Zpos pc)); try reflexivity; nia.
    + assert (2 ^ da <= 2 ^ (dc - 1)) by (apply Z.pow_le_mono_r; unfold da; lia).
      destruct (Z.ltb_spec (Zpos pa) (Zpos pc)); [reflexivity | lia].
    + assert (2 ^ dc <= 2 ^ (da - 1)) by (apply Z.pow_le_mono_r; unfold dc; lia).
      destruct (Z.ltb_spec (Zpos pa) (Zpos pc)); [lia | reflexivity].
Qed.

(* ===================================================================== *)
(** * How the methods run *)
(* ===================================================================== *)

Section Runs.

Variable h : Host.

Import UpbitAPI TradingEngine.

Lemma queryString_text_returned params queryString :
  queryString_of h params = inr queryString ->
  queryString_text h params = queryString.
Proof. intros H. unfold queryString_text. rewrite H. reflexivity. Qed.

(** An authenticated call writes its query string first and throws when
    a value cannot be converted; then it signs, and a refusal to sign is
    thrown before anything is sent; otherwise exactly one request goes
    out and its outcome is the outcome of the call. *)
Lemma makeRequest_auth method endpoint params sent :
  makeRequest h method endpoint params true sent =
  match queryString_of h params with
  | inl e => (inl e, sent)
  | inr _ =>
      match jwt_sign h sent
              (Obj (jwt_payload h (randomUUID h sent) (queryHash_of h params)))
              (secretKey h) jwt_options with
      | inl e => (inl e, sent)
      | inr token =>
          let request := signed_request h method endpoint params token in
          (axios h sent request, (sent ++ [request])%list)
      end
  end.
Proof.
  unfold makeRequest, generateJWT, signed_request, url_of, data_of, queryHash_of,
    await_axios.
  run.
  destruct params as [|kv rest].
  - cbn [Object_keys map length Nat.ltb Nat.leb queryString_of Array_map].
    destruct (jwt_sign h sent _ _ _) as [e|token]; [reflexivity|].
    cbn [app]. destruct (axios h sent _); reflexivity.
  - cbn [Object_keys map length Nat.ltb Nat.leb].
    unfold queryString_text.
    destruct (queryString_of h (kv :: rest)) as [e|queryString]; [reflexivity|].
    destruct (String.eqb method "GET");
      destruct (truthy (Str _));
      destruct (jwt_sign h sent _ _ _) as [e|token]; try reflexivity;
      cbn [app]; destruct (axios h sent _); reflexivity.
Qed.

(** Either nothing is sent and the call throws, or one request is sent. *)
Lemma makeRequest_sent method endpoint params sent :
  (exists e, makeRequest h method endpoint params true sent = (inl e, sent))
  \/ (exists token,
        makeRequest h method endpoint params true sent =
        (axios h sent (signed_request h method endpoint params token),
         (sent ++ [signed_request h method endpoint params token])%list)).
Proof.
  rewrite makeRequest_auth.
  destruct (queryString_of h params) as [e|queryString]; [left; eauto|].
  destruct (jwt_sign h sent _ _ _) as [e|token]; [left|right]; eauto.
Qed.

Lemma append_nonempty (a b : string) : b <> "" -> a ++ b <> "".
Proof. destruct a; cbn; [auto | discriminate]. Qed.

Lemma join_nonempty sep x rest : x <> "" -> join sep (x :: rest) <> "".
Proof.
  intros Hx. destruct rest as [|y rest]; cbn [join]; [exact Hx|].
  destruct x; [contradiction | discriminate].
Qed.

(** A parameter object with at least one key has a query string that is
    not empty. *)
Lemma queryString_nonempty kv rest queryString :
  queryString_of h (kv :: rest) = inr queryString ->
  truthy (Str queryString) = true.
Proof.
  intros H.
  assert (Hne : queryString <> "").
  { unfold queryString_of, Object_keys in H. cbn [map Array_map] in H.
    destruct (String_of h (lookup (fst kv) (kv :: rest))) as [e|text];
      [discriminate|].
    destruct (Array_map _ (map fst rest)) as [e|members]; [discriminate|].
    injection H as <-.
    change (join "&" ((fst kv ++ "=" ++ encodeURIComponent text) :: members) <> "").
    apply join_nonempty, append_nonempty. discriminate. }
  cbn [truthy]. destruct (String.eqb_spec queryString "");
    [contradiction | reflexivity].
Qed.

(** ** getKrwBalance *)

Lemma getKrwBalance_state sent :
  snd (getKrwBalance h sent) = snd (getAccounts h sent).
Proof.
  unfold getKrwBalance. run.
  destruct (getAccounts h sent) as [[e|accounts] s]; [reflexivity|].
  match goal with |- context [match ?x with inl _ => _ | inr _ => _ end] =>
    destruct x as [e|account] end; [reflexivity|].
  destruct (truthy account); [|reflexivity].
  destruct (getProp account "balance"); reflexivity.
Qed.

Lemma getKrwBalance_throws_with sent e s :
  getAccounts h sent = (inl e, s) -> getKrwBalance h sent = (inl e, s).
Proof. intros H. unfold getKrwBalance. run. rewrite H. reflexivity. Qed.

(** The balance fetch sends one request, the GET of the accounts, unless
    signing fails, in which case it throws. *)
Lemma getKrwBalance_sent sent :
  (exists e, getKrwBalance h sent = (inl e, sent))
  \/ (exists token r,
        getKrwBalance h sent =
        (r, (sent ++ [signed_request h "GET" "/v1/accounts" [] token])%list)).
Proof.
  destruct (makeRequest_sent "GET" "/v1/accounts" [] sent) as [[e H]|[token H]].
  - left. exists e. apply getKrwBalance_throws_with. exact H.
  - right. exists token.
    exists (fst (getKrwBalance h sent)).
    rewrite (surjective_pairing (getKrwBalance h sent)) at 1.
    rewrite getKrwBalance_state. unfold getAccounts. rewrite H. reflexivity.
Qed.

(** ** getRecentOrders *)

Lemma datable_readable order : datable h order = true -> readable order = true.
Proof. unfold datable. intros H. apply andb_prop in H as [H _]. exact H. Qed.

Lemma forallb_datable_readable orders :
  forallb (datable h) orders = true -> forallb readable orders = true.
Proof.
  intros H. rewrite forallb_forall in *. intros x Hx.
  apply datable_readable, H, Hx.
Qed.

(** The callback of the filter returns on an entry it can date, and
    throws on any other: an entry that cannot be read, or whose
    [created_at] cannot be converted. *)
Lemma created_since_datable cutoff order :
  datable h order = true ->
  created_since h cutoff order = inr (Date_ge (created_at_time h order) cutoff).
Proof.
  unfold datable, created_since, created_at_time.
  destruct order; cbn [readable andb getProp prop]; try discriminate;
    destruct (Date_new _ _ _); cbn [returns]; intros; (discriminate || reflexivity).
Qed.

Lemma created_since_undatable cutoff order :
  datable h order = false -> exists e, created_since h cutoff order = inl e.
Proof.
  unfold datable, created_since.
  destruct order; cbn [readable andb getProp prop]; eauto;
    destruct (Date_new _ _ _); cbn [returns]; intros; (discriminate || eauto).
Qed.

Lemma created_since_unreadable cutoff order :
  readable order = false -> exists e, created_since h cutoff order = inl e.
Proof. destruct order; cbn; intros; (discriminate || eauto). Qed.

Lemma Array_filter_returns (ok : value -> bool) (p : value -> res bool)
    (q : value -> bool) items :
  (forall x, ok x = true -> p x = inr (q x)) ->
  forallb ok items = true ->
  Array_filter p items = inr (filter q items).
Proof.
  intros Hp. induction items as [|x rest IH]; cbn; [reflexivity|].
  intros H. apply andb_prop in H as [Hx Hrest].
  rewrite (Hp x Hx), (IH Hrest). reflexivity.
Qed.

Lemma Array_filter_throws (ok : value -> bool) (p : value -> res bool) items :
  (forall x, ok x = true -> exists b, p x = inr b) ->
  (forall x, ok x = false -> exists e, p x = inl e) ->
  forallb ok items = false ->
  exists e, Array_filter p items = inl e.
Proof.
  intros Hok Hko. induction items as [|x rest IH]; cbn; [discriminate|].
  destruct (ok x) eqn:Hx; cbn.
  - intros H. destruct (Hok x Hx) as [b ->]. destruct (IH H) as [e ->]. eauto.
  - intros _. destruct (Hko x Hx) as [e ->]. eauto.
Qed.

Lemma Array_filter_readable (p : value -> res bool) (q : value -> bool) items :
  (forall x, readable x = true -> p x = inr (q x)) ->
  forallb readable items = true ->
  Array_filter p items = inr (filter q items).
Proof.
  intros Hp. induction items as [|x rest IH]; cbn; [reflexivity|].
  intros H. apply andb_prop in H as [Hx Hrest].
  rewrite (Hp x Hx), (IH Hrest). reflexivity.
Qed.

Lemma Array_filter_unreadable (p : value -> res bool) items :
  (forall x, readable x = true -> exists b, p x = inr b) ->
  (forall x, readable x = false -> exists e, p x = inl e) ->
  forallb readable items = false ->
  exists e, Array_filter p items = inl e.
Proof.
  intros Hok Hko. induction items as [|x rest IH]; cbn; [discriminate|].
  destruct (readable x) eqn:Hx; cbn.
  - intros H. destruct (Hok x Hx) as [b ->]. destruct (IH H) as [e ->]. eauto.
  - intros _. destruct (Hko x Hx) as [e ->]. eauto.
Qed.

Lemma filter_readable (q : value -> bool) items :
  forallb readable items = true -> forallb readable (filter q items) = true.
Proof.
  induction items as [|x rest IH]; cbn; [reflexivity|].
  intros H. apply andb_prop in H as [Hx Hrest].
  destruct (q x); cbn; rewrite ?Hx; auto.
Qed.

(** The lookup in terms of the call it makes: the answer of the exchange
    must be an array, and the callback runs on every entry. *)
Lemma getRecentOrders_run market hours sent :
  getRecentOrders h market (Some hours) sent =
  match makeRequest h "GET" "/v1/orders" (orders_query market "done,cancel") true sent with
  | (inl e, s) => (inl e, s)
  | (inr orders, s) =>
      match orders with
      | Arr items =>
          match Array_filter (created_since h (cutoffTime (Date_now h s) hours)) items with
          | inl e => (inl e, s)
          | inr kept => (inr (Arr kept), s)
          end
      | _ => (inl (not_a_function "orders" "filter" orders), s)
      end
  end.
Proof.
  unfold getRecentOrders. run.
  destruct (makeRequest h "GET" "/v1/orders" _ true sent) as [[e|orders] s];
    [reflexivity|].
  destruct orders; reflexivity.
Qed.

Lemma getRecentOrders_sent market hours sent :
  (exists e, getRecentOrders h market (Some hours) sent = (inl e, sent))
  \/ (exists token r,
        getRecentOrders h market (Some hours) sent =
        (r, (sent ++ [signed_request h "GET" "/v1/orders"
                        (orders_query market "done,cancel") token])%list)).
Proof.
  rewrite getRecentOrders_run.
  destruct (makeRequest_sent "GET" "/v1/orders"
              (orders_query market "done,cancel") sent) as [[e H]|[token H]];
    rewrite H.
  - left. eauto.
  - right. exists token.
    destruct (axios h sent _) as [e|orders]; [eauto|].
    destruct orders; eauto.
    destruct (Array_filter _ items); eauto.
Qed.

(** ** checkDuplicateBuy *)

Lemma is_done_bid_readable order :
  readable order = true ->
  is_done_bid order =
  inr (strict_eq_str (prop order "side") "bid"
       && strict_eq_str (prop order "state") "done").
Proof.
  destruct order; cbn; intros; try discriminate; try reflexivity.
  destruct (strict_eq_str _ "bid"); reflexivity.
Qed.

(** The duplicate check never throws: whatever the lookup throws is
    answered by [false]. *)
Lemma checkDuplicateBuy_run sent :
  checkDuplicateBuy h sent =
  match getRecentOrders h CONFIG.TRADING_SYMBOL
          (Some CONFIG.DUPLICATE_PREVENTION_HOURS) sent with
  | (inl e, s) => (inr false, s)
  | (inr recentOrders, s) =>
      match recentOrders with
      | Arr items =>
          match Array_filter is_done_bid items with
          | inl e => (inr false, s)
          | inr buyOrders => (inr (0 <? length buyOrders)%nat, s)
          end
      | _ => (inr false, s)
      end
  end.
Proof.
  unfold checkDuplicateBuy. run.
  destruct (getRecentOrders h _ _ sent) as [[e|recent] s]; [reflexivity|].
  destruct recent; try reflexivity.
  destruct (Array_filter is_done_bid items); reflexivity.
Qed.

Lemma checkDuplicateBuy_returns sent :
  exists b, fst (checkDuplicateBuy h sent) = inr b.
Proof.
  rewrite checkDuplicateBuy_run.
  destruct (getRecentOrders h _ _ sent) as [[e|recent] s]; [cbn; eauto|].
  destruct recent; cbn; eauto.
  destruct (Array_filter is_done_bid items); cbn; eauto.
Qed.

Lemma checkDuplicateBuy_state sent :
  snd (checkDuplicateBuy h sent) =
  snd (getRecentOrders h CONFIG.TRADING_SYMBOL
         (Some CONFIG.DUPLICATE_PREVENTION_HOURS) sent).
Proof.
  rewrite checkDuplicateBuy_run.
  destruct (getRecentOrders h _ _ sent) as [[e|recent] s]; [reflexivity|].
  destruct recent; try reflexivity.
  destruct (Array_filter is_done_bid items); reflexivity.
Qed.

(** ** placeBuyOrder *)

Lemma placeBuyOrder_run market price sent :
  placeBuyOrder h market price sent =
  if Number.ltb price CONFIG.MIN_ORDER_AMOUNT then
    (inl (Error ("최소 주문 금액 " ++ Number_toString h CONFIG.MIN_ORDER_AMOUNT
                 ++ "원 이상이어야 합니다.")), sent)
  else makeRequest h "POST" "/v1/orders" (orderParams h market price) true sent.
Proof.
  unfold placeBuyOrder, orderParams. run.
  destruct (Number.ltb price CONFIG.MIN_ORDER_AMOUNT); [reflexivity|].
  destruct (makeRequest h "POST" "/v1/orders" _ true sent) as [[e|r] s]; reflexivity.
Qed.

(** Either nothing is sent and the placement throws, or the POST is sent
    and what the exchange answers is what the placement returns. *)
Lemma placeBuyOrder_sent market price sent :
  (exists e, placeBuyOrder h market price sent = (inl e, sent))
  \/ (exists token,
        let request := signed_request h "POST" "/v1/orders"
                         (orderParams h market price) token in
        placeBuyOrder h market price sent =
        (axios h sent request, (sent ++ [request])%list)).
Proof.
  rewrite placeBuyOrder_run.
  destruct (Number.ltb price CONFIG.MIN_ORDER_AMOUNT); [left; eauto|].
  apply makeRequest_sent.
Qed.

(** ** executeBuy *)

(** The body of [executeBuy], step by step, for a signal whose [symbol]
    can be read. *)
Lemma executeBuy_run webhookData sent :
  readable webhookData = true ->
  executeBuy h webhookData sent =
  match getKrwBalance h sent with
  | (inl e, s1) => (inr (failed (message e)), s1)
  | (inr krwBalance, s1) =>
      let buyAmount := Math_floor (Number.mul krwBalance CONFIG.BUY_PERCENTAGE) in
      if Number.ltb buyAmount CONFIG.MIN_ORDER_AMOUNT then
        (inr (failed (insufficient_funds h buyAmount)), s1)
      else
        match checkDuplicateBuy h s1 with
        | (inl e, s2) => (inr (failed (message e)), s2)
        | (inr true, s2) => (inr (skipped "중복 매수 방지"), s2)
        | (inr false, s2) =>
            report buyAmount (placeBuyOrder h CONFIG.TRADING_SYMBOL buyAmount s2)
        end
  end.
Proof.
  intros Hsignal.
  assert (Hsymbol : exists symbol, getProp webhookData "symbol" = inr symbol)
    by (destruct webhookData; try discriminate; cbn; eauto).
  destruct Hsymbol as [symbol Hsymbol].
  unfold executeBuy, generateId, buyAmount_of, report. run. rewrite Hsymbol.
  destruct (getKrwBalance h sent) as [[e|krwBalance] s1]; [reflexivity|].
  destruct (Number.ltb _ CONFIG.MIN_ORDER_AMOUNT); [reflexivity|].
  destruct (checkDuplicateBuy h s1) as [[e|[|]] s2]; try reflexivity.
  destruct (placeBuyOrder h _ _ s2) as [[e|result] s3]; [reflexivity|].
  destruct (getProp result "uuid"); reflexivity.
Qed.

(** A signal that is [null] or [undefined] makes [executeBuy] throw
    before its [try], with nothing sent: the route never passes one. *)
Lemma executeBuy_unreadable webhookData sent :
  readable webhookData = false ->
  exists e, executeBuy h webhookData sent = (inl e, sent).
Proof.
  unfold executeBuy, generateId. run.
  destruct webhookData; try discriminate; cbn [getProp]; eauto.
Qed.

Lemma is_object_readable v : is_object v = true -> readable v = true.
Proof. destruct v; cbn; congruence. Qed.

(** Whatever the placement does, its report is a result. *)
Lemma report_result amount outcome :
  exists result sent', report amount outcome = (inr result, sent')
                       /\ ExecutionResult result.
Proof.
  destruct outcome as [[e|placed_order] s]; cbn [report].
  - eexists _, _. split; [reflexivity | constructor].
  - destruct (getProp placed_order "uuid");
      (eexists _, _; split; [reflexivity | constructor]).
Qed.

Lemma executeBuy_result webhookData sent :
  readable webhookData = true ->
  exists result sent',
    executeBuy h webhookData sent = (inr result, sent') /\ ExecutionResult result.
Proof.
  intros Hsignal. rewrite (executeBuy_run _ _ Hsignal).
  destruct (getKrwBalance h sent) as [[e|krwBalance] s1].
  { eexists _, _. split; [reflexivity | constructor]. }
  cbv zeta. destruct (Number.ltb _ CONFIG.MIN_ORDER_AMOUNT).
  { eexists _, _. split; [reflexivity | constructor]. }
  destruct (checkDuplicateBuy h s1) as [[e|[|]] s2].
  - eexists _, _. split; [reflexivity | constructor].
  - eexists _, _. split; [reflexivity | constructor].
  - apply report_result.
Qed.

End Runs.

Import UpbitAPI TradingEngine.

(* ===================================================================== *)
(** * The engine reports, it does not throw *)
(* ===================================================================== *)

(** C1. For every signal the route hands over (an object), [executeBuy]
    does not throw: whatever the balance fetch, the duplicate check or the
    placement raise, the invocation returns one value, and that value is one
    of the three results [{success: true, orderId, amount}],
    [{success: false, reason}], [{success: false, error}]. This is for
    every host, so for every way the exchange answers or rejects the
    calls. *)
Theorem executeBuy_never_raises (h : Host) (webhookData : value) (sent : list Request) :
  is_object webhookData = true ->
  exists result sent',
    executeBuy h webhookData sent = (inr result, sent') /\ ExecutionResult result.
Proof.
  intros Hsignal. apply executeBuy_result, is_object_readable, Hsignal.
Qed.

Lemma executeBuy_never_raises_witness :
  is_object Examples.signal = true
  /\ exists result sent',
       executeBuy Examples.placement_refused Examples.signal [] = (inr result, sent')
       /\ ExecutionResult result.
Proof.
  split; [reflexivity|].
  apply (executeBuy_never_raises Examples.placement_refused Examples.signal []).
  reflexivity.
Defined.

Lemma getProp_returned v k x :
  getProp v k = inr x -> readable v = true /\ x = prop v k.
Proof. destruct v; cbn; intros H; try discriminate; injection H as <-; auto. Qed.

(** A success is the report of a placement the exchange accepted: the
    last request sent is the signed POST of the order, its answer could
    be read, and the result is written from that answer and the amount. *)
Lemma executeBuy_success (h : Host) webhookData sent result sent' :
  executeBuy h webhookData sent = (inr result, sent') ->
  prop result "success" = Bool true ->
  exists earlier token order amount,
    let request := signed_request h "POST" "/v1/orders"
                     (orderParams h CONFIG.TRADING_SYMBOL amount) token in
    sent' = (earlier ++ [request])%list
    /\ axios h earlier request = inr order
    /\ readable order = true
    /\ result = placed (prop order "uuid") amount
    /\ Number.ltb amount CONFIG.MIN_ORDER_AMOUNT = false.
Proof.
  intros Hrun Hsuccess.
  destruct (readable webhookData) eqn:Hsignal.
  2:{ destruct (executeBuy_unreadable h _ sent Hsignal) as [e He].
      rewrite He in Hrun. discriminate. }
  rewrite (executeBuy_run h _ _ Hsignal) in Hrun.
  destruct (getKrwBalance h sent) as [[e|krwBalance] s1].
  { injection Hrun as <- <-. discriminate. }
  cbv zeta in Hrun.
  destruct (Number.ltb _ CONFIG.MIN_ORDER_AMOUNT) eqn:Hgate.
  { injection Hrun as <- <-. discriminate. }
  destruct (checkDuplicateBuy h s1) as [[e|[|]] s2];
    try (injection Hrun as <- <-; discriminate).
  destruct (placeBuyOrder_sent h CONFIG.TRADING_SYMBOL
              (Math_floor (Number.mul krwBalance CONFIG.BUY_PERCENTAGE)) s2)
    as [[e He]|[token Hsent]].
  { rewrite He in Hrun. cbn [report] in Hrun. injection Hrun as <- <-. discriminate. }
  cbv zeta in Hsent. rewrite Hsent in Hrun.
  destruct (axios h s2 _) as [e|order] eqn:Hanswer; cbn [report] in Hrun.
  { injection Hrun as <- <-. discriminate. }
  destruct (getProp order "uuid") as [e|orderId] eqn:Huuid.
  { injection Hrun as <- <-. discriminate. }
  destruct (getProp_returned _ _ _ Huuid) as [Hreadable ->].
  injection Hrun as <- <-.
  exists s2, token, order, (Math_floor (Number.mul krwBalance CONFIG.BUY_PERCENTAGE)).
  cbv zeta.
  split; [reflexivity|]. split; [exact Hanswer|]. split; [exact Hreadable|].
  split; [reflexivity | exact Hgate].
Qed.

(** C9, as the specification words it, fails: a success is written from
    whatever the exchange answered. When the answer to the order has no
    [uuid] the result is [{success: true, orderId: undefined, amount}], so
    the identifier is not there; and when the balance did not parse the
    amount of a success is NaN. *)
Lemma success_without_orderId :
  (let h := Examples.exchange "50000.0" (inr (Arr [])) (inr (Obj [])) in
   fst (executeBuy h Examples.signal []) = inr (placed Undefined (of_Z 5000))
   /\ prop (placed Undefined (of_Z 5000)) "success" = Bool true
   /\ prop (placed Undefined (of_Z 5000)) "orderId" = Undefined)
  /\ (let h := Examples.exchange "unknown" (inr (Arr [])) (inr Examples.created) in
      fst (executeBuy h Examples.signal []) = inr (placed (Str "abc-123") NaN)
      /\ prop (placed (Str "abc-123") NaN) "success" = Bool true
      /\ prop (placed (Str "abc-123") NaN) "amount" = Num NaN).
Proof.
  split; cbv zeta; (split; [vm_compute; reflexivity | split; reflexivity]).
Qed.

(** C9, amended. In every result [executeBuy] returns, [success: true]
    comes with the keys [orderId] and [amount]: the amount is the number
    sent as the price of the order, which did not compare below the
    minimum, and [orderId] is the [uuid] of what the exchange answered to
    the order, [undefined] when that answer has none. [success: false]
    comes with a [reason] or with an [error], which is a text. *)
Theorem result_fields_present (h : Host) (webhookData : value)
    (sent : list Request) (result : value) (sent' : list Request) :
  executeBuy h webhookData sent = (inr result, sent') ->
  (prop result "success" = Bool true ->
     has_field result "orderId" = true /\ has_field result "amount" = true
     /\ exists earlier token order amount,
          let request := signed_request h "POST" "/v1/orders"
                           (orderParams h CONFIG.TRADING_SYMBOL amount) token in
          sent' = (earlier ++ [request])%list
          /\ axios h earlier request = inr order
          /\ prop result "orderId" = prop order "uuid"
          /\ prop result "amount" = Num amount
          /\ prop (data request) "price" = Str (Number_toString h amount)
          /\ Number.ltb amount CONFIG.MIN_ORDER_AMOUNT = false)
  /\ (prop result "success" = Bool false ->
        (exists reason, result = skipped reason)
        \/ (exists error, result = failed error)).
Proof.
  intros Hrun. split.
  - intros Hsuccess.
    destruct (executeBuy_success h _ _ _ _ Hrun Hsuccess)
      as (earlier & token & order & amount & Hsent & Hanswer & _ & -> & Hgate).
    split; [reflexivity|]. split; [reflexivity|].
    exists earlier, token, order, amount. cbv zeta.
    split; [exact Hsent|]. split; [exact Hanswer|].
    split; [reflexivity|]. split; [reflexivity|]. split; [reflexivity | exact Hgate].
  - intros Hfailure.
    destruct (readable webhookData) eqn:Hsignal.
    + destruct (executeBuy_result h webhookData sent Hsignal) as (r & s & Hr & Hshape).
      rewrite Hr in Hrun. injection Hrun as <- <-.
      destruct Hshape; [discriminate | left; eauto | right; eauto].
    + destruct (executeBuy_unreadable h webhookData sent Hsignal) as [e He].
      rewrite He in Hrun. discriminate.
Qed.

Lemma result_fields_present_witness :
  let h := Examples.calm "50000.0" in
  executeBuy h Examples.signal []
  = (inr (placed (Str "abc-123") (of_Z 5000)), snd (executeBuy h Examples.signal []))
  /\ has_field (placed (Str "abc-123") (of_Z 5000)) "orderId" = true
  /\ has_field (placed (Str "abc-123") (of_Z 5000)) "amount" = true
  /\ exists earlier token order amount,
       let request := signed_request h "POST" "/v1/orders"
                        (orderParams h CONFIG.TRADING_SYMBOL amount) token in
       snd (executeBuy h Examples.signal []) = (earlier ++ [request])%list
       /\ axios h earlier request = inr order
       /\ prop (placed (Str "abc-123") (of_Z 5000)) "orderId" = prop order "uuid"
       /\ prop (placed (Str "abc-123") (of_Z 5000)) "amount" = Num amount
       /\ prop (data request) "price" = Str (Number_toString h amount)
       /\ Number.ltb amount CONFIG.MIN_ORDER_AMOUNT = false.
Proof.
  intros h.
  assert (Hrun : executeBuy h Examples.signal []
                 = (inr (placed (Str "abc-123") (of_Z 5000)),
                    snd (executeBuy h Examples.signal [])))
    by (vm_compute; reflexivity).
  split; [exact Hrun|].
  apply (result_fields_present _ _ _ _ _ Hrun). reflexivity.
Defined.

(** When the exchange answers the placement with an order that carries a
    [uuid], that is the [orderId] reported. *)
Lemma report_orderId amount order orderId sent :
  getProp order "uuid" = inr orderId ->
  report amount (inr order, sent) = (inr (placed orderId amount), sent).
Proof. intros H. cbn [report]. rewrite H. reflexivity. Qed.

(* ===================================================================== *)
(** * The minimum-amount gate *)
(* ===================================================================== *)

(** A balance that was fetched cost exactly one request. *)
Lemma balance_fetch_request h sent krwBalance sent1 :
  getKrwBalance h sent = (inr krwBalance, sent1) ->
  exists token, sent1 = (sent ++ [signed_request h "GET" "/v1/accounts" [] token])%list.
Proof.
  intros H. destruct (getKrwBalance_sent h sent) as [[e He]|(token & r & Hr)].
  - rewrite He in H. discriminate.
  - rewrite Hr in H. injection H as _ <-. eauto.
Qed.

(** C3. When the amount computed from the fetched balance,
    [floor(balance * BUY_PERCENTAGE)], is below [MIN_ORDER_AMOUNT],
    [executeBuy] returns [{success: false}] with the insufficient-balance
    message, and the only request sent is not an order placement. *)
Theorem insufficient_funds_no_order (h : Host) (webhookData : value)
    (sent : list Request) (krwBalance : number) (sent1 : list Request) :
  is_object webhookData = true ->
  getKrwBalance h sent = (inr krwBalance, sent1) ->
  Number.ltb (Math_floor (Number.mul krwBalance CONFIG.BUY_PERCENTAGE))
             CONFIG.MIN_ORDER_AMOUNT = true ->
  executeBuy h webhookData sent =
    (inr (failed (insufficient_funds h
                    (Math_floor (Number.mul krwBalance CONFIG.BUY_PERCENTAGE)))),
     sent1)
  /\ exists requests,
       sent1 = (sent ++ requests)%list /\ placements requests = 0%nat.
Proof.
  intros Hsignal Hbalance Hlow. split.
  - rewrite (executeBuy_run h _ _ (is_object_readable _ Hsignal)), Hbalance.
    cbv zeta. rewrite Hlow. reflexivity.
  - destruct (balance_fetch_request _ _ _ _ Hbalance) as [token ->].
    eexists. split; reflexivity.
Qed.

Lemma insufficient_funds_no_order_witness :
  is_object Examples.signal = true
  /\ Number.ltb (Math_floor (Number.mul (of_Z 49990) CONFIG.BUY_PERCENTAGE))
                CONFIG.MIN_ORDER_AMOUNT = true
  /\ fst (executeBuy (Examples.calm "49990.0") Examples.signal [])
     = inr (failed "잔고 부족: 4999원 (최소 5000원)").
Proof.
  split; [reflexivity|]. split; [vm_compute; reflexivity|].
  assert (Hbalance : getKrwBalance (Examples.calm "49990.0") []
                     = (inr (of_Z 49990),
                        snd (getKrwBalance (Examples.calm "49990.0") [])))
    by (vm_compute; reflexivity).
  destruct (insufficient_funds_no_order (Examples.calm "49990.0") Examples.signal
              [] _ _ eq_refl Hbalance) as [Hrun _].
  - vm_compute; reflexivity.
  - rewrite Hrun. vm_compute; reflexivity.
Defined.

(** C10. When the computed amount is below [MIN_ORDER_AMOUNT], the balance
    fetch is the only request of the invocation: neither the lookup of the
    recent orders nor the placement is sent. *)
Theorem insufficient_funds_single_call (h : Host) (webhookData : value)
    (sent : list Request) (krwBalance : number) (sent1 : list Request) :
  is_object webhookData = true ->
  getKrwBalance h sent = (inr krwBalance, sent1) ->
  Number.ltb (Math_floor (Number.mul krwBalance CONFIG.BUY_PERCENTAGE))
             CONFIG.MIN_ORDER_AMOUNT = true ->
  exists request,
    snd (executeBuy h webhookData sent) = (sent ++ [request])%list
    /\ is_balance_fetch request = true
    /\ is_orders_lookup request = false
    /\ is_place_order request = false.
Proof.
  intros Hsignal Hbalance Hlow.
  rewrite (executeBuy_run h _ _ (is_object_readable _ Hsignal)), Hbalance.
  cbv zeta. rewrite Hlow. cbn [snd].
  destruct (balance_fetch_request _ _ _ _ Hbalance) as [token ->].
  eexists. repeat split; reflexivity.
Qed.

Lemma insufficient_funds_single_call_witness :
  is_object Examples.signal = true
  /\ Number.ltb (Math_floor (Number.mul (of_Z 49990) CONFIG.BUY_PERCENTAGE))
                CONFIG.MIN_ORDER_AMOUNT = true
  /\ exists request,
       snd (executeBuy (Examples.calm "49990.0") Examples.signal []) = [request]
       /\ is_balance_fetch request = true
       /\ is_orders_lookup request = false
       /\ is_place_order request = false.
Proof.
  split; [reflexivity|]. split; [vm_compute; reflexivity|].
  assert (Hbalance : getKrwBalance (Examples.calm "49990.0") []
                     = (inr (of_Z 49990),
                        snd (getKrwBalance (Examples.calm "49990.0") [])))
    by (vm_compute; reflexivity).
  apply (insufficient_funds_single_call (Examples.calm "49990.0") Examples.signal
           [] _ _ eq_refl Hbalance).
  vm_compute; reflexivity.
Defined.

(* ===================================================================== *)
(** * Sizing *)
(* ===================================================================== *)

(** The literal [0.1] as a double. *)
Lemma BUY_PERCENTAGE_bits :
  CONFIG.BUY_PERCENTAGE = S754_finite false 7205759403792794 (-56).
Proof. vm_compute. reflexivity. Qed.

(** For a balance that is a whole number of won the rounding of the
    product is harmless: the amount is the tenth of the balance, rounded
    down. *)
Lemma whole_balance_amount b :
  0 <= b < 2 ^ 52 -> buyAmount_of (of_Z b) = of_Z (b / 10).
Proof.
  intros Hb. unfold buyAmount_of. rewrite BUY_PERCENTAGE_bits.
  destruct b as [|p|p]; [reflexivity | apply tenth_of_whole; lia | lia].
Qed.

(** So a whole balance passes the minimum exactly from 50000 won on. *)
Lemma whole_balance_gate b :
  0 <= b < 2 ^ 52 ->
  Number.ltb (buyAmount_of (of_Z b)) CONFIG.MIN_ORDER_AMOUNT = (b <? 50000).
Proof.
  intros Hb. rewrite (whole_balance_amount b Hb).
  assert (Hq : 0 <= b / 10 < 2 ^ 53).
  { split; [apply Z.div_pos; lia | apply Z.div_lt_upper_bound; lia]. }
  unfold CONFIG.MIN_ORDER_AMOUNT. rewrite (of_Z_ltb _ _ Hq) by lia.
  pose proof (Z.div_mod b 10 ltac:(lia)) as Hdiv.
  pose proof (Z.mod_pos_bound b 10 ltac:(lia)) as Hrem.
  destruct (Z.ltb_spec (b / 10) 5000); destruct (Z.ltb_spec b 50000);
    try reflexivity; lia.
Qed.

(** With a fraction in the balance the product is still rounded before the
    floor is taken: just below a multiple of ten the rounding can reach the
    next whole number. *)
Remark buyAmount_rounding :
  Reference.parseFloat_string "49999.999999999993"
  = S754_finite false 6871947673599999 (-37)
  /\ buyAmount_of (S754_finite false 6871947673599999 (-37)) = of_Z 5000.
Proof. split; vm_compute; reflexivity. Qed.

(** C7, as the specification words it, fails for balances with a
    fraction: the product is rounded to a double before the floor is
    taken, and just below a multiple of ten the rounding reaches the next
    whole number. For a balance of 50413649.99999999 the floor of the
    tenth is 5041364 and the program buys for 5041365; for
    49999.999999999993 the floor is 4999, below the minimum, and the
    program places an order of 5000. *)
Lemma buy_amount_above_the_floor :
  (let balance := Reference.parseFloat_string "50413649.99999999" in
   balance = S754_finite false 6766405563187199 (-27)
   /\ exact_floor_of_tenth balance = Some 5041364
   /\ exact_floor_of_product balance CONFIG.BUY_PERCENTAGE = Some 5041364
   /\ buyAmount_of balance = of_Z 5041365
   /\ fst (executeBuy (Examples.calm "50413649.99999999") Examples.signal [])
      = inr (placed (Str "abc-123") (of_Z 5041365)))
  /\ (let balance := Reference.parseFloat_string "49999.999999999993" in
      balance = S754_finite false 6871947673599999 (-37)
      /\ exact_floor_of_tenth balance = Some 4999
      /\ exact_floor_of_product balance CONFIG.BUY_PERCENTAGE = Some 4999
      /\ buyAmount_of balance = of_Z 5000
      /\ fst (executeBuy (Examples.calm "49999.999999999993") Examples.signal [])
         = inr (placed (Str "abc-123") (of_Z 5000))).
Proof.
  split; cbv zeta; repeat (split; [vm_compute; reflexivity|]);
    vm_compute; reflexivity.
Qed.

(** C7, amended. For every fetched balance the amount [executeBuy] works
    with is [Math.floor(krwBalance * BUY_PERCENTAGE)] as the program
    computes it in doubles: it is the amount compared
    with the minimum and named in the insufficient-balance message, the
    [price] of the order that is placed, and the [amount] of the result.
    It is the whole number below the product, the product being the double
    [m * 2^e] the multiplication returns; for a balance that is a whole
    number below 2^52 it is the tenth of the balance rounded down. For a
    balance of 123456 it is 12345. *)
Theorem buy_amount_is_floor (h : Host) (webhookData : value) (sent : list Request)
    (krwBalance : number) (sent1 : list Request) (result : value)
    (sent' : list Request) :
  getKrwBalance h sent = (inr krwBalance, sent1) ->
  executeBuy h webhookData sent = (inr result, sent') ->
  let buyAmount := Math_floor (Number.mul krwBalance CONFIG.BUY_PERCENTAGE) in
  (Number.ltb buyAmount CONFIG.MIN_ORDER_AMOUNT = true ->
     result = failed (insufficient_funds h buyAmount))
  /\ (prop result "success" = Bool true ->
        prop result "amount" = Num buyAmount
        /\ exists earlier token,
             sent' = (earlier ++ [signed_request h "POST" "/v1/orders"
                                    (orderParams h CONFIG.TRADING_SYMBOL buyAmount)
                                    token])%list)
  /\ (forall s m e,
        Number.mul krwBalance CONFIG.BUY_PERCENTAGE = S754_finite s m e ->
        Zpos m < 2 ^ 53 ->
        integer_value buyAmount = Some (floor_scaled s m e))
  /\ (forall b,
        0 <= b < 2 ^ 52 ->
        Math_floor (Number.mul (of_Z b) CONFIG.BUY_PERCENTAGE) = of_Z (b / 10))
  /\ Math_floor (Number.mul (of_Z 123456) CONFIG.BUY_PERCENTAGE) = of_Z 12345.
Proof.
  intros Hbalance Hrun buyAmount.
  destruct (readable webhookData) eqn:Hsignal.
  2: { destruct (executeBuy_unreadable h webhookData sent Hsignal) as [e He].
       rewrite He in Hrun. discriminate. }
  rewrite (executeBuy_run h _ _ Hsignal), Hbalance in Hrun. cbv zeta in Hrun.
  fold buyAmount in Hrun.
  split; [|split; [|split; [|split]]].
  - intros Hlow. rewrite Hlow in Hrun. congruence.
  - intros Hsuccess.
    destruct (Number.ltb buyAmount CONFIG.MIN_ORDER_AMOUNT).
    { injection Hrun as <- <-. discriminate. }
    destruct (checkDuplicateBuy h sent1) as [[e|[|]] s2].
    1,2: injection Hrun as <- <-; discriminate.
    destruct (placeBuyOrder_sent h CONFIG.TRADING_SYMBOL buyAmount s2)
      as [[e He]|[token Hsent]].
    + rewrite He in Hrun. injection Hrun as <- <-. discriminate.
    + cbv zeta in Hsent. rewrite Hsent in Hrun. unfold report in Hrun.
      destruct (axios h s2 _) as [e|order].
      { injection Hrun as <- <-. discriminate. }
      destruct (getProp order "uuid") as [e|orderId];
        injection Hrun as <- <-; [discriminate|].
      split; [reflexivity|]. eauto.
  - intros s m e Hproduct Hm. unfold buyAmount. rewrite Hproduct.
    apply Math_floor_integer, Hm.
  - exact whole_balance_amount.
  - vm_compute. reflexivity.
Qed.

Lemma buy_amount_is_floor_witness :
  getKrwBalance (Examples.calm "123456.0") []
  = (inr (of_Z 123456), snd (getKrwBalance (Examples.calm "123456.0") []))
  /\ prop (placed (Str "abc-123") (of_Z 12345)) "amount"
     = Num (Math_floor (Number.mul (of_Z 123456) CONFIG.BUY_PERCENTAGE)).
Proof.
  assert (Hbalance : getKrwBalance (Examples.calm "123456.0") []
                     = (inr (of_Z 123456),
                        snd (getKrwBalance (Examples.calm "123456.0") [])))
    by (vm_compute; reflexivity).
  assert (Hrun : executeBuy (Examples.calm "123456.0") Examples.signal []
                 = (inr (placed (Str "abc-123") (of_Z 12345)),
                    snd (executeBuy (Examples.calm "123456.0") Examples.signal [])))
    by (vm_compute; reflexivity).
  split; [exact Hbalance|].
  apply (buy_amount_is_floor _ _ _ _ _ _ _ Hbalance Hrun). reflexivity.
Defined.

(* ===================================================================== *)
(** * One placement at most *)
(* ===================================================================== *)

Lemma placements_app a b : placements (a ++ b) = (placements a + placements b)%nat.
Proof. unfold placements. rewrite filter_app, length_app. reflexivity. Qed.

Lemma placements_none l : forallb not_placement l = true -> placements l = 0%nat.
Proof.
  unfold placements, not_placement. induction l as [|x rest IH]; cbn; [reflexivity|].
  intros H. apply andb_prop in H as [Hx Hrest].
  destruct (is_place_order x); [discriminate | auto].
Qed.

Lemma placement_not_among l before r after :
  forallb not_placement l = true -> l = (before ++ r :: after)%list ->
  is_place_order r = false.
Proof.
  intros H ->. rewrite forallb_app in H. apply andb_prop in H as [_ H].
  cbn in H. apply andb_prop in H as [H _]. unfold not_placement in H.
  destruct (is_place_order r); [discriminate | reflexivity].
Qed.

Lemma placement_is_last l p before r after :
  forallb not_placement l = true ->
  (l ++ [p] = before ++ r :: after)%list ->
  is_place_order r = true ->
  before = l /\ r = p /\ after = [].
Proof.
  revert before. induction l as [|x rest IH]; intros before Hl Heq Hr.
  - destruct before as [|b bs]; cbn in Heq.
    + injection Heq as <- <-. auto.
    + injection Heq as _ Heq. destruct bs; discriminate.
  - cbn in Hl. apply andb_prop in Hl as [Hx Hrest].
    destruct before as [|b bs]; cbn in Heq; injection Heq as Hhead Heq.
    + subst x. unfold not_placement in Hx. rewrite Hr in Hx. discriminate.
    + subst b. destruct (IH bs Hrest Heq Hr) as (-> & -> & ->). auto.
Qed.

(** The requests of an invocation: lookups that are not placements, then
    possibly one placement, whose outcome decides the result. *)
Lemma executeBuy_requests h webhookData sent :
  exists gets,
    forallb not_placement gets = true
    /\ (snd (executeBuy h webhookData sent) = (sent ++ gets)%list
        \/ exists amount token,
             let request := signed_request h "POST" "/v1/orders"
                              (orderParams h CONFIG.TRADING_SYMBOL amount) token in
             executeBuy h webhookData sent =
             report amount (axios h (sent ++ gets) request,
                            ((sent ++ gets) ++ [request])%list)).
Proof.
  destruct (readable webhookData) eqn:Hsignal.
  2: { destruct (executeBuy_unreadable h webhookData sent Hsignal) as [e He].
       exists []. split; [reflexivity|]. left. rewrite He, app_nil_r. reflexivity. }
  rewrite (executeBuy_run h _ _ Hsignal).
  destruct (getKrwBalance_sent h sent) as [[e He]|(token & r & Hr)].
  { rewrite He. exists []. split; [reflexivity|]. left.
    rewrite app_nil_r. reflexivity. }
  rewrite Hr. set (fetch := signed_request h "GET" "/v1/accounts" [] token).
  destruct r as [e|krwBalance].
  { exists [fetch]. split; [reflexivity|]. left. reflexivity. }
  cbv zeta. destruct (Number.ltb _ CONFIG.MIN_ORDER_AMOUNT).
  { exists [fetch]. split; [reflexivity|]. left. reflexivity. }
  set (buyAmount := Math_floor _).
  assert (Hcheck : exists gets,
             forallb not_placement gets = true
             /\ snd (checkDuplicateBuy h (sent ++ [fetch])%list) = (sent ++ gets)%list).
  { rewrite checkDuplicateBuy_state.
    destruct (getRecentOrders_sent h CONFIG.TRADING_SYMBOL
                CONFIG.DUPLICATE_PREVENTION_HOURS (sent ++ [fetch])%list)
      as [[e He]|(token' & r' & Hr')].
    - exists [fetch]. rewrite He. split; reflexivity.
    - exists [fetch; signed_request h "GET" "/v1/orders"
                       (orders_query CONFIG.TRADING_SYMBOL "done,cancel") token'].
      rewrite Hr'. cbn [snd]. rewrite <- app_assoc. split; reflexivity. }
  destruct Hcheck as (gets & Hgets & Hstate).
  exists gets. split; [exact Hgets|].
  destruct (checkDuplicateBuy h (sent ++ [fetch])%list) as [[e|[|]] s2];
    cbn [snd] in Hstate; subst s2; try (left; reflexivity).
  destruct (placeBuyOrder_sent h CONFIG.TRADING_SYMBOL buyAmount (sent ++ gets)%list)
    as [[e He]|[token' Hsent]].
  - left. rewrite He. reflexivity.
  - right. exists buyAmount, token'. cbv zeta in Hsent |- *. rewrite Hsent. reflexivity.
Qed.

Lemma report_state amount outcome : snd (report amount outcome) = snd outcome.
Proof.
  destruct outcome as [[e|order] s]; cbn [report]; [reflexivity|].
  destruct (getProp order "uuid"); reflexivity.
Qed.

(** C6. An invocation of [executeBuy] sends at most one order placement.
    When the exchange rejects that placement, nothing is sent after it and
    the invocation ends with [{success: false, error}], the message being
    the one of the rejection. More generally, whatever [placeBuyOrder]
    throws ends the invocation with that message as [error]. *)
Theorem at_most_one_placement (h : Host) (webhookData : value) (sent : list Request) :
  exists requests,
    snd (executeBuy h webhookData sent) = (sent ++ requests)%list
    /\ (placements requests <= 1)%nat
    /\ (forall before request after e,
          requests = (before ++ request :: after)%list ->
          is_place_order request = true ->
          axios h (sent ++ before) request = inl e ->
          after = []
          /\ fst (executeBuy h webhookData sent) = inr (failed (message e)))
    /\ (forall krwBalance sent1 sent2 e sent3,
          is_object webhookData = true ->
          getKrwBalance h sent = (inr krwBalance, sent1) ->
          Number.ltb (Math_floor (Number.mul krwBalance CONFIG.BUY_PERCENTAGE))
                     CONFIG.MIN_ORDER_AMOUNT = false ->
          checkDuplicateBuy h sent1 = (inr false, sent2) ->
          placeBuyOrder h CONFIG.TRADING_SYMBOL
            (Math_floor (Number.mul krwBalance CONFIG.BUY_PERCENTAGE)) sent2
          = (inl e, sent3) ->
          executeBuy h webhookData sent = (inr (failed (message e)), sent3)).
Proof.
  assert (Hthrown : forall krwBalance sent1 sent2 e sent3,
             is_object webhookData = true ->
             getKrwBalance h sent = (inr krwBalance, sent1) ->
             Number.ltb (Math_floor (Number.mul krwBalance CONFIG.BUY_PERCENTAGE))
                        CONFIG.MIN_ORDER_AMOUNT = false ->
             checkDuplicateBuy h sent1 = (inr false, sent2) ->
             placeBuyOrder h CONFIG.TRADING_SYMBOL
               (Math_floor (Number.mul krwBalance CONFIG.BUY_PERCENTAGE)) sent2
             = (inl e, sent3) ->
             executeBuy h webhookData sent = (inr (failed (message e)), sent3)).
  { intros krwBalance sent1 sent2 e sent3 Hsignal Hbalance Henough Hcheck Hplace.
    rewrite (executeBuy_run h _ _ (is_object_readable _ Hsignal)), Hbalance.
    cbv zeta. rewrite Henough, Hcheck, Hplace. reflexivity. }
  destruct (executeBuy_requests h webhookData sent)
    as (gets & Hgets & [Hstate|(amount & token & Hrun)]).
  - exists gets. split; [exact Hstate|]. split; [|split; [|exact Hthrown]].
    + rewrite (placements_none _ Hgets). lia.
    + intros before request after e Heq Hplace _.
      rewrite (placement_not_among _ _ _ _ Hgets Heq) in Hplace. discriminate.
  - cbv zeta in Hrun.
    set (request := signed_request h "POST" "/v1/orders" _ token) in Hrun.
    exists (gets ++ [request])%list. split; [|split; [|split; [|exact Hthrown]]].
    + rewrite Hrun, report_state. cbn [snd]. rewrite app_assoc. reflexivity.
    + rewrite placements_app, (placements_none _ Hgets).
      unfold placements. cbn [filter]. destruct (is_place_order request); cbn; lia.
    + intros before request' after e Heq Hplace Hrejected.
      destruct (placement_is_last _ _ _ _ _ Hgets Heq Hplace) as (-> & -> & ->).
      split; [reflexivity|]. rewrite Hrun, Hrejected. reflexivity.
Qed.

Lemma at_most_one_placement_witness :
  let requests := snd (executeBuy Examples.placement_refused Examples.signal []) in
  let request := nth 2 requests (mkRequest "" "" [] Null) in
  requests = (firstn 2 requests ++ [request])%list
  /\ is_place_order request = true
  /\ axios Examples.placement_refused (firstn 2 requests) request
     = Examples.rejected "400"
  /\ (placements requests <= 1)%nat
  /\ fst (executeBuy Examples.placement_refused Examples.signal [])
     = inr (failed "Request failed with status code 400").
Proof.
  intros requests request.
  assert (Heq : requests = (firstn 2 requests ++ [request])%list)
    by (vm_compute; reflexivity).
  assert (Hplace : is_place_order request = true) by (vm_compute; reflexivity).
  assert (Hrejected : axios Examples.placement_refused ([] ++ firstn 2 requests) request
                      = Examples.rejected "400") by (vm_compute; reflexivity).
  destruct (at_most_one_placement Examples.placement_refused Examples.signal [])
    as (requests' & Hsent & Hcount & Hlast & _).
  cbn [app] in Hsent. fold requests in Hsent. subst requests'.
  destruct (Hlast _ _ _ _ Heq Hplace Hrejected) as [_ Hresult].
  repeat split; try assumption.
Defined.

(** On the exchange that refuses the placement: three requests, the last
    one the placement, and the refusal reported. *)
Example placement_refused_run :
  map is_place_order (snd (executeBuy Examples.placement_refused Examples.signal []))
  = [false; false; true]
  /\ fst (executeBuy Examples.placement_refused Examples.signal [])
     = inr (failed "Request failed with status code 400").
Proof. split; vm_compute; reflexivity. Qed.

(* ===================================================================== *)
(** * The duplicate guard *)
(* ===================================================================== *)

Lemma recent_buys_exist (h : Host) cutoff orders :
  (0 <? length (filter (fun order => strict_eq_str (prop order "side") "bid"
                                      && strict_eq_str (prop order "state") "done")
                  (filter (fun order => Date_ge (created_at_time h order) cutoff)
                     orders)))%nat
  = existsb (recent_done_bid h cutoff) orders.
Proof.
  unfold recent_done_bid. induction orders as [|order rest IH]; cbn; [reflexivity|].
  destruct (Date_ge (created_at_time h order) cutoff); cbn; [|exact IH].
  destruct (strict_eq_str (prop order "side") "bid"); cbn; [|exact IH].
  destruct (strict_eq_str (prop order "state") "done"); cbn; [reflexivity | exact IH].
Qed.

(** What the lookup returns when the exchange answers with entries that
    can all be dated: those created at or after the cutoff, in the order
    received. *)
Lemma getRecentOrders_answer (h : Host) market hours sent orders sent1 :
  makeRequest h "GET" "/v1/orders" (orders_query market "done,cancel") true sent
  = (inr (Arr orders), sent1) ->
  forallb (datable h) orders = true ->
  getRecentOrders h market (Some hours) sent
  = (inr (Arr (filter (fun order =>
                         Date_ge (created_at_time h order)
                                 (cutoffTime (Date_now h sent1) hours))
                      orders)),
     sent1).
Proof.
  intros Hanswer Hdatable. rewrite getRecentOrders_run, Hanswer.
  rewrite (Array_filter_returns (datable h) _ _ _
             (created_since_datable h (cutoffTime (Date_now h sent1) hours))
             Hdatable).
  reflexivity.
Qed.

(** The duplicate check on such an answer. *)
Lemma checkDuplicateBuy_answer (h : Host) sent orders sent1 :
  makeRequest h "GET" "/v1/orders"
    (orders_query CONFIG.TRADING_SYMBOL "done,cancel") true sent
  = (inr (Arr orders), sent1) ->
  forallb (datable h) orders = true ->
  checkDuplicateBuy h sent
  = (inr (existsb (recent_done_bid h
                     (cutoffTime (Date_now h sent1) CONFIG.DUPLICATE_PREVENTION_HOURS))
                  orders),
     sent1).
Proof.
  intros Hanswer Hdatable.
  rewrite checkDuplicateBuy_run,
    (getRecentOrders_answer h _ _ _ _ _ Hanswer Hdatable).
  rewrite (Array_filter_readable _ _ _ is_done_bid_readable
             (filter_readable _ _ (forallb_datable_readable h _ Hdatable))).
  rewrite recent_buys_exist. reflexivity.
Qed.

(** One entry in the answer that cannot be dated makes the lookup throw. *)
Lemma getRecentOrders_undatable (h : Host) market hours sent orders sent1 :
  makeRequest h "GET" "/v1/orders" (orders_query market "done,cancel") true sent
  = (inr (Arr orders), sent1) ->
  forallb (datable h) orders = false ->
  exists e, getRecentOrders h market (Some hours) sent = (inl e, sent1).
Proof.
  intros Hanswer Hundatable. rewrite getRecentOrders_run, Hanswer.
  destruct (Array_filter_throws (datable h)
              (created_since h (cutoffTime (Date_now h sent1) hours)) orders)
    as [e ->]; eauto.
  - intros x Hx. rewrite (created_since_datable h _ _ Hx). eauto.
  - intros x Hx. apply created_since_undatable, Hx.
Qed.

(** The cutoff, when the clock is in the range of dates. *)
Lemma cutoffTime_in_range now hours :
  Z.abs (now - hours * 60 * 60 * 1000) <= 8640000000000000 ->
  cutoffTime now hours = Some (now - hours * 3600000).
Proof.
  intros H. unfold cutoffTime, TimeClip.
  destruct (Z.leb_spec (Z.abs (now - hours * 60 * 60 * 1000)) 8640000000000000);
    [f_equal; lia | lia].
Qed.

Lemma strict_eq_str_true v s : strict_eq_str v s = true <-> v = Str s.
Proof.
  destruct v; cbn; try (split; [discriminate | congruence]).
  destruct (String.eqb_spec s0 s); split; congruence.
Qed.

(** [a >= b] on dates, spelled out. *)
Lemma Date_ge_true a cutoff :
  Date_ge a (Some cutoff) = true <-> exists t, a = Some t /\ cutoff <= t.
Proof.
  destruct a as [t|]; cbn [Date_ge].
  - rewrite Z.leb_le. split; [eauto|]. intros (t' & Heq & Ht). congruence.
  - split; [discriminate|]. intros (t & Heq & _). discriminate.
Qed.

(** A recent completed buy, spelled out. *)
Lemma recent_done_bid_true (h : Host) cutoff order :
  recent_done_bid h cutoff order = true
  <-> prop order "side" = Str "bid" /\ prop order "state" = Str "done"
      /\ Date_ge (created_at_time h order) cutoff = true.
Proof.
  unfold recent_done_bid. rewrite !andb_true_iff, !strict_eq_str_true. tauto.
Qed.

(** C4. When the lookup of the recent orders throws, the duplicate check
    answers [false] and [executeBuy] goes on to place the order: what it
    returns is the report of the placement, in which the failure of the
    lookup has no part. In particular an accepted placement gives
    [{success: true}]. *)
Theorem duplicate_check_fails_open (h : Host) (webhookData : value)
    (sent : list Request) (krwBalance : number) (sent1 : list Request)
    (e : exn) (sent2 : list Request) :
  is_object webhookData = true ->
  getKrwBalance h sent = (inr krwBalance, sent1) ->
  Number.ltb (Math_floor (Number.mul krwBalance CONFIG.BUY_PERCENTAGE))
             CONFIG.MIN_ORDER_AMOUNT = false ->
  getRecentOrders h CONFIG.TRADING_SYMBOL (Some CONFIG.DUPLICATE_PREVENTION_HOURS) sent1
  = (inl e, sent2) ->
  let buyAmount := Math_floor (Number.mul krwBalance CONFIG.BUY_PERCENTAGE) in
  checkDuplicateBuy h sent1 = (inr false, sent2)
  /\ executeBuy h webhookData sent
     = report buyAmount (placeBuyOrder h CONFIG.TRADING_SYMBOL buyAmount sent2)
  /\ forall order orderId sent3,
       placeBuyOrder h CONFIG.TRADING_SYMBOL buyAmount sent2 = (inr order, sent3) ->
       getProp order "uuid" = inr orderId ->
       executeBuy h webhookData sent = (inr (placed orderId buyAmount), sent3).
Proof.
  intros Hsignal Hbalance Henough Hlookup buyAmount.
  assert (Hcheck : checkDuplicateBuy h sent1 = (inr false, sent2))
    by (rewrite checkDuplicateBuy_run, Hlookup; reflexivity).
  assert (Hrun : executeBuy h webhookData sent
                 = report buyAmount
                     (placeBuyOrder h CONFIG.TRADING_SYMBOL buyAmount sent2)).
  { rewrite (executeBuy_run h _ _ (is_object_readable _ Hsignal)), Hbalance.
    cbv zeta. fold buyAmount. unfold buyAmount at 1. rewrite Henough, Hcheck.
    reflexivity. }
  split; [exact Hcheck|]. split; [exact Hrun|].
  intros order orderId sent3 Hplaced Huuid.
  rewrite Hrun, Hplaced. apply report_orderId, Huuid.
Qed.

Lemma duplicate_check_fails_open_witness :
  is_object Examples.signal = true
  /\ fst (getRecentOrders Examples.lookup_down CONFIG.TRADING_SYMBOL
            (Some CONFIG.DUPLICATE_PREVENTION_HOURS)
            (snd (getKrwBalance Examples.lookup_down [])))
     = Examples.rejected "500"
  /\ fst (executeBuy Examples.lookup_down Examples.signal [])
     = inr (placed (Str "abc-123") (of_Z 12345)).
Proof.
  split; [reflexivity|]. split; [vm_compute; reflexivity|].
  pose (sent1 := snd (getKrwBalance Examples.lookup_down [])).
  pose (sent2 := snd (getRecentOrders Examples.lookup_down CONFIG.TRADING_SYMBOL
                        (Some CONFIG.DUPLICATE_PREVENTION_HOURS) sent1)).
  assert (Hbalance : getKrwBalance Examples.lookup_down [] = (inr (of_Z 123456), sent1))
    by (vm_compute; reflexivity).
  assert (Hlookup : getRecentOrders Examples.lookup_down CONFIG.TRADING_SYMBOL
                      (Some CONFIG.DUPLICATE_PREVENTION_HOURS) sent1
                    = (inl (Throw "AxiosError" "Request failed with status code 500"),
                       sent2))
    by (vm_compute; reflexivity).
  assert (Henough : Number.ltb (Math_floor (Number.mul (of_Z 123456) CONFIG.BUY_PERCENTAGE))
                               CONFIG.MIN_ORDER_AMOUNT = false)
    by (vm_compute; reflexivity).
  destruct (duplicate_check_fails_open Examples.lookup_down Examples.signal [] _ _ _ _
              eq_refl Hbalance Henough Hlookup) as (_ & Hrun & _).
  rewrite Hrun. vm_compute; reflexivity.
Defined.

(** C2, as the specification words it, fails on three counts. A completed
    buy 30 minutes old is answered with the reason the program spells
    [중복 매수 방지], not [duplicate_prevented]. A completed buy stamped
    ten minutes ahead of the local clock, which lies outside
    [now - 1h, now], stops the buy all the same. And an answer that holds
    an entry the filter cannot date ([null], or an order whose
    [created_at] cannot be converted) next to a recent completed buy does
    not stop it: the check throws and fails open. *)
Lemma duplicate_guard_as_specified_fails :
  (fst (executeBuy (Examples.with_orders [Examples.buy_30min_ago]) Examples.signal [])
   = inr (skipped "중복 매수 방지")
   /\ skipped "중복 매수 방지" <> skipped "duplicate_prevented")
  /\ (created_at_time (Examples.with_orders [Examples.buy_10min_ahead])
        Examples.buy_10min_ahead = Some (Examples.now + 600000)
      /\ ~ (Examples.now - 3600000 <= Examples.now + 600000 <= Examples.now)
      /\ fst (executeBuy (Examples.with_orders [Examples.buy_10min_ahead])
                Examples.signal [])
         = inr (skipped "중복 매수 방지"))
  /\ (created_at_time (Examples.with_orders [Null; Examples.buy_30min_ago])
        Examples.buy_30min_ago = Some (Examples.now - 1800000)
      /\ fst (executeBuy (Examples.with_orders [Null; Examples.buy_30min_ago])
                Examples.signal [])
         = inr (placed (Str "abc-123") (of_Z 12345)))
  /\ (readable Examples.buy_undated = true
      /\ fst (executeBuy
                (Examples.with_orders [Examples.buy_undated; Examples.buy_30min_ago])
                Examples.signal [])
         = inr (placed (Str "abc-123") (of_Z 12345))).
Proof.
  split; [|split; [|split]].
  - split; [vm_compute; reflexivity | discriminate].
  - split; [vm_compute; reflexivity|].
    split; [unfold Examples.now; lia | vm_compute; reflexivity].
  - split; vm_compute; reflexivity.
  - split; vm_compute; reflexivity.
Qed.

(** C2, amended. Suppose the balance passed the minimum and the exchange
    answered the lookup with a list. When every entry can be dated (it can
    be read and its [created_at] converts to a date without throwing): if
    one of them is a completed buy ([side] bid, [state] done) whose
    [created_at] is a date at or after the cutoff
    [now - DUPLICATE_PREVENTION_HOURS], [executeBuy] returns
    [{success: false, reason: '중복 매수 방지'}] and no placement has been
    sent; if no completed buy is that recent, [executeBuy] goes on to the
    placement and returns its report. When some entry cannot be dated the
    check throws and fails open: [executeBuy] goes on to the placement
    whatever the list holds. *)
Theorem duplicate_guard (h : Host) (webhookData : value) (sent : list Request)
    (krwBalance : number) (sent1 : list Request) (orders : list value)
    (sent2 : list Request) :
  is_object webhookData = true ->
  getKrwBalance h sent = (inr krwBalance, sent1) ->
  Number.ltb (Math_floor (Number.mul krwBalance CONFIG.BUY_PERCENTAGE))
             CONFIG.MIN_ORDER_AMOUNT = false ->
  makeRequest h "GET" "/v1/orders"
    (orders_query CONFIG.TRADING_SYMBOL "done,cancel") true sent1
  = (inr (Arr orders), sent2) ->
  let buyAmount := Math_floor (Number.mul krwBalance CONFIG.BUY_PERCENTAGE) in
  let cutoff := cutoffTime (Date_now h sent2) CONFIG.DUPLICATE_PREVENTION_HOURS in
  (forallb (datable h) orders = true ->
   ((exists order,
        In order orders
        /\ prop order "side" = Str "bid" /\ prop order "state" = Str "done"
        /\ Date_ge (created_at_time h order) cutoff = true) ->
      executeBuy h webhookData sent = (inr (skipped "중복 매수 방지"), sent2)
      /\ exists requests,
           sent2 = (sent ++ requests)%list /\ placements requests = 0%nat)
   /\ ((forall order,
          In order orders ->
          prop order "side" = Str "bid" -> prop order "state" = Str "done" ->
          Date_ge (created_at_time h order) cutoff = false) ->
         executeBuy h webhookData sent
         = report buyAmount (placeBuyOrder h CONFIG.TRADING_SYMBOL buyAmount sent2)))
  /\ (forallb (datable h) orders = false ->
      executeBuy h webhookData sent
      = report buyAmount (placeBuyOrder h CONFIG.TRADING_SYMBOL buyAmount sent2)).
Proof.
  intros Hsignal Hbalance Henough Hanswer buyAmount cutoff.
  split.
  2:{ intros Hundatable.
      rewrite (executeBuy_run h _ _ (is_object_readable _ Hsignal)), Hbalance.
      cbv zeta. fold buyAmount. unfold buyAmount at 1. rewrite Henough.
      rewrite checkDuplicateBuy_run.
      destruct (getRecentOrders_undatable h _ CONFIG.DUPLICATE_PREVENTION_HOURS
                  _ _ _ Hanswer Hundatable) as [e ->].
      reflexivity. }
  intros Hreadable.
  assert (Hrun : executeBuy h webhookData sent
                 = if existsb (recent_done_bid h cutoff) orders
                   then (inr (skipped "중복 매수 방지"), sent2)
                   else report buyAmount
                          (placeBuyOrder h CONFIG.TRADING_SYMBOL buyAmount sent2)).
  { rewrite (executeBuy_run h _ _ (is_object_readable _ Hsignal)), Hbalance.
    cbv zeta. fold buyAmount. unfold buyAmount at 1. rewrite Henough.
    rewrite (checkDuplicateBuy_answer h _ _ _ Hanswer Hreadable). fold cutoff.
    destruct (existsb (recent_done_bid h cutoff) orders); reflexivity. }
  split.
  - intros (order & Hin & Hside & Hstate & Hrecent).
    assert (Hduplicate : existsb (recent_done_bid h cutoff) orders = true).
    { apply existsb_exists. exists order. split; [exact Hin|].
      apply recent_done_bid_true. auto. }
    rewrite Hduplicate in Hrun. split; [exact Hrun|].
    destruct (balance_fetch_request _ _ _ _ Hbalance) as [token ->].
    destruct (makeRequest_sent h "GET" "/v1/orders"
                (orders_query CONFIG.TRADING_SYMBOL "done,cancel")
                (sent ++ [signed_request h "GET" "/v1/accounts" [] token])%list)
      as [[e He]|[token' Hsent]]; rewrite Hanswer in *.
    + discriminate.
    + injection Hsent as _ ->. rewrite <- app_assoc.
      eexists. split; reflexivity.
  - intros Hnone.
    destruct (existsb (recent_done_bid h cutoff) orders) eqn:Hduplicate;
      [|exact Hrun].
    apply existsb_exists in Hduplicate. destruct Hduplicate as (order & Hin & Hbuy).
    apply recent_done_bid_true in Hbuy. destruct Hbuy as (Hside & Hstate & Hrecent).
    rewrite (Hnone order Hin Hside Hstate) in Hrecent. discriminate.
Qed.

Lemma duplicate_guard_witness :
  is_object Examples.signal = true
  /\ forallb (datable
                (Examples.with_orders [Examples.buy_90min_ago; Examples.buy_30min_ago]))
       [Examples.buy_90min_ago; Examples.buy_30min_ago] = true
  /\ Date_ge (created_at_time
                (Examples.with_orders [Examples.buy_90min_ago; Examples.buy_30min_ago])
                Examples.buy_30min_ago)
             (Some (Examples.now - 3600000)) = true
  /\ fst (executeBuy
            (Examples.with_orders [Examples.buy_90min_ago; Examples.buy_30min_ago])
            Examples.signal [])
     = inr (skipped "중복 매수 방지").
Proof.
  set (h := Examples.with_orders [Examples.buy_90min_ago; Examples.buy_30min_ago]).
  pose (sent1 := snd (getKrwBalance h [])).
  pose (sent2 := snd (makeRequest h "GET" "/v1/orders"
                        (orders_query CONFIG.TRADING_SYMBOL "done,cancel") true sent1)).
  assert (Hbalance : getKrwBalance h [] = (inr (of_Z 123456), sent1))
    by (vm_compute; reflexivity).
  assert (Henough : Number.ltb (Math_floor (Number.mul (of_Z 123456) CONFIG.BUY_PERCENTAGE))
                               CONFIG.MIN_ORDER_AMOUNT = false)
    by (vm_compute; reflexivity).
  assert (Hanswer : makeRequest h "GET" "/v1/orders"
                      (orders_query CONFIG.TRADING_SYMBOL "done,cancel") true sent1
                    = (inr (Arr [Examples.buy_90min_ago; Examples.buy_30min_ago]), sent2))
    by (vm_compute; reflexivity).
  assert (Hreadable : forallb (datable h)
                        [Examples.buy_90min_ago; Examples.buy_30min_ago]
                      = true) by (vm_compute; reflexivity).
  assert (Hrecent : Date_ge (created_at_time h Examples.buy_30min_ago)
                            (Some (Examples.now - 3600000)) = true)
    by (vm_compute; reflexivity).
  destruct (duplicate_guard h Examples.signal [] _ _ _ _
              eq_refl Hbalance Henough Hanswer) as [Hdated _].
  destruct (Hdated Hreadable) as [Hskip _].
  destruct Hskip as [Hrun _].
  { exists Examples.buy_30min_ago. split; [right; left; reflexivity|].
    split; [reflexivity|]. split; [reflexivity | exact Hrecent]. }
  split; [reflexivity|]. split; [exact Hreadable|]. split; [exact Hrecent|].
  rewrite Hrun. reflexivity.
Defined.

(** The same exchange with only the 90 minutes old buy: the order goes
    out. *)
Example old_buy_does_not_stop :
  fst (executeBuy (Examples.with_orders [Examples.buy_90min_ago]) Examples.signal [])
  = inr (placed (Str "abc-123") (of_Z 12345)).
Proof. vm_compute. reflexivity. Qed.

(* ===================================================================== *)
(** * The lookup of recent orders *)
(* ===================================================================== *)

(** The request of the lookup asks for the last 100 orders that are done
    or cancelled. *)
Lemma orders_lookup_url (h : Host) market :
  url_of h "GET" "/v1/orders" (orders_query market "done,cancel")
  = "https://api.upbit.com/v1/orders?market=" ++ encodeURIComponent market
    ++ "&states=done%2Ccancel&limit=100".
Proof. reflexivity. Qed.

(** C8, as the specification words it, fails: an order stamped after the
    local clock is outside [now - windowHours, now] and is returned. And a
    list with an entry that is [null], or whose [created_at] cannot be
    converted, is not filtered at all: the lookup throws. *)
Lemma getRecentOrders_keeps_order_dated_ahead :
  (fst (getRecentOrders (Examples.with_orders [Examples.buy_10min_ahead])
          "KRW-ETH" (Some 1) [])
   = inr (Arr [Examples.buy_10min_ahead])
   /\ created_at_time (Examples.with_orders [Examples.buy_10min_ahead])
        Examples.buy_10min_ahead = Some (Examples.now + 600000)
   /\ Date_now (Examples.with_orders [Examples.buy_10min_ahead])
        (snd (getRecentOrders (Examples.with_orders [Examples.buy_10min_ahead])
                "KRW-ETH" (Some 1) []))
      = Examples.now
   /\ ~ (Examples.now - 1 * 3600000 <= Examples.now + 600000 <= Examples.now))
  /\ fst (getRecentOrders (Examples.with_orders [Examples.buy_30min_ago; Null])
            "KRW-ETH" (Some 1) [])
     = inl (TypeError "Cannot read properties of null (reading 'created_at')")
  /\ fst (getRecentOrders
            (Examples.with_orders [Examples.buy_30min_ago; Examples.buy_undated])
            "KRW-ETH" (Some 1) [])
     = inl (TypeError "Cannot convert object to primitive value").
Proof.
  split; [|split; vm_compute; reflexivity].
  split; [vm_compute; reflexivity|]. split; [vm_compute; reflexivity|].
  split; [reflexivity|]. unfold Examples.now. lia.
Qed.

(** C8, amended. When the exchange answers with a list whose entries can
    all be dated (each can be read and its [created_at] converts to a date
    without throwing), [getRecentOrders] returns exactly those whose
    [created_at] is a date at or after the cutoff, in the order received;
    whether an entry is kept depends on its [created_at] only. The cutoff
    is [now - hours], and there is no test against [now] itself. When
    some entry cannot be dated, [getRecentOrders] throws and returns no
    list. *)
Theorem recent_orders_since_cutoff (h : Host) (market : string) (hours : Z)
    (sent : list Request) (orders : list value) (sent1 : list Request) :
  makeRequest h "GET" "/v1/orders" (orders_query market "done,cancel") true sent
  = (inr (Arr orders), sent1) ->
  (forallb (datable h) orders = true ->
   exists kept,
     getRecentOrders h market (Some hours) sent = (inr (Arr kept), sent1)
     /\ kept = filter (fun order =>
                         Date_ge (created_at_time h order)
                                 (cutoffTime (Date_now h sent1) hours))
                 orders
     /\ (Z.abs (Date_now h sent1 - hours * 60 * 60 * 1000) <= 8640000000000000 ->
         forall order,
           In order kept
           <-> In order orders
               /\ exists t, created_at_time h order = Some t
                            /\ Date_now h sent1 - hours * 3600000 <= t))
  /\ (forallb (datable h) orders = false ->
      exists e, getRecentOrders h market (Some hours) sent = (inl e, sent1)).
Proof.
  intros Hanswer. split.
  2:{ intros Hundatable.
      apply (getRecentOrders_undatable h _ hours _ _ _ Hanswer Hundatable). }
  intros Hreadable.
  eexists. split; [|split; [reflexivity|]].
  - apply (getRecentOrders_answer h _ hours _ _ _ Hanswer Hreadable).
  - intros Hclock order. rewrite filter_In, (cutoffTime_in_range _ _ Hclock).
    destruct (created_at_time h order) as [t|]; cbn [Date_ge].
    + rewrite Z.leb_le. split.
      * intros [Hin Ht]. eauto.
      * intros [Hin (t' & Heq & Ht)]. injection Heq as <-. auto.
    + split; [intros [_ H]; discriminate|].
      intros [_ (t & Heq & _)]. discriminate.
Qed.

Lemma recent_orders_since_cutoff_witness :
  forallb (datable
             (Examples.with_orders
                [Examples.buy_10min_ahead; Examples.buy_30min_ago;
                 Examples.buy_90min_ago]))
    [Examples.buy_10min_ahead; Examples.buy_30min_ago; Examples.buy_90min_ago] = true
  /\ fst (getRecentOrders
            (Examples.with_orders
               [Examples.buy_10min_ahead; Examples.buy_30min_ago; Examples.buy_90min_ago])
            "KRW-ETH" (Some 1) [])
     = inr (Arr [Examples.buy_10min_ahead; Examples.buy_30min_ago]).
Proof.
  set (h := Examples.with_orders
              [Examples.buy_10min_ahead; Examples.buy_30min_ago; Examples.buy_90min_ago]).
  pose (sent1 := snd (makeRequest h "GET" "/v1/orders"
                        (orders_query "KRW-ETH" "done,cancel") true [])).
  assert (Hanswer : makeRequest h "GET" "/v1/orders"
                      (orders_query "KRW-ETH" "done,cancel") true []
                    = (inr (Arr [Examples.buy_10min_ahead; Examples.buy_30min_ago;
                                 Examples.buy_90min_ago]), sent1))
    by (vm_compute; reflexivity).
  assert (Hreadable : forallb (datable h)
                        [Examples.buy_10min_ahead; Examples.buy_30min_ago;
                         Examples.buy_90min_ago] = true)
    by (vm_compute; reflexivity).
  destruct (recent_orders_since_cutoff h "KRW-ETH" 1 [] _ _ Hanswer) as [Hdated _].
  destruct (Hdated Hreadable) as (kept & Hrun & Hkept & _).
  split; [exact Hreadable|].
  rewrite Hrun, Hkept. vm_compute. reflexivity.
Defined.

(* ===================================================================== *)
(** * The token of an authenticated request *)
(* ===================================================================== *)

Lemma queryHash_of_none (h : Host) : queryHash_of h [] = Null.
Proof. reflexivity. Qed.

Lemma queryHash_of_some (h : Host) kv rest queryString :
  queryString_of h (kv :: rest) = inr queryString ->
  queryHash_of h (kv :: rest) = Str (sha512_hex h queryString).
Proof.
  intros H. unfold queryHash_of.
  rewrite (queryString_text_returned h _ _ H), (queryString_nonempty h _ _ _ H).
  reflexivity.
Qed.

(** The query string is empty for the empty parameter object only. *)
Lemma queryString_empty_iff (h : Host) params :
  queryString_of h params = inr "" <-> params = [].
Proof.
  destruct params as [|kv rest]; [split; reflexivity|].
  split; [|discriminate]. intros Hempty.
  pose proof (queryString_nonempty h kv rest _ Hempty) as H. discriminate.
Qed.

(** A value that cannot be converted makes an authenticated call throw
    before it signs or sends anything. *)
Lemma makeRequest_unconvertible (h : Host) method endpoint params sent e :
  queryString_of h params = inl e ->
  makeRequest h method endpoint params true sent = (inl e, sent).
Proof. intros H. rewrite makeRequest_auth, H. reflexivity. Qed.

Lemma Array_map_map {A B C} (f : B -> res C) (g : A -> B) l :
  Array_map f (map g l) = Array_map (fun x => f (g x)) l.
Proof.
  induction l as [|x l IH]; cbn; [reflexivity|].
  destruct (f (g x)); [reflexivity|]. rewrite IH. reflexivity.
Qed.

(** A map whose callback converts and then writes: the conversions all
    return, and the members are written from their results. *)
Lemma Array_map_written {A B C} (convert : A -> res B) (write : A -> B -> C)
    l members :
  Array_map (fun x => match convert x with
                      | inl e => inl e
                      | inr y => inr (write x y)
                      end) l = inr members ->
  exists converted,
    Array_map convert l = inr converted
    /\ members = map (fun xy => write (fst xy) (snd xy)) (combine l converted).
Proof.
  revert members. induction l as [|x l IH]; cbn; intros members H.
  - injection H as <-. exists []. auto.
  - destruct (convert x) as [e|y]; [discriminate|].
    destruct (Array_map _ l) as [e|rest] eqn:Hrest; [discriminate|].
    injection H as <-. destruct (IH rest eq_refl) as (converted & -> & ->).
    exists (y :: converted). auto.
Qed.

(** C5, as the specification words it, fails: the token of a request
    without parameters (the fetch of the accounts) is signed over
    [access_key] and [nonce] alone, [query_hash_alg] is left out together
    with [query_hash]. *)
Lemma accounts_token_has_no_query_hash_alg :
  let h := Examples.calm "50000.0" in
  let payload := [("access_key", Str "access"); ("nonce", Str "uuid-0")] in
  queryString_of h [] = inr ""
  /\ jwt_payload h (randomUUID h []) (queryHash_of h []) = payload
  /\ has_key "query_hash_alg" payload = false
  /\ exists token,
       jwt_sign h [] (Obj payload) (secretKey h) jwt_options = inr token
       /\ snd (getAccounts h []) = [signed_request h "GET" "/v1/accounts" [] token].
Proof.
  cbv zeta. split; [reflexivity|]. split; [reflexivity|]. split; [reflexivity|].
  eexists. split; vm_compute; reflexivity.
Qed.

(** C5, amended. An authenticated request is sent with the header
    [Authorization: Bearer <token>], the token being signed with HS512 over
    the secret key. Its payload is [{access_key, nonce}] with a fresh
    identifier as nonce when the query string is empty, and
    [{access_key, nonce, query_hash, query_hash_alg: 'SHA512'}] when it is
    not, [query_hash] being the hexadecimal SHA-512 digest of the query
    string: the pairs [key=encodeURIComponent(value)] in the order of the
    parameters, joined by [&]. For [{market: 'KRW-ETH', limit: '100'}] the
    string hashed is [market=KRW-ETH&limit=100]. A parameter whose value
    cannot be converted to a string makes the call throw before anything
    is signed or sent. *)
Theorem authenticated_request_token (h : Host) (method endpoint : string)
    (params : list (string * value)) (sent : list Request) :
  (forall e,
     queryString_of h params = inl e ->
     makeRequest h method endpoint params true sent = (inl e, sent))
  /\ (forall queryString token,
        queryString_of h params = inr queryString ->
        sha512_hex h queryString <> "" ->
        let payload :=
          ([("access_key", accessKey h); ("nonce", Str (randomUUID h sent))]
           ++ if String.eqb queryString "" then []
              else [("query_hash", Str (sha512_hex h queryString));
                    ("query_hash_alg", Str "SHA512")])%list in
        jwt_sign h sent (Obj payload) (secretKey h) jwt_options = inr token ->
        let request :=
          mkRequest method (url_of h method endpoint params)
            [("Content-Type", "application/json");
             ("Authorization", "Bearer " ++ token)]
            (data_of method params) in
        makeRequest h method endpoint params true sent
        = (axios h sent request, (sent ++ [request])%list)
        /\ prop jwt_options "algorithm" = Str "HS512"
        /\ exists texts,
             Array_map (fun kv => String_of h (lookup (fst kv) params)) params
             = inr texts
             /\ queryString
                = join "&"
                    (map (fun kt => fst (fst kt) ++ "=" ++ encodeURIComponent (snd kt))
                         (combine params texts)))
  /\ queryString_of h [("market", Str "KRW-ETH"); ("limit", Str "100")]
     = inr "market=KRW-ETH&limit=100".
Proof.
  split; [apply makeRequest_unconvertible|]. split; [|reflexivity].
  intros queryString token Hquery Hdigest payload Hsigned request.
  split; [|split; [reflexivity|]].
  - rewrite makeRequest_auth, Hquery.
    assert (Hpayload : jwt_payload h (randomUUID h sent) (queryHash_of h params) = payload).
    { unfold payload. destruct params as [|kv rest].
      - injection Hquery as <-. reflexivity.
      - rewrite (queryHash_of_some h _ _ _ Hquery). unfold jwt_payload.
        pose proof (queryString_nonempty h kv rest _ Hquery) as Hne.
        cbn [truthy] in Hne |- *.
        destruct (String.eqb queryString ""); [discriminate|].
        destruct (String.eqb_spec (sha512_hex h queryString) "");
          [contradiction | reflexivity]. }
    rewrite Hpayload, Hsigned. reflexivity.
  - unfold queryString_of, Object_keys in Hquery.
    rewrite Array_map_map in Hquery.
    destruct (Array_map _ params) as [e|members] eqn:Hmembers; [discriminate|].
    injection Hquery as <-.
    destruct (Array_map_written
                (fun kv : string * value => String_of h (lookup (fst kv) params))
                (fun kv text => fst kv ++ "=" ++ encodeURIComponent text)
                params members Hmembers) as (texts & Htexts & ->).
    exists texts. split; [exact Htexts | reflexivity].
Qed.

Lemma authenticated_request_token_witness :
  let h := Examples.calm "50000.0" in
  let params := [("market", Str "KRW-ETH"); ("limit", Str "100")] in
  queryString_of h params = inr "market=KRW-ETH&limit=100"
  /\ sha512_hex h "market=KRW-ETH&limit=100" <> ""
  /\ headers (nth 0 (snd (makeRequest h "GET" "/v1/orders" params true []))
                (mkRequest "" "" [] Null))
     = [("Content-Type", "application/json");
        ("Authorization",
         "Bearer " ++ Reference.show_object (prop jwt_options "header") ++ "."
         ++ Reference.show_object
              (Obj [("access_key", Str "access"); ("nonce", Str "uuid-0");
                    ("query_hash", Str "sha512(market=KRW-ETH&limit=100)");
                    ("query_hash_alg", Str "SHA512")])
         ++ ".hmac(secret)")].
Proof.
  intros h params.
  assert (Hquery : queryString_of h params = inr "market=KRW-ETH&limit=100")
    by reflexivity.
  assert (Hdigest : sha512_hex h "market=KRW-ETH&limit=100" <> "") by discriminate.
  split; [exact Hquery|]. split; [exact Hdigest|].
  destruct (authenticated_request_token h "GET" "/v1/orders" params [])
    as (_ & Hsends & _).
  destruct (Hsends _
              (Reference.show_object (prop jwt_options "header") ++ "."
               ++ Reference.show_object
                    (Obj [("access_key", Str "access"); ("nonce", Str "uuid-0");
                          ("query_hash", Str "sha512(market=KRW-ETH&limit=100)");
                          ("query_hash_alg", Str "SHA512")])
               ++ ".hmac(secret)") Hquery Hdigest) as [Hrun _].
  - vm_compute. reflexivity.
  - rewrite Hrun. reflexivity.
Defined.

(* ===================================================================== *)
(** * Two more scenarios *)
(* ===================================================================== *)

(** A balance of 50000 with nothing bought lately: an order of 5000 is
    placed and its identifier reported. *)
Example end_to_end_success :
  fst (executeBuy (Examples.calm "50000.0") Examples.signal [])
  = inr (placed (Str "abc-123") (of_Z 5000))
  /\ map is_place_order (snd (executeBuy (Examples.calm "50000.0") Examples.signal []))
     = [false; false; true].
Proof. split; vm_compute; reflexivity. Qed.

(** The fetch of the accounts is rejected: the failure is reported and
    nothing else is sent. *)
Example failure_isolation :
  fst (executeBuy Examples.accounts_down Examples.signal [])
  = inr (failed "Request failed with status code 503")
  /\ map is_balance_fetch (snd (executeBuy Examples.accounts_down Examples.signal []))
     = [true].
Proof. split; vm_compute; reflexivity. Qed.

(* ===================================================================== *)
(** * Calls that need no token *)
(* ===================================================================== *)

(** A call without [requiresAuth] consults no signer. A GET with
    parameters writes its query string first, and throws when a value
    cannot be converted; any other call sends its request at once, with
    the content type as its only header and no body. *)
Lemma makeRequest_plain (h : Host) method endpoint params sent :
  makeRequest h method endpoint params false sent =
  if String.eqb method "GET" && (0 <? length params)%nat then
    match queryString_of h params with
    | inl e => (inl e, sent)
    | inr queryString =>
        let request :=
          plain_request method ((baseUrl ++ endpoint) ++ "?" ++ queryString) in
        (axios h sent request, (sent ++ [request])%list)
    end
  else
    let request := plain_request method (baseUrl ++ endpoint) in
    (axios h sent request, (sent ++ [request])%list).
Proof.
  unfold makeRequest, await_axios, plain_request, Object_keys. run.
  rewrite length_map.
  destruct (String.eqb method "GET" && (0 <? length params)%nat).
  - destruct (queryString_of h params) as [e|queryString]; [reflexivity|].
    destruct (axios h sent _); reflexivity.
  - destruct (axios h sent _); reflexivity.
Qed.

(** X2. Without [requiresAuth], the parameters of a call that is not a GET
    are dropped: they reach neither the address nor the body, and the call
    is the one made with no parameters at all. *)
Theorem unauthenticated_parameters_dropped (h : Host) (method endpoint : string)
    (params : list (string * value)) (sent : list Request) :
  String.eqb method "GET" = false ->
  makeRequest h method endpoint params false sent
  = makeRequest h method endpoint [] false sent
  /\ snd (makeRequest h method endpoint params false sent)
     = (sent ++ [plain_request method (baseUrl ++ endpoint)])%list.
Proof.
  intros Hmethod. rewrite !makeRequest_plain. rewrite Hmethod.
  split; reflexivity.
Qed.

Lemma unauthenticated_parameters_dropped_witness :
  String.eqb "POST" "GET" = false
  /\ snd (makeRequest (Scenes.answering (inr Null)) "POST" "/v1/orders"
            [("market", Str "KRW-ETH"); ("price", Str "5000")] false [])
     = [plain_request "POST" "https://api.upbit.com/v1/orders"].
Proof.
  split; [reflexivity|].
  apply (unauthenticated_parameters_dropped (Scenes.answering (inr Null))
           "POST" "/v1/orders" _ []).
  reflexivity.
Defined.

(* ===================================================================== *)
(** * The ticker *)
(* ===================================================================== *)

Lemma getCurrentPrice_run (h : Host) market sent :
  getCurrentPrice h market sent =
  let sent1 := (sent ++ [ticker_request market])%list in
  match axios h sent (ticker_request market) with
  | inl e => (inl e, sent1)
  | inr data =>
      match first_item data with
      | inl e => (inl e, sent1)
      | inr first =>
          match getProp first "trade_price" with
          | inl e => (inl e, sent1)
          | inr trade_price => (parseFloat h trade_price, sent1)
          end
      end
  end.
Proof.
  assert (Hcall : makeRequest h "GET" "/v1/ticker" [("markets", Str market)] false sent
                  = (axios h sent (ticker_request market),
                     (sent ++ [ticker_request market])%list))
    by (rewrite makeRequest_plain; reflexivity).
  unfold getCurrentPrice. run. rewrite Hcall. cbv zeta.
  destruct (axios h sent (ticker_request market)) as [e|data]; [reflexivity|].
  destruct (first_item data) as [e|first]; [reflexivity|].
  destruct (getProp first "trade_price") as [e|trade_price]; [reflexivity|].
  destruct (parseFloat h trade_price); reflexivity.
Qed.

(** X3. [getCurrentPrice] sends one request, a GET of the ticker of the
    market with no token; when the exchange answers an array whose first
    entry can be read, the outcome is that of [parseFloat] on that
    entry's [trade_price]: the number parsed from its text, or the
    [TypeError] of the conversion when the [trade_price] cannot be
    converted to a string. The later entries are not looked at. *)
Theorem getCurrentPrice_first_ticker (h : Host) (market : string)
    (sent : list Request) (first : value) (rest : list value) :
  axios h sent (ticker_request market) = inr (Arr (first :: rest)) ->
  readable first = true ->
  getCurrentPrice h market sent
  = (parseFloat h (prop first "trade_price"),
     (sent ++ [ticker_request market])%list)
  /\ has_header "Authorization" (ticker_request market) = false
  /\ (forall text,
        String_of h (prop first "trade_price") = inr text ->
        parseFloat h (prop first "trade_price") = inr (parseFloat_string h text))
  /\ (forall e,
        String_of h (prop first "trade_price") = inl e ->
        parseFloat h (prop first "trade_price") = inl e).
Proof.
  intros Hanswer Hfirst. rewrite getCurrentPrice_run, Hanswer. cbv zeta.
  cbn [first_item nth]. split; [|split; [reflexivity|split]].
  - destruct first; try discriminate; reflexivity.
  - intros text Htext. unfold parseFloat. rewrite Htext. reflexivity.
  - intros e He. unfold parseFloat. rewrite He. reflexivity.
Qed.

Lemma getCurrentPrice_first_ticker_witness :
  getCurrentPrice
    (Scenes.answering (inr (Arr [Scenes.ticker (Str "3000000.0"); Null])))
    "KRW-ETH" []
  = (inr (of_Z 3000000),
     [plain_request "GET" "https://api.upbit.com/v1/ticker?markets=KRW-ETH"]).
Proof.
  apply (getCurrentPrice_first_ticker
           (Scenes.answering (inr (Arr [Scenes.ticker (Str "3000000.0"); Null])))
           "KRW-ETH" [] (Scenes.ticker (Str "3000000.0")) [Null]);
    reflexivity.
Defined.

(** X4. An answer with no first ticker to read (an empty array, [null], an
    array that starts with [null], a number) makes [getCurrentPrice] throw
    a [TypeError] once the request is out: no price is made up. *)
Theorem getCurrentPrice_without_ticker (h : Host) (market : string)
    (sent : list Request) (data : value) :
  axios h sent (ticker_request market) = inr data ->
  (forall first, first_item data = inr first -> readable first = false) ->
  exists e,
    getCurrentPrice h market sent = (inl e, (sent ++ [ticker_request market])%list)
    /\ name e = "TypeError".
Proof.
  intros Hanswer Hfirst. rewrite getCurrentPrice_run, Hanswer. cbv zeta.
  destruct (first_item data) as [e|first] eqn:Hitem.
  - exists e. split; [reflexivity|].
    destruct data as [| | | |s| |]; try discriminate; cbn in Hitem;
      try (injection Hitem as <-; reflexivity).
    destruct s; discriminate.
  - specialize (Hfirst first eq_refl).
    destruct first; try discriminate; cbn [getProp]; eexists; split; reflexivity.
Qed.

Lemma getCurrentPrice_without_ticker_witness :
  exists e,
    getCurrentPrice (Scenes.answering (inr (Arr []))) "KRW-ETH" []
    = (inl e, [ticker_request "KRW-ETH"])
    /\ name e = "TypeError".
Proof.
  apply (getCurrentPrice_without_ticker (Scenes.answering (inr (Arr [])))
           "KRW-ETH" [] (Arr [])).
  - reflexivity.
  - intros first H. injection H as <-. reflexivity.
Defined.

(* ===================================================================== *)
(** * Whole numbers in print, and the engine past its gate *)
(* ===================================================================== *)

(** A whole number prints as its decimal numeral. *)
Lemma toString_integer digits z :
  Z.abs z < 2 ^ 53 -> Number.toString digits (of_Z z) = Number.decimal z.
Proof.
  intros Hz. pose proof (of_Z_exact z Hz) as Hvalue.
  assert (Hle : (Z.abs z <=? 2 ^ 53) = true) by (apply Z.leb_le; lia).
  unfold Number.toString.
  destruct (of_Z z) as [s|s| |s m e]; try discriminate;
    rewrite Hvalue, Hle; reflexivity.
Qed.

Lemma Number_toString_integer (h : Host) z :
  Z.abs z < 2 ^ 53 -> Number_toString h (of_Z z) = Number.decimal z.
Proof. apply toString_integer. Qed.

Lemma executeBuy_after_gate (h : Host) webhookData sent :
  readable webhookData = true ->
  executeBuy h webhookData sent =
  match getKrwBalance h sent with
  | (inl e, s1) => (inr (failed (message e)), s1)
  | (inr krwBalance, s1) =>
      if Number.ltb (buyAmount_of krwBalance) CONFIG.MIN_ORDER_AMOUNT then
        (inr (failed (insufficient_funds h (buyAmount_of krwBalance))), s1)
      else after_gate h (buyAmount_of krwBalance) s1
  end.
Proof.
  intros Hsignal. rewrite (executeBuy_run h _ _ Hsignal).
  destruct (getKrwBalance h sent) as [[e|krwBalance] s1]; reflexivity.
Qed.

(* ===================================================================== *)
(** * The balance *)
(* ===================================================================== *)

Lemma getKrwBalance_run (h : Host) sent :
  getKrwBalance h sent =
  match getAccounts h sent with
  | (inl e, s) => (inl e, s)
  | (inr accounts, s) =>
      match accounts with
      | Arr items =>
          match Array_find (fun account =>
                              match getProp account "currency" with
                              | inl e => inl e
                              | inr currency => inr (strict_eq_str currency "KRW")
                              end) items with
          | inl e => (inl e, s)
          | inr krwAccount =>
              if truthy krwAccount then
                match getProp krwAccount "balance" with
                | inl e => (inl e, s)
                | inr balance => (parseFloat h balance, s)
                end
              else (inr (of_Z 0), s)
          end
      | _ => (inl (not_a_function "accounts" "find" accounts), s)
      end
  end.
Proof.
  unfold getKrwBalance. run.
  destruct (getAccounts h sent) as [[e|accounts] s]; [reflexivity|].
  destruct accounts; try reflexivity.
  destruct (Array_find _ items) as [e|account]; [reflexivity|].
  destruct (truthy account); [|reflexivity].
  destruct (getProp account "balance") as [e|balance]; [reflexivity|].
  destruct (parseFloat h balance); reflexivity.
Qed.

(** The search of the accounts, on entries that can be read. *)
Lemma Array_find_none (p : value -> res bool) (q : value -> bool) items :
  (forall x, readable x = true -> p x = inr (q x)) ->
  forallb readable items = true ->
  existsb q items = false ->
  Array_find p items = inr Undefined.
Proof.
  intros Hp. induction items as [|x rest IH]; cbn; [reflexivity|].
  intros Hr Hq. apply andb_prop in Hr as [Hx Hrest].
  apply orb_false_elim in Hq as [Hqx Hqrest].
  rewrite (Hp x Hx), Hqx. auto.
Qed.

Lemma Array_find_first (p : value -> res bool) (q : value -> bool) before x after :
  (forall x, readable x = true -> p x = inr (q x)) ->
  forallb readable before = true ->
  existsb q before = false ->
  readable x = true -> q x = true ->
  Array_find p (before ++ x :: after) = inr x.
Proof.
  intros Hp. induction before as [|y rest IH]; cbn.
  - intros _ _ Hx Hqx. rewrite (Hp x Hx), Hqx. reflexivity.
  - intros Hr Hq Hx Hqx. apply andb_prop in Hr as [Hy Hrest].
    apply orb_false_elim in Hq as [Hqy Hqrest].
    rewrite (Hp y Hy), Hqy. auto.
Qed.

Lemma Array_find_unreadable (p : value -> res bool) (q : value -> bool)
    before x after :
  (forall x, readable x = true -> p x = inr (q x)) ->
  (forall x, readable x = false ->
             exists e, p x = inl e /\ name e = "TypeError") ->
  forallb readable before = true ->
  existsb q before = false ->
  readable x = false ->
  exists e, Array_find p (before ++ x :: after) = inl e /\ name e = "TypeError".
Proof.
  intros Hp Hko. induction before as [|y rest IH]; cbn.
  - intros _ _ Hx. destruct (Hko x Hx) as (e & -> & He). eauto.
  - intros Hr Hq Hx. apply andb_prop in Hr as [Hy Hrest].
    apply orb_false_elim in Hq as [Hqy Hqrest].
    rewrite (Hp y Hy), Hqy. auto.
Qed.

Lemma currency_readable account :
  readable account = true ->
  match getProp account "currency" with
  | inl e => inl e
  | inr currency => inr (strict_eq_str currency "KRW")
  end = inr (is_krw account).
Proof. destruct account; cbn; intros; (discriminate || reflexivity). Qed.

Lemma currency_unreadable account :
  readable account = false ->
  exists e,
    match getProp account "currency" with
    | inl e => inl e
    | inr currency => inr (strict_eq_str currency "KRW")
    end = inl e /\ name e = "TypeError".
Proof. destruct account; cbn; intros; try discriminate; eauto. Qed.

Lemma is_krw_object account :
  is_krw account = true -> exists ps, account = Obj ps.
Proof. destruct account; cbn; try discriminate. eauto. Qed.

(** X5. When none of the accounts the exchange lists is in KRW, the
    balance is 0: a missing account is not an error of the balance fetch.
    [executeBuy] then refuses the buy for insufficient funds, naming an
    amount of 0, with nothing but the balance fetch sent. *)
Theorem getKrwBalance_without_KRW_account (h : Host) (webhookData : value)
    (sent : list Request) (accounts : list value) (sent1 : list Request) :
  is_object webhookData = true ->
  getAccounts h sent = (inr (Arr accounts), sent1) ->
  forallb readable accounts = true ->
  existsb is_krw accounts = false ->
  getKrwBalance h sent = (inr (of_Z 0), sent1)
  /\ executeBuy h webhookData sent
     = (inr (failed "잔고 부족: 0원 (최소 5000원)"), sent1).
Proof.
  intros Hsignal Hanswer Hreadable Hnone.
  assert (Hbalance : getKrwBalance h sent = (inr (of_Z 0), sent1)).
  { rewrite getKrwBalance_run, Hanswer. cbv beta iota.
    match goal with |- context [Array_find ?p ?l] =>
      replace (Array_find p l) with (@inr exn value Undefined)
        by (symmetry; apply Array_find_none with (q := is_krw);
            auto using currency_readable)
    end.
    reflexivity. }
  split; [exact Hbalance|].
  rewrite (executeBuy_after_gate h _ _ (is_object_readable _ Hsignal)), Hbalance.
  reflexivity.
Qed.

Lemma getKrwBalance_without_KRW_account_witness :
  let h := Scenes.holding (Arr [Scenes.account "ETH" "0.5"]) in
  getKrwBalance h [] = (inr (of_Z 0), snd (getAccounts h []))
  /\ executeBuy h Examples.signal []
     = (inr (failed "잔고 부족: 0원 (최소 5000원)"), snd (getAccounts h [])).
Proof.
  intros h.
  assert (Hanswer : getAccounts h []
                    = (inr (Arr [Scenes.account "ETH" "0.5"]), snd (getAccounts h [])))
    by (vm_compute; reflexivity).
  apply (getKrwBalance_without_KRW_account h Examples.signal [] _ _
           eq_refl Hanswer eq_refl eq_refl).
Defined.

(** X6. The balance is read from the first account in KRW: the outcome
    is that of [parseFloat] on its [balance], the number parsed from its
    text or the [TypeError] of the conversion when the [balance] cannot be
    converted to a string. The accounts listed after it are never looked
    at, whatever they hold. *)
Theorem getKrwBalance_first_KRW_account (h : Host) (sent : list Request)
    (before : list value) (account : value) (after : list value)
    (sent1 : list Request) :
  getAccounts h sent = (inr (Arr (before ++ account :: after)), sent1) ->
  forallb readable before = true ->
  existsb is_krw before = false ->
  is_krw account = true ->
  getKrwBalance h sent = (parseFloat h (prop account "balance"), sent1)
  /\ (forall text,
        String_of h (prop account "balance") = inr text ->
        parseFloat h (prop account "balance") = inr (parseFloat_string h text))
  /\ (forall e,
        String_of h (prop account "balance") = inl e ->
        parseFloat h (prop account "balance") = inl e).
Proof.
  intros Hanswer Hreadable Hnone Hkrw. rewrite getKrwBalance_run, Hanswer.
  cbv beta iota.
  destruct (is_krw_object account Hkrw) as [ps ->].
  match goal with |- context [Array_find ?p ?l] =>
    replace (Array_find p l) with (@inr exn value (Obj ps))
      by (symmetry; apply Array_find_first with (q := is_krw);
          auto using currency_readable)
  end.
  split; [reflexivity|]. split.
  - intros text Htext. unfold parseFloat. rewrite Htext. reflexivity.
  - intros e He. unfold parseFloat. rewrite He. reflexivity.
Qed.

Lemma getKrwBalance_first_KRW_account_witness :
  fst (getKrwBalance
         (Scenes.holding (Arr [Scenes.account "ETH" "0.5";
                               Scenes.account "KRW" "70000.0";
                               Scenes.account "KRW" "10.0"; Null])) [])
  = inr (of_Z 70000).
Proof.
  set (h := Scenes.holding _).
  assert (Hanswer :
            getAccounts h []
            = (inr (Arr ([Scenes.account "ETH" "0.5"]
                         ++ Scenes.account "KRW" "70000.0"
                            :: [Scenes.account "KRW" "10.0"; Null])),
               snd (getAccounts h [])))
    by (vm_compute; reflexivity).
  destruct (getKrwBalance_first_KRW_account h [] _ _ _ _ Hanswer
              eq_refl eq_refl eq_refl) as [Hrun _].
  rewrite Hrun. vm_compute. reflexivity.
Defined.

(** X7. An answer to the balance fetch that is not an array, or that lists
    [null] before any account in KRW, makes [getKrwBalance] throw a
    [TypeError], and [executeBuy] then reports that failure and sends
    nothing more. *)
Theorem malformed_accounts_fail_the_buy (h : Host) (webhookData : value)
    (sent : list Request) (answer : value) (sent1 : list Request) :
  is_object webhookData = true ->
  getAccounts h sent = (inr answer, sent1) ->
  (forall items, answer <> Arr items)
  \/ (exists before entry after,
        answer = Arr (before ++ entry :: after)
        /\ forallb readable before = true
        /\ existsb is_krw before = false
        /\ readable entry = false) ->
  exists e,
    getKrwBalance h sent = (inl e, sent1)
    /\ name e = "TypeError"
    /\ executeBuy h webhookData sent = (inr (failed (message e)), sent1).
Proof.
  intros Hsignal Hanswer Hshape.
  assert (Hthrows : exists e, getKrwBalance h sent = (inl e, sent1)
                              /\ name e = "TypeError").
  { rewrite getKrwBalance_run, Hanswer. cbv beta iota.
    destruct Hshape as [Hshape|(before & entry & after & -> & Hr & Hq & Hentry)].
    - destruct answer; try (eexists; split; reflexivity).
      exfalso. apply (Hshape items). reflexivity.
    - match goal with |- context [Array_find ?p ?l] =>
        assert (Hfind : exists e, Array_find p l = inl e /\ name e = "TypeError")
          by (apply Array_find_unreadable with (q := is_krw);
              auto using currency_readable, currency_unreadable)
      end.
      destruct Hfind as (e & -> & He). eauto. }
  destruct Hthrows as (e & Hthrows & He). exists e.
  split; [exact Hthrows|]. split; [exact He|].
  rewrite (executeBuy_run h _ _ (is_object_readable _ Hsignal)), Hthrows.
  reflexivity.
Qed.

Lemma malformed_accounts_fail_the_buy_witness :
  let h := Scenes.holding (Obj [("error", Str "too many requests")]) in
  exists e,
    getKrwBalance h [] = (inl e, snd (getAccounts h []))
    /\ name e = "TypeError"
    /\ executeBuy h Examples.signal [] = (inr (failed (message e)), snd (getAccounts h [])).
Proof.
  intros h.
  assert (Hanswer : getAccounts h []
                    = (inr (Obj [("error", Str "too many requests")]),
                       snd (getAccounts h [])))
    by (vm_compute; reflexivity).
  apply (malformed_accounts_fail_the_buy h Examples.signal [] _ _ eq_refl Hanswer).
  left. discriminate.
Defined.
(* ===================================================================== *)
(** * The amount and the minimum, in whole numbers *)
(* ===================================================================== *)

(** X8. In whole won the gate of [executeBuy] sits at a balance of 50000:
    below it the buy is refused with the insufficient-funds message that
    names a tenth of the balance, rounded down, and nothing but the
    balance fetch has been sent; from 50000 on the engine goes on to the
    duplicate check with that tenth as the amount. *)
Theorem whole_balance_threshold (h : Host) (webhookData : value)
    (sent : list Request) (b : Z) (sent1 : list Request) :
  is_object webhookData = true ->
  getKrwBalance h sent = (inr (of_Z b), sent1) ->
  0 <= b < 2 ^ 52 ->
  (b < 50000 ->
   executeBuy h webhookData sent
   = (inr (failed ("잔고 부족: " ++ Number.decimal (b / 10) ++ "원 (최소 5000원)")),
      sent1))
  /\ (50000 <= b ->
      executeBuy h webhookData sent = after_gate h (of_Z (b / 10)) sent1).
Proof.
  intros Hsignal Hbalance Hb.
  rewrite (executeBuy_after_gate h _ _ (is_object_readable _ Hsignal)), Hbalance.
  rewrite (whole_balance_gate b Hb), (whole_balance_amount b Hb).
  assert (Htenth : Z.abs (b / 10) < 2 ^ 53).
  { assert (0 <= b / 10 <= b) by (split; [apply Z.div_pos | apply Z.div_le_upper_bound]; lia).
    lia. }
  split; intros Hcase.
  - destruct (Z.ltb_spec b 50000); [|lia].
    unfold insufficient_funds.
    rewrite (Number_toString_integer h _ Htenth).
    change CONFIG.MIN_ORDER_AMOUNT with (of_Z 5000).
    rewrite (Number_toString_integer h 5000) by (cbn; lia).
    reflexivity.
  - destruct (Z.ltb_spec b 50000); [lia|]. reflexivity.
Qed.

Lemma whole_balance_threshold_witness :
  let h := Examples.calm "49999.0" in
  is_object Examples.signal = true
  /\ 0 <= 49999 < 2 ^ 52
  /\ executeBuy h Examples.signal []
     = (inr (failed ("잔고 부족: " ++ Number.decimal (49999 / 10) ++ "원 (최소 5000원)")),
        snd (getKrwBalance h [])).
Proof.
  intros h.
  assert (Hbalance : getKrwBalance h [] = (inr (of_Z 49999), snd (getKrwBalance h [])))
    by (vm_compute; reflexivity).
  assert (Hb : 0 <= 49999 < 2 ^ 52) by lia.
  split; [reflexivity|]. split; [exact Hb|].
  apply (whole_balance_threshold h Examples.signal [] 49999 _ eq_refl Hbalance Hb).
  lia.
Defined.

(** X9. [placeBuyOrder] refuses a price below the minimum before anything
    is signed or sent, with the message that names 5000; for whole prices
    the refusal is exactly for those under 5000. *)
Theorem placeBuyOrder_below_minimum (h : Host) (market : string) (price : number)
    (sent : list Request) :
  Number.ltb price CONFIG.MIN_ORDER_AMOUNT = true ->
  placeBuyOrder h market price sent
  = (inl (Error "최소 주문 금액 5000원 이상이어야 합니다."), sent)
  /\ forall z, 0 <= z < 2 ^ 53 ->
       Number.ltb (of_Z z) CONFIG.MIN_ORDER_AMOUNT = (z <? 5000).
Proof.
  intros Hprice. rewrite placeBuyOrder_run, Hprice. split.
  - change CONFIG.MIN_ORDER_AMOUNT with (of_Z 5000).
    rewrite (Number_toString_integer h 5000) by (cbn; lia). reflexivity.
  - intros z Hz. apply of_Z_ltb; [exact Hz | lia].
Qed.

Lemma placeBuyOrder_below_minimum_witness :
  Number.ltb (of_Z 4999) CONFIG.MIN_ORDER_AMOUNT = true
  /\ placeBuyOrder (Examples.calm "0") "KRW-ETH" (of_Z 4999) []
     = (inl (Error "최소 주문 금액 5000원 이상이어야 합니다."), []).
Proof.
  assert (Hprice : Number.ltb (of_Z 4999) CONFIG.MIN_ORDER_AMOUNT = true)
    by (vm_compute; reflexivity).
  split; [exact Hprice|].
  apply (placeBuyOrder_below_minimum (Examples.calm "0") "KRW-ETH" (of_Z 4999) [] Hprice).
Defined.

(** X10. A balance that parses to NaN is stopped by neither minimum check,
    since NaN compares below nothing: [executeBuy] goes on to the
    duplicate check, and the placement it then makes is the signed POST of
    an order whose price is the text NaN. *)
Theorem NaN_balance_is_not_refused (h : Host) (webhookData : value)
    (sent sent1 : list Request) :
  is_object webhookData = true ->
  getKrwBalance h sent = (inr NaN, sent1) ->
  executeBuy h webhookData sent = after_gate h NaN sent1
  /\ forall sent2,
       placeBuyOrder h CONFIG.TRADING_SYMBOL NaN sent2
       = makeRequest h "POST" "/v1/orders"
           [("market", Str "KRW-ETH"); ("side", Str "bid");
            ("ord_type", Str "price"); ("price", Str "NaN")] true sent2.
Proof.
  intros Hsignal Hbalance. split.
  - rewrite (executeBuy_after_gate h _ _ (is_object_readable _ Hsignal)), Hbalance.
    reflexivity.
  - intros sent2. rewrite placeBuyOrder_run. reflexivity.
Qed.

Lemma NaN_balance_is_not_refused_witness :
  let h := Scenes.holding (Arr [Scenes.account "KRW" "unknown"]) in
  is_object Examples.signal = true
  /\ getKrwBalance h [] = (inr NaN, snd (getKrwBalance h []))
  /\ executeBuy h Examples.signal [] = after_gate h NaN (snd (getKrwBalance h [])).
Proof.
  intros h.
  assert (Hbalance : getKrwBalance h [] = (inr NaN, snd (getKrwBalance h [])))
    by (vm_compute; reflexivity).
  split; [reflexivity|]. split; [exact Hbalance|].
  apply (NaN_balance_is_not_refused h Examples.signal [] _ eq_refl Hbalance).
Defined.

Example NaN_balance_run :
  let h := Scenes.holding (Arr [Scenes.account "KRW" "unknown"]) in
  fst (executeBuy h Examples.signal []) = inr (placed (Str "abc-123") NaN)
  /\ map (fun r => prop (data r) "price") (snd (executeBuy h Examples.signal []))
     = [Undefined; Undefined; Str "NaN"].
Proof. split; vm_compute; reflexivity. Qed.
(* ===================================================================== *)
(** * The calls of one execution *)
(* ===================================================================== *)

Lemma getProp_readable v k : readable v = true -> getProp v k = inr (prop v k).
Proof. destruct v; cbn; intros; (discriminate || reflexivity). Qed.

Lemma getProp_unreadable v k :
  readable v = false -> exists e, getProp v k = inl e /\ name e = "TypeError".
Proof. destruct v; cbn; intros; try discriminate; eauto. Qed.

Lemma after_gate_state (h : Host) amount sent :
  (exists b, checkDuplicateBuy h sent = (inr true, snd (after_gate h amount sent))
             /\ b = true)
  \/ snd (after_gate h amount sent)
     = snd (placeBuyOrder h CONFIG.TRADING_SYMBOL amount
              (snd (checkDuplicateBuy h sent)))
       /\ fst (checkDuplicateBuy h sent) = inr false.
Proof.
  unfold after_gate.
  destruct (checkDuplicateBuy_returns h sent) as [b Hb].
  destruct (checkDuplicateBuy h sent) as [r s2]. cbn in Hb. subst r.
  destruct b.
  - left. exists true. auto.
  - right. rewrite report_state. auto.
Qed.

(** X11. The exchange calls of one execution come in a fixed order and
    each at most once: the balance fetch, then the lookup of recent
    orders, then the placement. Nothing is sent before the balance fetch,
    and nothing after the placement. *)
Theorem executeBuy_call_order (h : Host) (webhookData : value) (sent : list Request) :
  exists requests,
    snd (executeBuy h webhookData sent) = (sent ++ requests)%list
    /\ In (map call_of requests)
          [[]; [Balance]; [Balance; Lookup]; [Balance; Placement];
           [Balance; Lookup; Placement]].
Proof.
  destruct (readable webhookData) eqn:Hsignal.
  2:{ destruct (executeBuy_unreadable h _ sent Hsignal) as [e ->].
      exists []. split; [rewrite app_nil_r; reflexivity | cbn; auto]. }
  rewrite (executeBuy_after_gate h _ _ Hsignal).
  destruct (getKrwBalance_sent h sent) as [[e ->]|(token & r & ->)].
  { exists []. split; [rewrite app_nil_r; reflexivity | cbn; auto]. }
  set (fetch := signed_request h "GET" "/v1/accounts" [] token).
  assert (Hfetch : call_of fetch = Balance) by reflexivity.
  assert (Hlookup : forall token',
            call_of (signed_request h "GET" "/v1/orders"
                       (orders_query CONFIG.TRADING_SYMBOL "done,cancel") token')
            = Lookup) by reflexivity.
  assert (Hpost : forall amount token',
            call_of (signed_request h "POST" "/v1/orders"
                       (orderParams h CONFIG.TRADING_SYMBOL amount) token')
            = Placement) by reflexivity.
  destruct r as [e|krwBalance].
  { exists [fetch]. split; [reflexivity | cbn [map]; rewrite Hfetch; cbn; auto]. }
  destruct (Number.ltb _ CONFIG.MIN_ORDER_AMOUNT).
  { exists [fetch]. split; [reflexivity | cbn [map]; rewrite Hfetch; cbn; auto]. }
  set (s1 := (sent ++ [fetch])%list).
  set (amount := buyAmount_of krwBalance).
  assert (Hcheck : snd (checkDuplicateBuy h s1) = s1
                   \/ exists token',
                        snd (checkDuplicateBuy h s1)
                        = (s1 ++ [signed_request h "GET" "/v1/orders"
                                    (orders_query CONFIG.TRADING_SYMBOL "done,cancel")
                                    token'])%list).
  { rewrite checkDuplicateBuy_state.
    destruct (getRecentOrders_sent h CONFIG.TRADING_SYMBOL
                CONFIG.DUPLICATE_PREVENTION_HOURS s1) as [[e ->]|(token' & r & ->)];
      [left; reflexivity | right; exists token'; reflexivity]. }
  assert (Hplace : forall s2,
            snd (placeBuyOrder h CONFIG.TRADING_SYMBOL amount s2) = s2
            \/ exists token',
                 snd (placeBuyOrder h CONFIG.TRADING_SYMBOL amount s2)
                 = (s2 ++ [signed_request h "POST" "/v1/orders"
                             (orderParams h CONFIG.TRADING_SYMBOL amount) token'])%list).
  { intros s2.
    destruct (placeBuyOrder_sent h CONFIG.TRADING_SYMBOL amount s2)
      as [[e ->]|(token' & ->)];
      [left; reflexivity | right; exists token'; reflexivity]. }
  destruct (after_gate_state h amount s1) as [(b & Hdup & _)|[Hstate Hdup]].
  - assert (Hs : snd (after_gate h amount s1) = snd (checkDuplicateBuy h s1))
      by (rewrite Hdup; reflexivity).
    rewrite Hs.
    destruct Hcheck as [->|[token' ->]].
    + exists [fetch]. split; [reflexivity | cbn [map]; rewrite Hfetch; cbn; auto].
    + eexists [fetch; _].
      split; [unfold s1; rewrite <- app_assoc; reflexivity|].
      cbn [map]. rewrite Hfetch, Hlookup. cbn. auto.
  - rewrite Hstate.
    destruct Hcheck as [->|[token' ->]];
      match goal with |- context [placeBuyOrder h _ _ ?s] =>
        destruct (Hplace s) as [->|[token'' ->]] end.
    + exists [fetch]. split; [reflexivity | cbn [map]; rewrite Hfetch; cbn; auto].
    + eexists [fetch; _].
      split; [unfold s1; rewrite <- app_assoc; reflexivity|].
      cbn [map]. rewrite Hfetch, Hpost. cbn. auto.
    + eexists [fetch; _].
      split; [unfold s1; rewrite <- app_assoc; reflexivity|].
      cbn [map]. rewrite Hfetch, Hlookup. cbn. auto.
    + eexists [fetch; _; _].
      split; [unfold s1; rewrite <- !app_assoc; reflexivity|].
      cbn [map]. rewrite Hfetch, Hlookup, Hpost. cbn. auto 7.
Qed.

(** X12. [executeBuy] reports a success only for an order the exchange
    accepted: the last request sent is then the signed POST of the order,
    the exchange answered it with a body that can be read, the [orderId]
    reported is the [uuid] of that body, and the amount did not compare
    below the minimum. *)
Theorem success_means_accepted_order (h : Host) (webhookData : value)
    (sent : list Request) (result : value) (sent' : list Request) :
  executeBuy h webhookData sent = (inr result, sent') ->
  prop result "success" = Bool true ->
  exists earlier token order amount,
    let request := signed_request h "POST" "/v1/orders"
                     (orderParams h CONFIG.TRADING_SYMBOL amount) token in
    sent' = (earlier ++ [request])%list
    /\ axios h earlier request = inr order
    /\ readable order = true
    /\ result = placed (prop order "uuid") amount
    /\ Number.ltb amount CONFIG.MIN_ORDER_AMOUNT = false.
Proof.
  intros Hrun Hsuccess.
  destruct (readable webhookData) eqn:Hsignal.
  2:{ destruct (executeBuy_unreadable h _ sent Hsignal) as [e He].
      rewrite He in Hrun. discriminate. }
  rewrite (executeBuy_after_gate h _ _ Hsignal) in Hrun.
  destruct (getKrwBalance h sent) as [[e|krwBalance] s1].
  { injection Hrun as <- <-. discriminate. }
  destruct (Number.ltb _ CONFIG.MIN_ORDER_AMOUNT) eqn:Hgate.
  { injection Hrun as <- <-. discriminate. }
  unfold after_gate in Hrun.
  destruct (checkDuplicateBuy h s1) as [[e|[|]] s2];
    try (injection Hrun as <- <-; discriminate).
  destruct (placeBuyOrder_sent h CONFIG.TRADING_SYMBOL (buyAmount_of krwBalance) s2)
    as [[e He]|[token Hsent]].
  { rewrite He in Hrun. cbn [report] in Hrun. injection Hrun as <- <-. discriminate. }
  cbv zeta in Hsent. rewrite Hsent in Hrun.
  destruct (axios h s2 _) as [e|order] eqn:Hanswer; cbn [report] in Hrun.
  { injection Hrun as <- <-. discriminate. }
  destruct (getProp order "uuid") as [e|orderId] eqn:Huuid.
  { injection Hrun as <- <-. discriminate. }
  destruct (getProp_returned _ _ _ Huuid) as [Hreadable ->].
  injection Hrun as <- <-.
  exists s2, token, order, (buyAmount_of krwBalance). cbv zeta.
  split; [reflexivity|]. split; [exact Hanswer|]. split; [exact Hreadable|].
  split; [reflexivity | exact Hgate].
Qed.

Lemma success_means_accepted_order_witness :
  let h := Examples.calm "50000.0" in
  exists earlier token order amount,
    let request := signed_request h "POST" "/v1/orders"
                     (orderParams h CONFIG.TRADING_SYMBOL amount) token in
    snd (executeBuy h Examples.signal []) = (earlier ++ [request])%list
    /\ axios h earlier request = inr order
    /\ readable order = true
    /\ placed (Str "abc-123") (of_Z 5000) = placed (prop order "uuid") amount
    /\ Number.ltb amount CONFIG.MIN_ORDER_AMOUNT = false.
Proof.
  intros h.
  assert (Hrun : executeBuy h Examples.signal []
                 = (inr (placed (Str "abc-123") (of_Z 5000)),
                    snd (executeBuy h Examples.signal [])))
    by (vm_compute; reflexivity).
  apply (success_means_accepted_order h Examples.signal [] _ _ Hrun eq_refl).
Defined.

(** X13. When the exchange accepts the order but answers with [null] (or
    nothing), reading the [uuid] fails: [executeBuy] reports a failure
    with the engine's [TypeError] message although the order request has
    been sent and was not rejected. *)
Theorem accepted_order_without_body (h : Host) (webhookData : value)
    (sent : list Request) (krwBalance : number) (sent1 sent2 sent3 : list Request)
    (answer : value) :
  is_object webhookData = true ->
  getKrwBalance h sent = (inr krwBalance, sent1) ->
  Number.ltb (buyAmount_of krwBalance) CONFIG.MIN_ORDER_AMOUNT = false ->
  checkDuplicateBuy h sent1 = (inr false, sent2) ->
  placeBuyOrder h CONFIG.TRADING_SYMBOL (buyAmount_of krwBalance) sent2
  = (inr answer, sent3) ->
  readable answer = false ->
  exists e request,
    executeBuy h webhookData sent = (inr (failed (message e)), sent3)
    /\ name e = "TypeError"
    /\ sent3 = (sent2 ++ [request])%list
    /\ is_place_order request = true
    /\ axios h sent2 request = inr answer.
Proof.
  intros Hsignal Hbalance Hgate Hcheck Hplace Hanswer.
  rewrite (executeBuy_after_gate h _ _ (is_object_readable _ Hsignal)), Hbalance, Hgate.
  unfold after_gate. rewrite Hcheck, Hplace. cbn [report].
  destruct (getProp_unreadable answer "uuid" Hanswer) as (e & -> & He).
  destruct (placeBuyOrder_sent h CONFIG.TRADING_SYMBOL (buyAmount_of krwBalance) sent2)
    as [[e' He']|[token Hsent]].
  { rewrite He' in Hplace. discriminate. }
  cbv zeta in Hsent. rewrite Hsent in Hplace. injection Hplace as Haxios <-.
  exists e. eexists. split; [reflexivity|]. split; [exact He|].
  split; [reflexivity|]. split; [reflexivity | exact Haxios].
Qed.

Lemma accepted_order_without_body_witness :
  let h := Examples.exchange "123456.0" (inr (Arr [])) (inr Null) in
  exists e request,
    executeBuy h Examples.signal []
    = (inr (failed (message e)), snd (executeBuy h Examples.signal []))
    /\ name e = "TypeError"
    /\ snd (executeBuy h Examples.signal [])
       = (snd (checkDuplicateBuy h (snd (getKrwBalance h []))) ++ [request])%list
    /\ is_place_order request = true
    /\ axios h (snd (checkDuplicateBuy h (snd (getKrwBalance h [])))) request = inr Null.
Proof.
  intros h.
  assert (Hbalance : getKrwBalance h [] = (inr (of_Z 123456), snd (getKrwBalance h [])))
    by (vm_compute; reflexivity).
  assert (Hgate : Number.ltb (buyAmount_of (of_Z 123456)) CONFIG.MIN_ORDER_AMOUNT = false)
    by (vm_compute; reflexivity).
  assert (Hcheck : checkDuplicateBuy h (snd (getKrwBalance h []))
                   = (inr false, snd (checkDuplicateBuy h (snd (getKrwBalance h [])))))
    by (vm_compute; reflexivity).
  assert (Hplace : placeBuyOrder h CONFIG.TRADING_SYMBOL (buyAmount_of (of_Z 123456))
                     (snd (checkDuplicateBuy h (snd (getKrwBalance h []))))
                   = (inr Null, snd (executeBuy h Examples.signal [])))
    by (vm_compute; reflexivity).
  apply (accepted_order_without_body h Examples.signal [] _ _ _ _ Null
           eq_refl Hbalance Hgate Hcheck Hplace eq_refl).
Defined.

(** X14. Nothing in the signal reaches the exchange: two signals whose
    properties can be read make [executeBuy] send the same requests and
    return the same result, whatever symbol, price or amount they name. *)
Theorem executeBuy_ignores_the_signal (h : Host) (first second : value)
    (sent : list Request) :
  readable first = true ->
  readable second = true ->
  executeBuy h first sent = executeBuy h second sent.
Proof.
  intros Hfirst Hsecond.
  rewrite (executeBuy_run h _ _ Hfirst), (executeBuy_run h _ _ Hsecond).
  reflexivity.
Qed.

Lemma executeBuy_ignores_the_signal_witness :
  executeBuy (Examples.calm "50000.0") Examples.signal []
  = executeBuy (Examples.calm "50000.0")
      (Obj [("action", Str "BUY"); ("symbol", Str "KRW-BTC"); ("price", Str "1")]) [].
Proof.
  apply (executeBuy_ignores_the_signal (Examples.calm "50000.0")); reflexivity.
Defined.

(** X15. [checkDuplicateBuy] always answers with a boolean, whatever the
    exchange does. It sends at most one request, the signed lookup of the
    recent orders, and when that could not be sent the answer is
    [false]. *)
Theorem checkDuplicateBuy_always_answers (h : Host) (sent : list Request) :
  exists answer requests,
    checkDuplicateBuy h sent = (inr answer, (sent ++ requests)%list)
    /\ (requests = [] /\ answer = false
        \/ exists token,
             requests = [signed_request h "GET" "/v1/orders"
                           (orders_query CONFIG.TRADING_SYMBOL "done,cancel") token]).
Proof.
  destruct (checkDuplicateBuy_returns h sent) as [answer Hanswer].
  pose proof (checkDuplicateBuy_state h sent) as Hstate.
  pose proof (checkDuplicateBuy_run h sent) as Hrun.
  destruct (getRecentOrders_sent h CONFIG.TRADING_SYMBOL
              CONFIG.DUPLICATE_PREVENTION_HOURS sent) as [[e He]|(token & r & Hr)].
  - rewrite He in Hrun. exists false, []. rewrite app_nil_r.
    split; [exact Hrun | left; auto].
  - exists answer. eexists. split; [|right; exists token; reflexivity].
    rewrite Hr in Hstate. cbn [snd] in Hstate.
    rewrite (surjective_pairing (checkDuplicateBuy h sent)), Hanswer, Hstate.
    reflexivity.
Qed.

(* ===================================================================== *)
(** * The window of the lookup *)
(* ===================================================================== *)

Lemma Date_ge_wider a now hours wider :
  hours <= wider ->
  Z.abs (now - wider * 60 * 60 * 1000) <= 8640000000000000 ->
  Date_ge a (cutoffTime now hours) = true ->
  Date_ge a (cutoffTime now wider) = true.
Proof.
  intros Hle Hrange Hkept.
  rewrite (cutoffTime_in_range now wider Hrange).
  unfold cutoffTime, TimeClip in Hkept.
  destruct (Z.abs (now - hours * 60 * 60 * 1000) <=? 8640000000000000);
    [|destruct a; discriminate].
  apply Date_ge_true in Hkept as (t & -> & Ht).
  apply Date_ge_true. exists t. split; [reflexivity | lia].
Qed.

(** X16. On the same answer of the exchange, a list whose entries can all
    be dated (each can be read and its [created_at] converts to a date
    without throwing), a longer window keeps every order a shorter one
    keeps, as long as the cutoff of the longer window is a date the
    engine can represent. *)
Theorem wider_window_keeps_more (h : Host) (market : string) (hours wider : Z)
    (sent : list Request) (orders : list value) (sent1 : list Request) :
  makeRequest h "GET" "/v1/orders" (orders_query market "done,cancel") true sent
  = (inr (Arr orders), sent1) ->
  forallb (datable h) orders = true ->
  hours <= wider ->
  Z.abs (Date_now h sent1 - wider * 60 * 60 * 1000) <= 8640000000000000 ->
  exists kept more,
    getRecentOrders h market (Some hours) sent = (inr (Arr kept), sent1)
    /\ getRecentOrders h market (Some wider) sent = (inr (Arr more), sent1)
    /\ forall order, In order kept -> In order more.
Proof.
  intros Hanswer Hreadable Hle Hrange.
  rewrite (getRecentOrders_answer h market hours _ _ _ Hanswer Hreadable).
  rewrite (getRecentOrders_answer h market wider _ _ _ Hanswer Hreadable).
  eexists _, _. split; [reflexivity|]. split; [reflexivity|].
  intros order Hin. apply filter_In in Hin as [Hin Hkept].
  apply filter_In. split; [exact Hin|].
  apply (Date_ge_wider _ _ hours wider Hle Hrange Hkept).
Qed.

Lemma wider_window_keeps_more_witness :
  let h := Examples.with_orders [Examples.buy_30min_ago; Examples.buy_90min_ago] in
  exists kept more,
    getRecentOrders h "KRW-ETH" (Some 1) []
    = (inr (Arr kept), snd (getRecentOrders h "KRW-ETH" (Some 1) []))
    /\ getRecentOrders h "KRW-ETH" (Some 2) []
       = (inr (Arr more), snd (getRecentOrders h "KRW-ETH" (Some 1) []))
    /\ forall order, In order kept -> In order more.
Proof.
  intros h.
  assert (Hanswer :
            makeRequest h "GET" "/v1/orders" (orders_query "KRW-ETH" "done,cancel") true []
            = (inr (Arr [Examples.buy_30min_ago; Examples.buy_90min_ago]),
               snd (getRecentOrders h "KRW-ETH" (Some 1) [])))
    by (vm_compute; reflexivity).
  assert (Hrange : Z.abs (Date_now h (snd (getRecentOrders h "KRW-ETH" (Some 1) []))
                          - 2 * 60 * 60 * 1000) <= 8640000000000000)
    by (vm_compute; discriminate).
  assert (Hdatable : forallb (datable h)
                       [Examples.buy_30min_ago; Examples.buy_90min_ago] = true)
    by (vm_compute; reflexivity).
  apply (wider_window_keeps_more h "KRW-ETH" 1 2 [] _ _ Hanswer Hdatable
           ltac:(lia) Hrange).
Defined.

Example window_of_two_hours :
  let h := Examples.with_orders [Examples.buy_30min_ago; Examples.buy_90min_ago] in
  fst (getRecentOrders h "KRW-ETH" (Some 1) []) = inr (Arr [Examples.buy_30min_ago])
  /\ fst (getRecentOrders h "KRW-ETH" (Some 2) [])
     = inr (Arr [Examples.buy_30min_ago; Examples.buy_90min_ago]).
Proof. split; vm_compute; reflexivity. Qed.

(* ===================================================================== *)
(** * The query string *)
(* ===================================================================== *)

Lemma count_char_app c a b :
  count_char c (a ++ b) = (count_char c a + count_char c b)%nat.
Proof. induction a as [|x a IH]; cbn; [reflexivity | rewrite IH; lia]. Qed.

(** One character, encoded, holds neither of the separators. *)
Lemma encoded_char_separators c :
  count_char "&" (encodeURIComponent (String c EmptyString)) = O
  /\ count_char "=" (encodeURIComponent (String c EmptyString)) = O.
Proof. destruct c as [[] [] [] [] [] [] [] []]; split; reflexivity. Qed.

Lemma encodeURIComponent_cons c rest :
  encodeURIComponent (String c rest)
  = encodeURIComponent (String c EmptyString) ++ encodeURIComponent rest.
Proof. cbn. destruct (unreserved c); reflexivity. Qed.

Lemma encodeURIComponent_separators s :
  count_char "&" (encodeURIComponent s) = O
  /\ count_char "=" (encodeURIComponent s) = O.
Proof.
  induction s as [|c rest [IHa IHe]]; [split; reflexivity|].
  rewrite encodeURIComponent_cons, !count_char_app, IHa, IHe.
  destruct (encoded_char_separators c) as [-> ->]. split; reflexivity.
Qed.

Lemma join_cons sep x y rest :
  join sep (x :: y :: rest) = x ++ sep ++ join sep (y :: rest).
Proof. reflexivity. Qed.

(** The separators of a joined list of [key=value] members. *)
Lemma count_members (c : ascii) (members : list string) :
  Forall (fun m => count_char c m = O) members ->
  count_char c (join "&" members)
  = ((if Ascii.eqb c "&" then 1 else 0) * pred (length members))%nat.
Proof.
  induction members as [|x [|y rest] IH]; intros Hall.
  - cbn. lia.
  - inversion Hall; subst. cbn [join length pred]. lia.
  - inversion Hall as [|? ? Hx Hrest]; subst.
    rewrite join_cons, !count_char_app, Hx, (IH Hrest).
    cbn [count_char length pred]. destruct (Ascii.eqb c "&"); lia.
Qed.

Lemma Array_map_length {A B} (f : A -> res B) l ys :
  Array_map f l = inr ys -> length ys = length l.
Proof.
  revert ys. induction l as [|x l IH]; cbn; intros ys H.
  - injection H as <-. reflexivity.
  - destruct (f x); [discriminate|].
    destruct (Array_map f l) as [e|rest]; [discriminate|].
    injection H as <-. cbn. f_equal. apply IH. reflexivity.
Qed.

(** The members [key=encodeURIComponent(text)] of written pairs, with
    keys that hold no separator. *)
Lemma written_members_separators (pairs : list (string * string)) :
  Forall (fun kt => count_char "&" (fst kt) = O /\ count_char "=" (fst kt) = O)
         pairs ->
  count_char "&" (join "&" (map (fun kt => fst kt ++ "=" ++ encodeURIComponent (snd kt))
                               pairs))
  = pred (length pairs)
  /\ count_char "=" (join "&" (map (fun kt => fst kt ++ "=" ++ encodeURIComponent (snd kt))
                                  pairs))
     = length pairs.
Proof.
  intros Hkeys.
  set (member := fun kt : string * string =>
         fst kt ++ "=" ++ encodeURIComponent (snd kt)).
  assert (Hamp : Forall (fun m => count_char "&" m = O) (map member pairs)).
  { apply Forall_map. eapply Forall_impl; [|exact Hkeys].
    intros kt [Ha _]. unfold member. rewrite !count_char_app, Ha.
    destruct (encodeURIComponent_separators (snd kt)) as [-> _]. reflexivity. }
  split.
  - rewrite (count_members "&" _ Hamp), length_map. cbn. lia.
  - clear Hamp. unfold member. clear member.
    induction pairs as [|kt [|kt' rest] IH].
    + reflexivity.
    + inversion Hkeys as [|? ? [_ He] _]; subst. cbn [map join length].
      rewrite !count_char_app, He.
      destruct (encodeURIComponent_separators (snd kt)) as [_ ->]. reflexivity.
    + inversion Hkeys as [|? ? [_ He] Hrest]; subst.
      cbn [map]. rewrite join_cons. cbn [map] in IH.
      rewrite !count_char_app, He, (IH Hrest).
      destruct (encodeURIComponent_separators (snd kt)) as [_ ->].
      cbn [count_char length]. cbn. lia.
Qed.

Lemma Forall_combine_fst {A B} (P : A -> Prop) (l : list A) (l' : list B) :
  Forall P l -> Forall (fun xy => P (fst xy)) (combine l l').
Proof.
  intros H. revert l'. induction H as [|x l Hx Hl IH]; intros [|y l']; cbn;
    constructor; auto.
Qed.

(** X17. Whatever the values of the parameters are, they add no separator
    to the query string: with keys that hold no [&] and no [=], the query
    string written for n parameters has exactly n - 1 [&] and n [=]. *)
Theorem queryString_separators (h : Host) (params : list (string * value))
    (queryString : string) :
  Forall (fun kv => count_char "&" (fst kv) = O /\ count_char "=" (fst kv) = O)
         params ->
  queryString_of h params = inr queryString ->
  count_char "&" queryString = pred (length params)
  /\ count_char "=" queryString = length params.
Proof.
  intros Hkeys Hquery. unfold queryString_of, Object_keys in Hquery.
  rewrite Array_map_map in Hquery.
  destruct (Array_map _ params) as [e|members] eqn:Hmembers; [discriminate|].
  injection Hquery as <-.
  destruct (Array_map_written
              (fun kv : string * value => String_of h (lookup (fst kv) params))
              (fun kv text => fst kv ++ "=" ++ encodeURIComponent text)
              params members Hmembers) as (texts & Htexts & ->).
  pose proof (Array_map_length _ _ _ Htexts) as Hlength.
  set (pairs := map (fun kt : (string * value) * string => (fst (fst kt), snd kt))
                    (combine params texts)).
  assert (Hpairs : map (fun xy : (string * value) * string =>
                          fst (fst xy) ++ "=" ++ encodeURIComponent (snd xy))
                       (combine params texts)
                   = map (fun kt : string * string =>
                            fst kt ++ "=" ++ encodeURIComponent (snd kt)) pairs)
    by (unfold pairs; rewrite map_map; reflexivity).
  rewrite Hpairs.
  assert (Hcount : length pairs = length params)
    by (unfold pairs; rewrite length_map, length_combine, Hlength; lia).
  rewrite <- Hcount. apply written_members_separators.
  unfold pairs. apply Forall_map.
  apply (Forall_combine_fst
           (fun kv : string * value =>
              count_char "&" (fst kv) = O /\ count_char "=" (fst kv) = O)
           params texts Hkeys).
Qed.

Lemma queryString_separators_witness :
  let h := Examples.calm "50000.0" in
  let params := [("market", Str "KRW-ETH"); ("note", Str "a=b&c=d")] in
  queryString_of h params = inr "market=KRW-ETH&note=a%3Db%26c%3Dd"
  /\ count_char "&" "market=KRW-ETH&note=a%3Db%26c%3Dd" = 1%nat
  /\ count_char "=" "market=KRW-ETH&note=a%3Db%26c%3Dd" = 2%nat.
Proof.
  intros h params.
  assert (Hquery : queryString_of h params = inr "market=KRW-ETH&note=a%3Db%26c%3Dd")
    by reflexivity.
  split; [exact Hquery|].
  apply (queryString_separators h params _ ltac:(repeat constructor) Hquery).
Defined.

(** The two digits of an encoded byte give the byte back. *)
Lemma hex_value_digits c :
  ascii_of_N (16 * hex_value (hex_digit (N_of_ascii c / 16))
              + hex_value (hex_digit (N_of_ascii c mod 16))) = c.
Proof. destruct c as [[] [] [] [] [] [] [] []]; reflexivity. Qed.

Lemma encodeURIComponent_injective a b :
  encodeURIComponent a = encodeURIComponent b -> a = b.
Proof.
  revert b. induction a as [|c a IH]; intros [|c' b] H.
  - reflexivity.
  - cbn in H. destruct (unreserved c'); discriminate.
  - cbn in H. destruct (unreserved c); discriminate.
  - cbn in H.
    destruct (unreserved c) eqn:Hc; destruct (unreserved c') eqn:Hc'.
    + injection H as -> H. f_equal. auto.
    + injection H as -> _. discriminate.
    + injection H as <- _. discriminate.
    + injection H as Hhi Hlo H.
      rewrite <- (hex_value_digits c), <- (hex_value_digits c'), Hhi, Hlo.
      f_equal. auto.
Qed.

Lemma append_associative (a b c : string) : (a ++ b) ++ c = a ++ b ++ c.
Proof. induction a as [|x a IH]; cbn; [reflexivity | rewrite IH; reflexivity]. Qed.

Lemma append_cancel (p a b : string) : p ++ a = p ++ b -> a = b.
Proof. induction p as [|c p IH]; cbn; intros H; [exact H | injection H; auto]. Qed.

(** Two texts free of [&], each followed by [&] and a rest, agree only
    when they and their rests do. *)
Lemma split_at_separator a b x y :
  count_char "&" a = O -> count_char "&" b = O ->
  a ++ "&" ++ x = b ++ "&" ++ y -> a = b /\ x = y.
Proof.
  revert b. induction a as [|c a IH]; intros [|c' b] Ha Hb H.
  - cbn in H. injection H as ->. auto.
  - cbn in H. injection H as <- _. cbn in Hb. discriminate.
  - cbn in H. injection H as -> _. cbn in Ha. discriminate.
  - cbn in H. injection H as -> H.
    cbn [count_char] in Ha, Hb. destruct (Ascii.eqb "&" c'); [discriminate|].
    destruct (IH b Ha Hb H) as [-> ->]. auto.
Qed.

Lemma lookup_fresh k v ps :
  ~ In k (map fst ps) -> forall k', In k' (map fst ps) ->
  lookup k' ((k, v) :: ps) = lookup k' ps.
Proof.
  intros Hfresh k' Hin. cbn [lookup].
  destruct (String.eqb_spec k' k); [subst; contradiction | reflexivity].
Qed.

Lemma map_fst_combine (keys : list string) (values : list value) :
  length values = length keys -> map fst (combine keys values) = keys.
Proof.
  revert values. induction keys as [|k keys IH]; intros [|v values] H;
    try discriminate; [reflexivity|].
  cbn. f_equal. apply IH. injection H as H. exact H.
Qed.

Lemma Array_map_ext_in {A B} (f g : A -> res B) l :
  (forall x, In x l -> f x = g x) -> Array_map f l = Array_map g l.
Proof.
  induction l as [|x l IH]; intros H; cbn; [reflexivity|].
  rewrite (H x (or_introl eq_refl)), IH; [reflexivity|].
  intros y Hy. apply H. right. exact Hy.
Qed.

(** With distinct keys every member of the query string is written from
    the value listed under its key. *)
Lemma queryString_members {C} (write : string -> value -> res C)
    (params : list (string * value)) :
  NoDup (map fst params) ->
  Array_map (fun key => write key (lookup key params)) (map fst params)
  = Array_map (fun kv => write (fst kv) (snd kv)) params.
Proof.
  induction params as [|[k v] rest IH]; intros Hkeys; [reflexivity|].
  cbn [map fst] in Hkeys. inversion Hkeys as [|? ? Hfresh Hrest]; subst.
  cbn [map fst snd Array_map lookup]. rewrite String.eqb_refl.
  destruct (write k v); [reflexivity|].
  rewrite <- (IH Hrest).
  rewrite (Array_map_ext_in
             (fun key => write key (lookup key ((k, v) :: rest)))
             (fun key => write key (lookup key rest))); [reflexivity|].
  intros k' Hin. rewrite (lookup_fresh k v rest Hfresh k' Hin). reflexivity.
Qed.

(** The query string written for text values under distinct keys. *)
Lemma queryString_of_texts (h : Host) (keys texts : list string) :
  NoDup keys ->
  length texts = length keys ->
  queryString_of h (combine keys (map Str texts))
  = inr (join "&" (map (fun kv => fst kv ++ "=" ++ encodeURIComponent (snd kv))
                       (combine keys texts))).
Proof.
  intros Hkeys Hlength. unfold queryString_of, Object_keys.
  rewrite (queryString_members
             (fun key value => match String_of h value with
                               | inl e => inl e
                               | inr text => inr (key ++ "=" ++ encodeURIComponent text)
                               end))
    by (rewrite map_fst_combine; [exact Hkeys | rewrite length_map; exact Hlength]).
  assert (Hmembers :
            Array_map (fun kv : string * value =>
                         match String_of h (snd kv) with
                         | inl e => inl e
                         | inr text => inr (fst kv ++ "=" ++ encodeURIComponent text)
                         end) (combine keys (map Str texts))
            = inr (map (fun kv : string * string =>
                          fst kv ++ "=" ++ encodeURIComponent (snd kv))
                       (combine keys texts))).
  { clear. revert texts.
    induction keys as [|k keys IH]; intros [|t texts]; try reflexivity.
    cbn [map combine fst snd Array_map]. rewrite IH. reflexivity. }
  rewrite Hmembers. reflexivity.
Qed.

Lemma joined_members_injective (keys : list string) (first second : list string) :
  length first = length keys -> length second = length keys ->
  join "&" (map (fun kv => fst kv ++ "=" ++ encodeURIComponent (snd kv))
                (combine keys first))
  = join "&" (map (fun kv => fst kv ++ "=" ++ encodeURIComponent (snd kv))
                  (combine keys second)) ->
  first = second.
Proof.
  revert first second.
  induction keys as [|k keys IH]; intros [|v first] [|w second] Hf Hs H;
    try discriminate; [reflexivity|].
  cbn [length] in Hf, Hs. injection Hf as Hf. injection Hs as Hs.
  destruct keys as [|k' keys].
  - destruct first; [|discriminate]. destruct second; [|discriminate].
    cbn in H. apply append_cancel in H. cbn in H. injection H as H.
    apply encodeURIComponent_injective in H. subst. reflexivity.
  - destruct first as [|v' first]; [discriminate|].
    destruct second as [|w' second]; [discriminate|].
    cbn [combine map] in H. rewrite !join_cons in H. cbn [fst snd] in H.
    rewrite !append_associative in H.
    apply append_cancel in H. apply (append_cancel "=") in H.
    apply split_at_separator in H;
      try apply encodeURIComponent_separators.
    destruct H as [Hv Hrest].
    apply encodeURIComponent_injective in Hv. subst w. f_equal.
    apply (IH (v' :: first) (w' :: second)); [exact Hf | exact Hs | exact Hrest].
Qed.

(** X18. The query string keeps the values of the parameters apart: for
    the same distinct keys, two lists of text values give the same query
    string, and so the same hash in the token, only when they are the
    same values. *)
Theorem queryString_injective (h : Host) (keys : list string)
    (first second : list string) :
  NoDup keys ->
  length first = length keys ->
  length second = length keys ->
  queryString_of h (combine keys (map Str first))
  = queryString_of h (combine keys (map Str second)) ->
  first = second.
Proof.
  intros Hkeys Hf Hs H.
  rewrite !queryString_of_texts in H by assumption.
  injection H as H.
  apply (joined_members_injective keys first second Hf Hs H).
Qed.

Lemma queryString_injective_witness :
  let h := Examples.calm "50000.0" in
  NoDup ["market"; "price"]
  /\ queryString_of h (combine ["market"; "price"] (map Str ["KRW-ETH"; "5000"]))
     = inr "market=KRW-ETH&price=5000"
  /\ ["KRW-ETH"; "5000"] = ["KRW-ETH"; "5000"].
Proof.
  intros h.
  assert (Hkeys : NoDup ["market"; "price"])
    by (repeat constructor; cbn; intuition discriminate).
  split; [exact Hkeys|]. split; [reflexivity|].
  apply (queryString_injective h ["market"; "price"] ["KRW-ETH"; "5000"]
           ["KRW-ETH"; "5000"] Hkeys eq_refl eq_refl eq_refl).
Defined.

(* ===================================================================== *)
(** * The webhook route *)
(* ===================================================================== *)

Section Route.

Variable h : Host.
Variable toISOString : Z -> string.

Import Routes.

Lemma post_root_run body sent :
  post_root h toISOString body sent =
  if negb (truthy body) then (inr invalid_signal, sent)
  else if negb (strict_eq_str (prop body "action") "BUY")
  then (inr invalid_signal, sent)
  else
    match normalizedSymbol_of body with
    | inl e => (inr (server_error (message e)), sent)
    | inr normalizedSymbol =>
        if negb (truthy normalizedSymbol) then (inr unsupported_symbol, sent)
        else
          match executeBuy h (Obj (set_prop "symbol" normalizedSymbol (own_props body)))
                  sent with
          | (inl e, sent') => (inr (server_error (message e)), sent')
          | (inr result, sent') =>
              (inr (executed result (toISOString (Date_now h sent'))), sent')
          end
    end.
Proof.
  unfold post_root. run.
  destruct (truthy body) eqn:Hbody; cbn [negb]; [|reflexivity].
  assert (Haction : getProp body "action" = inr (prop body "action"))
    by (destruct body; try discriminate; reflexivity).
  rewrite Haction.
  destruct (strict_eq_str (prop body "action") "BUY"); cbn [negb]; [|reflexivity].
  destruct (normalizedSymbol_of body) as [e|normalizedSymbol]; [reflexivity|].
  destruct (truthy normalizedSymbol); cbn [negb]; [|reflexivity].
  destruct (executeBuy h _ sent) as [[e|result] sent']; reflexivity.
Qed.

(** A body whose action is BUY is an object. *)
Lemma action_of_object body :
  strict_eq_str (prop body "action") "BUY" = true ->
  exists ps, body = Obj ps /\ lookup "action" ps = Str "BUY".
Proof.
  destruct body; cbn; try discriminate. intros H.
  apply strict_eq_str_true in H. eauto.
Qed.

Lemma normalizedSymbol_of_object ps :
  normalizedSymbol_of (Obj ps) =
  match lookup "symbol" ps with
  | Undefined | Null => inr Null
  | Str s => inr (if accepted_symbol s then Str "KRW-ETH" else Null)
  | _ => inl (TypeError "webhookData.symbol?.replace is not a function")
  end.
Proof.
  unfold normalizedSymbol_of, stripped_symbol, accepted_symbol. cbn [getProp].
  destruct (lookup "symbol" ps); reflexivity.
Qed.

End Route.

(** Taking the first occurrence of a pattern out leaves the text as it
    is, or shorter by the length of the pattern. *)
Lemma drop_length n s :
  (n <= String.length s)%nat -> (String.length (drop n s) + n = String.length s)%nat.
Proof.
  revert s. induction n as [|n IH]; intros s Hn; [cbn; lia|].
  destruct s as [|c s]; cbn in *; [lia|]. rewrite <- (IH s); lia.
Qed.

Lemma prefix_length p s : String.prefix p s = true -> (String.length p <= String.length s)%nat.
Proof.
  revert s. induction p as [|c p IH]; intros s H; [cbn; lia|].
  destruct s as [|c' s]; cbn in H; [discriminate|].
  destruct (Ascii.ascii_dec c c'); [|discriminate].
  cbn. apply IH in H. lia.
Qed.

Lemma String_replace_empty_cases p s :
  String_replace_empty p s = s
  \/ (String.length (String_replace_empty p s) + String.length p = String.length s)%nat.
Proof.
  induction s as [|c s IH].
  - left. destruct p; reflexivity.
  - cbn [String_replace_empty].
    destruct (String.prefix p (String c s)) eqn:Hp.
    + right. apply drop_length, prefix_length, Hp.
    + destruct IH as [->|IH]; [left; reflexivity|right]. cbn. lia.
Qed.

Lemma accepted_symbol_length s :
  accepted_symbol s = true -> String.length s = 6%nat \/ String.length s = 9%nat.
Proof.
  unfold accepted_symbol. intros H. apply orb_prop in H as [H|H].
  - apply String.eqb_eq in H.
    assert (Hlength : String.length
                        (String_replace_empty "KRW" (String_replace_empty "ETH" s))
                      = 3%nat) by (rewrite H; reflexivity).
    destruct (String_replace_empty_cases "ETH" s) as [Hfirst|Hfirst];
      destruct (String_replace_empty_cases "KRW" (String_replace_empty "ETH" s))
        as [Hsecond|Hsecond].
    + rewrite Hsecond, Hfirst in H. subst s. discriminate.
    + rewrite Hfirst in Hsecond. rewrite Hfirst in Hlength. cbn in Hsecond. lia.
    + rewrite Hsecond in Hlength. cbn in Hfirst. lia.
    + cbn in Hfirst, Hsecond. lia.
  - apply String.eqb_eq in H. subst. auto.
Qed.

(** X19. A body that is missing, or whose [action] is not the text BUY, is
    answered 400 with the invalid-signal error, and the exchange is not
    contacted. *)
Theorem post_root_rejects_other_actions (h : Host) (toISOString : Z -> string)
    (body : value) (sent : list Request) :
  truthy body = false \/ strict_eq_str (prop body "action") "BUY" = false ->
  Routes.post_root h toISOString body sent = (inr invalid_signal, sent).
Proof.
  intros Hbody. rewrite post_root_run.
  destruct (truthy body); cbn [negb]; [|reflexivity].
  destruct Hbody as [Hbody| ->]; [discriminate | reflexivity].
Qed.

Lemma post_root_rejects_other_actions_witness :
  Routes.post_root (Examples.calm "50000.0") Scenes.stamp
    (Obj [("action", Str "SELL"); ("symbol", Str "ETHKRW")]) []
  = (inr invalid_signal, []).
Proof.
  apply (post_root_rejects_other_actions (Examples.calm "50000.0") Scenes.stamp).
  right. reflexivity.
Defined.

(** X20. A BUY whose symbol is missing, [null], or a text that is not six
    or nine characters long is answered 400 with the unsupported-symbol
    error, and the exchange is not contacted. The market code KRW-ETH of
    the exchange itself, seven characters, is among them. *)
Theorem post_root_unsupported_symbol (h : Host) (toISOString : Z -> string)
    (ps : list (string * value)) (sent : list Request) :
  lookup "action" ps = Str "BUY" ->
  match lookup "symbol" ps with
  | Undefined | Null => True
  | Str s => String.length s <> 6%nat /\ String.length s <> 9%nat
  | _ => False
  end ->
  Routes.post_root h toISOString (Obj ps) sent = (inr unsupported_symbol, sent).
Proof.
  intros Haction Hsymbol. rewrite post_root_run.
  cbn [truthy negb prop]. rewrite Haction. cbn [strict_eq_str].
  rewrite String.eqb_refl. cbn [negb].
  rewrite normalizedSymbol_of_object.
  destruct (lookup "symbol" ps) as [| | | |s| |]; try contradiction; try reflexivity.
  destruct (accepted_symbol s) eqn:Haccepted; [|reflexivity].
  apply accepted_symbol_length in Haccepted. lia.
Qed.

Lemma post_root_unsupported_symbol_witness :
  Routes.post_root (Examples.calm "50000.0") Scenes.stamp Examples.signal []
  = (inr unsupported_symbol, []).
Proof.
  apply (post_root_unsupported_symbol (Examples.calm "50000.0") Scenes.stamp).
  - reflexivity.
  - cbn. split; discriminate.
Defined.

(** X21. A BUY whose symbol is there but is not text (a number, a boolean,
    an array, an object) is answered 500 with the server error and the
    engine's message for calling [replace] on it; the exchange is not
    contacted. *)
Theorem post_root_symbol_not_text (h : Host) (toISOString : Z -> string)
    (ps : list (string * value)) (sent : list Request) :
  lookup "action" ps = Str "BUY" ->
  not_text (lookup "symbol" ps) = true ->
  Routes.post_root h toISOString (Obj ps) sent
  = (inr (server_error "webhookData.symbol?.replace is not a function"), sent).
Proof.
  intros Haction Hsymbol. rewrite post_root_run.
  cbn [truthy negb prop]. rewrite Haction. cbn [strict_eq_str].
  rewrite String.eqb_refl. cbn [negb].
  rewrite normalizedSymbol_of_object.
  destruct (lookup "symbol" ps); try discriminate; reflexivity.
Qed.

Lemma post_root_symbol_not_text_witness :
  Routes.post_root (Examples.calm "50000.0") Scenes.stamp
    (Obj [("action", Str "BUY"); ("symbol", Num (of_Z 1))]) []
  = (inr (server_error "webhookData.symbol?.replace is not a function"), []).
Proof.
  apply (post_root_symbol_not_text (Examples.calm "50000.0") Scenes.stamp);
    reflexivity.
Defined.

(** X22. A BUY with a symbol the route lets through runs [executeBuy] once,
    on the signal with its symbol set to KRW-ETH, and is answered 200 with
    [success: true] at the top whatever the engine reports: the engine's
    own result, a failure included, sits under [result]. *)
Theorem post_root_wraps_the_result (h : Host) (toISOString : Z -> string)
    (ps : list (string * value)) (s : string) (sent : list Request) :
  lookup "action" ps = Str "BUY" ->
  lookup "symbol" ps = Str s ->
  accepted_symbol s = true ->
  exists result sent',
    executeBuy h (Obj (set_prop "symbol" (Str "KRW-ETH") ps)) sent = (inr result, sent')
    /\ ExecutionResult result
    /\ Routes.post_root h toISOString (Obj ps) sent
       = (inr (executed result (toISOString (Date_now h sent'))), sent').
Proof.
  intros Haction Hsymbol Haccepted.
  destruct (executeBuy_result h (Obj (set_prop "symbol" (Str "KRW-ETH") ps)) sent eq_refl)
    as (result & sent' & Hrun & Hresult).
  exists result, sent'. split; [exact Hrun|]. split; [exact Hresult|].
  rewrite post_root_run.
  cbn [truthy negb prop]. rewrite Haction. cbn [strict_eq_str].
  rewrite String.eqb_refl. cbn [negb].
  rewrite normalizedSymbol_of_object, Hsymbol, Haccepted.
  cbn [truthy negb own_props]. rewrite Hrun. reflexivity.
Qed.

Lemma post_root_wraps_the_result_witness :
  let body := Obj [("action", Str "BUY"); ("symbol", Str "ETHKRW")] in
  exists result sent',
    executeBuy Examples.accounts_down
      (Obj (set_prop "symbol" (Str "KRW-ETH")
              [("action", Str "BUY"); ("symbol", Str "ETHKRW")])) []
    = (inr result, sent')
    /\ ExecutionResult result
    /\ Routes.post_root Examples.accounts_down Scenes.stamp body []
       = (inr (executed result (Scenes.stamp (Date_now Examples.accounts_down sent'))),
          sent').
Proof.
  intros body.
  apply (post_root_wraps_the_result Examples.accounts_down Scenes.stamp
           [("action", Str "BUY"); ("symbol", Str "ETHKRW")] "ETHKRW" []);
    reflexivity.
Defined.

Example failed_buy_answered_200 :
  fst (Routes.post_root Examples.accounts_down Scenes.stamp
         (Obj [("action", Str "BUY"); ("symbol", Str "ETHKRW")]) [])
  = inr (executed (failed "Request failed with status code 503") "t1700000000000").
Proof. vm_compute. reflexivity. Qed.

(** X23. The webhook route answers every body: with 200, 400 or 500, and
    whenever the answer is not 200 nothing has been sent to the
    exchange. *)
Theorem post_root_always_responds (h : Host) (toISOString : Z -> string)
    (body : value) (sent : list Request) :
  exists response sent',
    Routes.post_root h toISOString body sent = (inr response, sent')
    /\ In (statusCode response) [200; 400; 500]
    /\ (statusCode response <> 200 -> sent' = sent).
Proof.
  rewrite post_root_run.
  destruct (negb (truthy body)).
  { eexists _, _. split; [reflexivity|]. cbn. auto. }
  destruct (negb (strict_eq_str (prop body "action") "BUY")) eqn:Haction.
  { eexists _, _. split; [reflexivity|]. cbn. auto. }
  destruct (Routes.normalizedSymbol_of body) as [e|normalizedSymbol].
  { eexists _, _. split; [reflexivity|]. cbn. auto. }
  destruct (negb (truthy normalizedSymbol)).
  { eexists _, _. split; [reflexivity|]. cbn. auto. }
  destruct (executeBuy_result h
              (Obj (set_prop "symbol" normalizedSymbol (own_props body))) sent eq_refl)
    as (result & sent' & -> & _).
  eexists _, _. split; [reflexivity|]. cbn. split; [auto|]. intros H. contradiction.
Qed.

(* ===================================================================== *)
(** * A token that cannot be signed *)
(* ===================================================================== *)

(** X24. When the token of the balance fetch cannot be signed, as with a
    missing secret key, [executeBuy] reports the signer's error as a
    failure and nothing at all is sent to the exchange. *)
Theorem unsigned_token_sends_nothing (h : Host) (webhookData : value)
    (sent : list Request) (e : exn) :
  is_object webhookData = true ->
  jwt_sign h sent (Obj [("access_key", accessKey h); ("nonce", Str (randomUUID h sent))])
    (secretKey h) jwt_options = inl e ->
  executeBuy h webhookData sent = (inr (failed (message e)), sent).
Proof.
  intros Hsignal Hsign.
  rewrite (executeBuy_run h _ _ (is_object_readable _ Hsignal)).
  assert (Hfetch : getAccounts h sent = (inl e, sent)).
  { unfold getAccounts. rewrite makeRequest_auth.
    change (jwt_payload h (randomUUID h sent) (queryHash_of h []))
      with [("access_key", accessKey h); ("nonce", Str (randomUUID h sent))].
    rewrite Hsign. reflexivity. }
  rewrite (getKrwBalance_throws_with h _ _ _ Hfetch). reflexivity.
Qed.

Lemma unsigned_token_sends_nothing_witness :
  executeBuy Scenes.keyless Examples.signal []
  = (inr (failed "secretOrPrivateKey must have a value"), []).
Proof.
  apply (unsigned_token_sends_nothing Scenes.keyless Examples.signal []
           (Error "secretOrPrivateKey must have a value"));
    reflexivity.
Defined.
